(** * MoMo ETL: a shallow embedding of the transform stage

    The development follows the Python sources
      - [src/etl/clean_normalize.py]  (class [DataCleaner]),
      - [src/etl/categorize.py]       (class [TransactionCategorizer]),
      - [src/etl/parse_xml.py]        (class [ETLXMLParser]),
      - [src/dsa/parse_xml.py]        (function [parse_sms_xml]),
      - [src/etl/run.py]              (class [ETLPipeline]).

    Modelling conventions.
      - A Python [str] is a Rocq [string]; characters are code points below
        256, so [\d] is the ten ASCII digits and [\s] / [str.strip] use the
        white-space code points below 256.
      - A Python [float] is an exact rational ([Q]) or one of the special
        values; no rounding is modelled.
      - A [dict] is an association list in insertion order, as Python
        iterates it.
      - Code that can raise returns a [result]; [try]/[except Exception]
        is a match on it.
      - [datetime.now()] and the [datetime] parsers are parameters. *)

From Stdlib Require Import List String Ascii ZArith QArith Qminmax Qround Bool Lia Arith Lqa Sorted.
From Stdlib Require DecimalString.
Import ListNotations.
Local Open Scope string_scope.

(** ** Characters and strings, as Python's [str] methods see them *)

Definition code (c : ascii) : nat := nat_of_ascii c.

(** [\d] on code points below 256. *)
Definition is_digit (c : ascii) : bool :=
  (48 <=? code c)%nat && (code c <=? 57)%nat.

(** [str.isspace] / [\s] on code points below 256. *)
Definition is_space (c : ascii) : bool :=
  let n := code c in
  ((9 <=? n)%nat && (n <=? 13)%nat) || ((28 <=? n)%nat && (n <=? 32)%nat)
  || (n =? 133)%nat || (n =? 160)%nat.

(** [str.lower] on one code point below 256. *)
Definition lower_char (c : ascii) : ascii :=
  let n := code c in
  if ((65 <=? n)%nat && (n <=? 90)%nat)
     || ((192 <=? n)%nat && (n <=? 222)%nat && negb (n =? 215)%nat)
  then ascii_of_nat (n + 32) else c.

Fixpoint lower (s : string) : string :=
  match s with
  | EmptyString => EmptyString
  | String c t => String (lower_char c) (lower t)
  end.

Fixpoint lstrip (s : string) : string :=
  match s with
  | EmptyString => EmptyString
  | String c t => if is_space c then lstrip t else s
  end.

Fixpoint rstrip (s : string) : string :=
  match s with
  | EmptyString => EmptyString
  | String c t =>
      match rstrip t with
      | EmptyString => if is_space c then EmptyString else String c EmptyString
      | t' => String c t'
      end
  end.

Definition strip (s : string) : string := rstrip (lstrip s).

Fixpoint drop (n : nat) (s : string) : string :=
  match n, s with
  | O, _ => s
  | S k, EmptyString => EmptyString
  | S k, String _ t => drop k t
  end.

Fixpoint take (n : nat) (s : string) : string :=
  match n, s with
  | O, _ => EmptyString
  | S k, EmptyString => EmptyString
  | S k, String c t => String c (take k t)
  end.

Fixpoint all_chars (f : ascii -> bool) (s : string) : bool :=
  match s with
  | EmptyString => true
  | String c t => f c && all_chars f t
  end.

(** [s.startswith(p)] *)
Fixpoint startswith (p s : string) : bool :=
  match p, s with
  | EmptyString, _ => true
  | String a p', String b s' => Ascii.eqb a b && startswith p' s'
  | String _ _, EmptyString => false
  end.

(** [p in s] *)
Fixpoint contains (p s : string) : bool :=
  startswith p s ||
  match s with
  | EmptyString => false
  | String _ t => contains p t
  end.

(** [re.search(p, s, re.IGNORECASE)] for a pattern [p] that is a literal
    written in lower case (every pattern of the categorizer is one). *)
Definition search_ci (p s : string) : bool := contains p (lower s).

(** Python truthiness of a string. *)
Definition nonempty (s : string) : bool :=
  match s with EmptyString => false | _ => true end.

(** ** Phone numbers: [DataCleaner._clean_phone_number] *)

(** [self.phone_patterns]: each source pattern is a literal prefix followed
    by [(\d{9})]; each replacement is a literal followed by [\1]. *)
Definition phone_patterns : list (string * string) :=
  [ ("+250", "+250")      (* \+250(\d{9}) -> +250\1 *)
  ; ("250",  "+250")      (* 250(\d{9})   -> +250\1 *)
  ; ("0",    "+250")      (* 0(\d{9})     -> +250\1 *)
  ; (EmptyString,     "+250") ].   (* (\d{9})      -> +250\1 *)

(** A match of [lit(\d{9})] at the start of [s]: the captured group and
    what follows the match. *)
Definition match_at (lit s : string) : option (string * string) :=
  if startswith lit s then
    let r := drop (String.length lit) s in
    let d := take 9 r in
    if (String.length d =? 9)%nat && all_chars is_digit d
    then Some (d, drop 9 r) else None
  else None.

(** [re.match(pattern, s)]: a match at the start, nothing asked of the end. *)
Definition re_match (lit s : string) : bool :=
  match match_at lit s with Some _ => true | None => false end.

(** [re.sub(pattern, repl, s)]: every non-overlapping match, leftmost first,
    is replaced; [skip] counts the characters of the current match still to
    be passed over. *)
Fixpoint sub_from (lit repl : string) (skip : nat) (s : string) : string :=
  match s with
  | EmptyString => EmptyString
  | String c t =>
      match skip with
      | S k => sub_from lit repl k t
      | O =>
          match match_at lit s with
          | Some (d, _) =>
              repl ++ d ++ sub_from lit repl (String.length lit + 8) t
          | None => String c (sub_from lit repl 0 t)
          end
      end
  end.

Definition re_sub (lit repl s : string) : string := sub_from lit repl 0 s.

(** The [for pattern, replacement in self.phone_patterns] loop with its
    [break]. *)
Fixpoint apply_phone_patterns (ps : list (string * string)) (phone : string)
  : string :=
  match ps with
  | [] => phone
  | (lit, repl) :: ps' =>
      if re_match lit phone then re_sub lit repl phone
      else apply_phone_patterns ps' phone
  end.

Definition _clean_phone_number (phone : string) : string :=
  if negb (nonempty phone) || (strip phone =? EmptyString) || (lower phone =? "unknown")
  then "Unknown"
  else
    let phone := strip phone in
    let phone := apply_phone_patterns phone_patterns phone in
    if re_match "+250" phone then phone else "Unknown".

(** The canonical form of the data model: [+250] and exactly nine digits. *)
Definition canonical_phone (s : string) : bool :=
  startswith "+250" s && (String.length s =? 13)%nat
  && all_chars is_digit (drop 4 s).

(** ** A small backtracking matcher for the regular expressions of the cleaner

    A matcher maps a string to the remainders left by every way of matching
    at its start, in the order in which Python's backtracking tries them
    (greedy first).  The match [re] reports is the first one. *)

Definition rx := string -> list string.

Definition rx_chr (f : ascii -> bool) : rx :=
  fun s => match s with
           | String c t => if f c then [t] else []
           | EmptyString => []
           end.

Definition rx_eps : rx := fun s => [s].
Definition rx_seq (p q : rx) : rx := fun s => flat_map q (p s).
Definition rx_opt (p : rx) : rx := fun s => (p s ++ [s])%list.

Fixpoint rx_star_fuel (n : nat) (p : rx) (s : string) : list string :=
  match n with
  | O => [s]
  | S k =>
      (flat_map (fun r => if (String.length r <? String.length s)%nat
                         then rx_star_fuel k p r else []) (p s) ++ [s])%list
  end.

Definition rx_star (p : rx) : rx := fun s => rx_star_fuel (String.length s) p s.

(** A literal under [re.IGNORECASE]. *)
Fixpoint rx_lit_ci (lit : string) : rx :=
  match lit with
  | EmptyString => rx_eps
  | String a l =>
      rx_seq (rx_chr (fun c => Ascii.eqb (lower_char c) (lower_char a)))
             (rx_lit_ci l)
  end.

Definition rx_is (a : ascii) : rx := rx_chr (Ascii.eqb a).
Definition rx_digit : rx := rx_chr is_digit.
Definition rx_ws : rx := rx_chr is_space.

(** [\d{n}] *)
Fixpoint rx_digits (n : nat) : rx :=
  match n with
  | O => rx_eps
  | S k => rx_seq rx_digit (rx_digits k)
  end.

(** [\d{1,3}] *)
Definition rx_d13 : rx :=
  rx_seq rx_digit (rx_opt (rx_seq rx_digit (rx_opt rx_digit))).

(** [\d{1,3}(?:,\d{3})*(?:\.\d{2})?] *)
Definition rx_grouped : rx :=
  rx_seq rx_d13
    (rx_seq (rx_star (rx_seq (rx_is ",") (rx_digits 3)))
            (rx_opt (rx_seq (rx_is ".") (rx_digits 2)))).

(** [\d+] *)
Definition rx_d1 : rx := rx_seq rx_digit (rx_star rx_digit).

(** A pattern [pre (grp) post] with one capturing group. *)
Record pattern := { pre : rx; grp : rx; post : rx }.

Fixpoint first_some {A B} (f : A -> option B) (l : list A) : option B :=
  match l with
  | [] => None
  | a :: l' => match f a with Some b => Some b | None => first_some f l' end
  end.

(** The first successful match of [p] at the start of [s]: [group(1)]. *)
Definition match_here (p : pattern) (s : string) : option string :=
  first_some (fun r0 =>
    first_some (fun r1 =>
      match post p r1 with
      | [] => None
      | _ :: _ => Some (take (String.length r0 - String.length r1) r0)
      end) (grp p r0)) (pre p s).

(** [re.search(p, s).group(1)]: the leftmost start position that matches. *)
Fixpoint re_search (p : pattern) (s : string) : option string :=
  match match_here p s with
  | Some g => Some g
  | None =>
      match s with
      | EmptyString => None
      | String _ t => re_search p t
      end
  end.

Definition rx_rwf_after : rx := rx_seq (rx_star rx_ws) (rx_lit_ci "RWF").

(** [self.amount_patterns], all used with [re.IGNORECASE]. *)
Definition amount_patterns : list pattern :=
  [ {| pre := rx_eps; grp := rx_grouped; post := rx_rwf_after |}
      (* (\d{1,3}(?:,\d{3})*(?:\.\d{2})?)\s*RWF *)
  ; {| pre := rx_eps; grp := rx_grouped; post := rx_eps |}
      (* (\d{1,3}(?:,\d{3})*(?:\.\d{2})?) *)
  ; {| pre := rx_seq (rx_lit_ci "RWF") (rx_star rx_ws);
       grp := rx_grouped; post := rx_eps |}
      (* RWF\s*(\d{1,3}(?:,\d{3})*(?:\.\d{2})?) *)
  ; {| pre := rx_eps; grp := rx_d1; post := rx_rwf_after |}
      (* (\d+)\s*RWF *)
  ; {| pre := rx_seq (rx_lit_ci "RWF") (rx_star rx_ws);
       grp := rx_d1; post := rx_eps |} ].
      (* RWF\s*(\d+) *)

(** The [for pattern in self.amount_patterns] loop with its [break]:
    [group(1)] of the first pattern that matches. *)
Definition first_amount_match (s : string) : option string :=
  first_some (fun p => re_search p s) amount_patterns.

(** [s.replace(c, EmptyString)] for a one-character [c]. *)
Fixpoint remove_char (a : ascii) (s : string) : string :=
  match s with
  | EmptyString => EmptyString
  | String c t => if Ascii.eqb c a then remove_char a t
                  else String c (remove_char a t)
  end.

(** ** Floats *)

Inductive pyfloat :=
| FQ (q : Q)            (* a finite value: the rational that the double equals;
                           the two zeros are one value *)
| FInf (negative : bool)
| FNaN (obj : N).       (* a NaN, and the name of its float object *)

(** A NaN equals nothing, itself included, but a dict finds a key, and a
    sequence compares an element, by identity before equality: so a NaN
    carries the name of its object.  None of the functions below tests the
    identity of a float that it has made itself, so the NaN they make go
    under one name. *)
Definition made_nan : pyfloat := FNaN 0.

Definition fzero : pyfloat := FQ 0.

(** *** Rounding to binary64 *)

(** The integer nearest to [n/d], for [d > 0]; of two nearest ones, the
    even one. *)
Definition round_half_even (n d : Z) : Z :=
  let q := (n / d)%Z in
  match (2 * (n mod d) ?= d)%Z with
  | Lt => q
  | Gt => (q + 1)%Z
  | Eq => if Z.even q then q else (q + 1)%Z
  end.

(** [floor (log2 (n/d))] for positive [n] and [d]. *)
Definition ilog2 (n d : Z) : Z :=
  let l := (Z.log2 n - Z.log2 d)%Z in
  if (0 <=? l)%Z
  then (if (d * 2 ^ l <=? n)%Z then l else l - 1)%Z
  else (if (d <=? n * 2 ^ (- l))%Z then l else l - 1)%Z.

(** [m * 2^e] *)
Definition ldexp (m e : Z) : Q :=
  if (0 <=? e)%Z then inject_Z (m * 2 ^ e)
  else Qred (m # Z.to_pos (2 ^ (- e))).

(** The binary64 number nearest to the positive rational [n/d], ties to
    the even mantissa: a mantissa of 53 bits, no exponent below that of
    the subnormal numbers, and none excluded above. *)
Definition fl_pos (n d : Z) : Q :=
  let e := Z.max (ilog2 n d - 52) (-1074) in
  let m := if (0 <=? e)%Z then round_half_even n (d * 2 ^ e)
           else round_half_even (n * 2 ^ (- e)) d in
  ldexp m e.

(** Rounding of a rational to binary64, where the result is finite. *)
Definition fl (q : Q) : Q :=
  match Qnum q with
  | Z0 => 0
  | Zpos n => fl_pos (Zpos n) (Zpos (Qden q))
  | Zneg n => - fl_pos (Zpos n) (Zpos (Qden q))
  end.

(** The float nearest to a rational: a result of [2^1024] or more in
    magnitude is an infinity. *)
Definition round64 (q : Q) : pyfloat :=
  let r := fl q in
  if Qle_bool (inject_Z (2 ^ 1024)) r then FInf false
  else if Qle_bool r (- inject_Z (2 ^ 1024)) then FInf true
  else FQ r.

(** The float that a decimal literal of the source denotes. *)
Definition float_lit (q : Q) : Q := fl q.

Definition digit_val (c : ascii) : Z := Z.of_nat (code c - 48).

Fixpoint digits_val (acc : Z) (s : string) : Z :=
  match s with
  | EmptyString => acc
  | String c t => digits_val (10 * acc + digit_val c) t
  end.

Fixpoint split_dot (s : string) : string * option string :=
  match s with
  | EmptyString => (EmptyString, None)
  | String c t =>
      if Ascii.eqb c "." then (EmptyString, Some t)
      else let '(a, b) := split_dot t in (String c a, b)
  end.

(** [Decimal(s)] for [s] of the form [digits] or [digits.digits]. *)
Definition decimal_plain (s : string) : option Q :=
  let '(ip, fp) := split_dot s in
  if nonempty ip && all_chars is_digit ip then
    match fp with
    | None => Some (Qred (digits_val 0 ip # 1))
    | Some f =>
        if all_chars is_digit f then
          Some (Qred (digits_val 0 (ip ++ f)
                      # Pos.pow 10 (Pos.of_nat (String.length f))))
        else None
    end
  else None.

(** [float(Decimal(s))] for the strings that reach it in [_clean_amount]:
    a captured group, or a string without any digit, where [Decimal]
    accepts only the special values (white space and underscores dropped,
    any case, optional sign).  [None] stands for [InvalidOperation] and for
    the [ValueError] that [float] raises on a signalling NaN. *)
Definition float_of_decimal (s : string) : option pyfloat :=
  match decimal_plain s with
  | Some q => Some (round64 q)
  | None =>
      let t := lower (remove_char "_" (strip s)) in
      let '(neg, u) :=
        match t with
        | String "-" u => (true, u)
        | String "+" u => (false, u)
        | _ => (false, t)
        end in
      if (u =? "inf") || (u =? "infinity") then Some (FInf neg)
      else if u =? "nan" then Some made_nan
      else None
  end.

(** [DataCleaner._clean_amount] on a string. *)
Definition _clean_amount (amount_str : string) : pyfloat :=
  if negb (nonempty amount_str) then fzero
  else
    let amount_str := strip amount_str in
    let amount_str :=
      match first_amount_match amount_str with
      | Some g => g
      | None => amount_str
      end in
    let amount_str := remove_char "," amount_str in
    match float_of_decimal amount_str with
    | Some f => f
    | None => fzero
    end.

(** ** Python values, dictionaries and exceptions *)

#[local] Set Warnings "-register-all".
Inductive pyval :=
| PNone
| PBool (b : bool)
| PInt (z : Z)
| PFloat (f : pyfloat)
| PStr (s : string)
| PList (l : list pyval)
| PDict (d : list (string * pyval)).

Definition dict := list (string * pyval).

Inductive exn :=
| AttributeError | TypeError | ValueError | KeyError
| ParseError | FileNotFoundError.

Inductive result (A : Type) :=
| Ok (a : A)
| Raise (e : exn).
Arguments Ok {A} a.
Arguments Raise {A} e.

Definition bind {A B} (r : result A) (f : A -> result B) : result B :=
  match r with
  | Ok a => f a
  | Raise e => Raise e
  end.

Notation "x <- r ;; k" := (bind r (fun x => k))
  (at level 61, r at next level, right associativity).

(** [k in d] *)
Fixpoint dict_has (k : string) (d : dict) : bool :=
  match d with
  | [] => false
  | (k', _) :: d' => (k' =? k) || dict_has k d'
  end.

(** [d.get(k)] *)
Fixpoint dict_get (k : string) (d : dict) : option pyval :=
  match d with
  | [] => None
  | (k', v) :: d' => if k' =? k then Some v else dict_get k d'
  end.

(** [d.get(k, dflt)] *)
Definition dict_get_or (k : string) (dflt : pyval) (d : dict) : pyval :=
  match dict_get k d with Some v => v | None => dflt end.

(** [d[k] = v]: an existing key keeps its place, a new one goes last. *)
Fixpoint dict_set (k : string) (v : pyval) (d : dict) : dict :=
  match d with
  | [] => [(k, v)]
  | (k', v') :: d' =>
      if k' =? k then (k', v) :: d' else (k', v') :: dict_set k v d'
  end.

Definition is_dict (v : pyval) : bool :=
  match v with PDict _ => true | _ => false end.

Definition float_truthy (f : pyfloat) : bool :=
  match f with
  | FQ q => negb (Qeq_bool q 0)
  | _ => true
  end.

(** [bool(v)] *)
Definition truthy (v : pyval) : bool :=
  match v with
  | PNone => false
  | PBool b => b
  | PInt z => negb (z =? 0)%Z
  | PFloat f => float_truthy f
  | PStr s => nonempty s
  | PList l => match l with [] => false | _ => true end
  | PDict d => match d with [] => false | _ => true end
  end.

(** A number as a float, for comparisons; [None] for a value that is not a
    number. *)
Definition as_number (v : pyval) : option pyfloat :=
  match v with
  | PBool b => Some (FQ (if b then 1 else 0))
  | PInt z => Some (FQ (z # 1))
  | PFloat f => Some f
  | _ => None
  end.

(** [f <= c] and [f >= c] and [f < c] for a finite constant [c]. *)
Definition float_le (f : pyfloat) (c : Q) : bool :=
  match f with FQ q => Qle_bool q c | FInf n => n | FNaN _ => false end.
Definition float_ge (f : pyfloat) (c : Q) : bool :=
  match f with FQ q => Qle_bool c q | FInf n => negb n | FNaN _ => false end.
Definition float_lt (f : pyfloat) (c : Q) : bool :=
  match f with
  | FQ q => negb (Qle_bool c q)
  | FInf n => n
  | FNaN _ => false
  end.

(** [v <= c], [v < c], [v == 0] against a number; ordering a value that is
    not a number against one raises [TypeError]. *)
Definition py_le (v : pyval) (c : Q) : result bool :=
  match as_number v with Some f => Ok (float_le f c) | None => Raise TypeError end.
Definition py_ge (v : pyval) (c : Q) : result bool :=
  match as_number v with Some f => Ok (float_ge f c) | None => Raise TypeError end.
Definition py_lt (v : pyval) (c : Q) : result bool :=
  match as_number v with Some f => Ok (float_lt f c) | None => Raise TypeError end.
Definition py_eq0 (v : pyval) : bool :=
  match as_number v with
  | Some (FQ q) => Qeq_bool q 0
  | _ => false
  end.

(** [v == s] for a string literal [s]. *)
Definition py_eq_str (v : option pyval) (s : string) : bool :=
  match v with Some (PStr t) => t =? s | _ => false end.

(** ** Rendering *)

Definition string_of_Z (z : Z) : string :=
  ((if (z <? 0)%Z then "-" else EmptyString)
   ++ DecimalString.NilZero.string_of_uint (N.to_uint (Z.to_N (Z.abs z)))).

(** *** [repr] of a float: the shortest decimal that reads back as the
    same float. *)

(** [floor (log10 (n/d))] for positive [n] and [d]. *)
Definition ilog10 (n d : Z) : Z :=
  let len z := Z.of_nat (String.length (string_of_Z z)) in
  let l := (len n - len d)%Z in
  if (0 <=? l)%Z
  then (if (d * 10 ^ l <=? n)%Z then l else l - 1)%Z
  else (if (d <=? n * 10 ^ (- l))%Z then l else l - 1)%Z.

(** [D * 10^x] *)
Definition dec (D x : Z) : Q :=
  if (0 <=? x)%Z then inject_Z (D * 10 ^ x)
  else D # Z.to_pos (10 ^ (- x)).

(** [float] of the decimal [D * 10^x] is [q]. *)
Definition reads_as (q : Q) (D x : Z) : bool :=
  match round64 (dec D x) with
  | FQ r => Qeq_bool r q
  | _ => false
  end.

(** The decimal of [p] significant digits to print for [q], which lies in
    the decade of [10^k]: of the two that enclose [q], one that reads back
    as [q]; the nearer one if both do. *)
Definition digits_at (q : Q) (k p : Z) : option (Z * Z) :=
  let x := (k - p + 1)%Z in
  let lo := Qfloor (q / dec 1 x) in
  let hi := (lo + 1)%Z in
  match reads_as q lo x, reads_as q hi x with
  | true, false => Some (lo, x)
  | false, true => Some (hi, x)
  | false, false => None
  | true, true =>
      match Qcompare (q - dec lo x) (dec hi x - q) with
      | Lt => Some (lo, x)
      | Gt => Some (hi, x)
      | Eq => Some (if Z.even lo then lo else hi, x)
      end
  end.

(** The fewest digits that do: seventeen always do for a float. *)
Fixpoint shortest_from (fuel : nat) (q : Q) (k p : Z) : Z * Z :=
  match fuel with
  | O => (Qfloor (q / dec 1 (k - 16)), (k - 16)%Z)
  | S fuel' =>
      match digits_at q k p with
      | Some r => r
      | None => shortest_from fuel' q k (p + 1)
      end
  end.

Fixpoint strip_zeros (rev_digits : list ascii) : list ascii :=
  match rev_digits with
  | "0"%char :: t => strip_zeros t
  | _ => rev_digits
  end.

(** The digits of the shortest decimal, without trailing zeros, and the
    place of the point: the value is [0.digits * 10^point]. *)
Definition shortest_digits (q : Q) : string * Z :=
  let k := ilog10 (Qnum q) (Zpos (Qden q)) in
  let '(D, x) := shortest_from 17 q k 1 in
  let s := string_of_Z D in
  (string_of_list_ascii (rev (strip_zeros (rev (list_ascii_of_string s)))),
   (Z.of_nat (String.length s) + x)%Z).

Fixpoint zeros (n : nat) : string :=
  match n with
  | O => EmptyString
  | S n' => String "0" (zeros n')
  end.

(** [repr] of a positive finite float: exponent notation when the point
    lies more than sixteen places to the right, or four or more to the
    left, of the first digit. *)
Definition repr_pos (q : Q) : string :=
  let '(digits, point) := shortest_digits q in
  let n := Z.of_nat (String.length digits) in
  if ((point <=? -4) || (16 <? point))%Z then
    let e := (point - 1)%Z in
    take 1 digits
    ++ (if (1 <? n)%Z then "." ++ drop 1 digits else EmptyString)
    ++ "e" ++ (if (e <? 0)%Z then "-" else "+")
    ++ (if (Z.abs e <? 10)%Z then "0" else EmptyString)
    ++ string_of_Z (Z.abs e)
  else if (point <=? 0)%Z then
    "0." ++ zeros (Z.to_nat (- point)) ++ digits
  else if (n <=? point)%Z then
    digits ++ zeros (Z.to_nat (point - n)) ++ ".0"
  else
    take (Z.to_nat point) digits ++ "." ++ drop (Z.to_nat point) digits.

(** [repr] of a float. *)
Definition float_str (f : pyfloat) : string :=
  match f with
  | FInf false => "inf"
  | FInf true => "-inf"
  | FNaN _ => "nan"
  | FQ q =>
      match Qnum q with
      | Z0 => "0.0"
      | Zpos _ => repr_pos q
      | Zneg _ => "-" ++ repr_pos (- q)
      end
  end.

(** What the surrounding system supplies: the clock, the [datetime]
    parsers (each gives the ISO rendering of the parsed instant, or [None]
    when Python raises), [repr] of containers and [str] of an exception. *)
Record Env := {
  now_iso : string;                       (* datetime.now().isoformat() *)
  now_epoch : Z;                          (* int(datetime.now().timestamp()) *)
  fromtimestamp : Q -> option string;     (* datetime.fromtimestamp(x).isoformat() *)
  fromisoformat : string -> option string;(* datetime.fromisoformat(s).isoformat() *)
  strptime : string -> string -> option string; (* datetime.strptime(s, fmt).isoformat() *)
  repr_container : pyval -> string;       (* str() of a list or a dict *)
  exn_str : exn -> string                 (* str(e) *)
}.

(** [str(v)] *)
Definition py_str (env : Env) (v : pyval) : string :=
  match v with
  | PNone => "None"
  | PBool true => "True"
  | PBool false => "False"
  | PInt z => string_of_Z z
  | PFloat f => float_str f
  | PStr s => s
  | PList _ | PDict _ => repr_container env v
  end.

(** ** [DataCleaner]: the remaining field cleaners *)

(** [str.upper] on code points below 256 (a code point whose upper case
    lies above 255 is left as it is). *)
Definition upper_char (c : ascii) : string :=
  let n := code c in
  if (n =? 223)%nat then "SS"
  else if ((97 <=? n)%nat && (n <=? 122)%nat)
          || ((224 <=? n)%nat && (n <=? 254)%nat && negb (n =? 247)%nat)
  then String (ascii_of_nat (n - 32)) EmptyString
  else String c EmptyString.

Fixpoint upper (s : string) : string :=
  match s with
  | EmptyString => EmptyString
  | String c t => upper_char c ++ upper t
  end.

(** [DataCleaner._clean_id] *)
Definition _clean_id (env : Env) (transaction_id : pyval) : result string :=
  let generated := "TXN_" ++ string_of_Z (now_epoch env) in
  if negb (truthy transaction_id) then Ok generated
  else
    match transaction_id with
    | PStr s =>
        if strip s =? EmptyString then Ok generated
        else
          let cleaned_id := strip s in
          if startswith "TXN_" cleaned_id then Ok cleaned_id
          else Ok ("TXN_" ++ cleaned_id)
    | _ => Raise AttributeError          (* no method strip *)
    end.

(** [DataCleaner._clean_amount] on any value: the guard, then [str(...)]
    and the body, whose [except] clause covers everything it can raise. *)
Definition clean_amount_value (env : Env) (amount_str : pyval) : pyfloat :=
  if negb (truthy amount_str) then fzero
  else _clean_amount (py_str env amount_str).

(** [DataCleaner._clean_phone_number] on any value. *)
Definition clean_phone_value (phone : pyval) : result string :=
  if negb (truthy phone) then Ok "Unknown"
  else
    match phone with
    | PStr s => Ok (_clean_phone_number s)
    | _ => Raise AttributeError          (* no method strip *)
    end.

(** [str.isdigit] on code points below 256: the ASCII digits and the
    superscripts one, two and three. *)
Definition is_pydigit (c : ascii) : bool :=
  is_digit c || (code c =? 178)%nat || (code c =? 179)%nat
  || (code c =? 185)%nat.

Definition rx_plus (p : rx) : rx := rx_seq p (rx_star p).

(** The three date shapes of [self.date_patterns]. *)
Definition rx_ymd : rx :=
  rx_seq (rx_digits 4) (rx_seq (rx_is "-") (rx_seq (rx_digits 2)
    (rx_seq (rx_is "-") (rx_digits 2)))).
Definition rx_dmy (sep : ascii) : rx :=
  rx_seq (rx_digits 2) (rx_seq (rx_is sep) (rx_seq (rx_digits 2)
    (rx_seq (rx_is sep) (rx_digits 4)))).
Definition rx_hms : rx :=
  rx_seq (rx_digits 2) (rx_seq (rx_is ":") (rx_seq (rx_digits 2)
    (rx_seq (rx_is ":") (rx_digits 2)))).

Definition date_patterns : list rx :=
  [ rx_ymd          (* (\d{4}-\d{2}-\d{2})\s+(\d{2}:\d{2}:\d{2}) *)
  ; rx_dmy "/"      (* (\d{2}/\d{2}/\d{4})\s+(\d{2}:\d{2}:\d{2}) *)
  ; rx_dmy "-" ].   (* (\d{2}-\d{2}-\d{4})\s+(\d{2}:\d{2}:\d{2}) *)

(** A match of [(date)\s+(time)] at the start of [s]: both groups. *)
Definition date_match_here (date : rx) (s : string) : option (string * string) :=
  first_some (fun r0 =>
    first_some (fun r1 =>
      first_some (fun r2 =>
        Some (take (String.length s - String.length r0) s,
              take (String.length r1 - String.length r2) r1))
        (rx_hms r1)) (rx_plus rx_ws r0)) (date s).

Fixpoint date_search (date : rx) (s : string) : option (string * string) :=
  match date_match_here date s with
  | Some g => Some g
  | None =>
      match s with
      | EmptyString => None
      | String _ t => date_search date t
      end
  end.

Definition date_formats : list string := ["%Y-%m-%d"; "%d/%m/%Y"; "%d-%m-%Y"].

(** The nested loops over [self.date_patterns] and the date formats: the
    first [strptime] that succeeds returns. *)
Definition try_date_patterns (env : Env) (timestamp_str : string)
  : option string :=
  first_some (fun date =>
    match date_search date timestamp_str with
    | Some (date_part, time_part) =>
        first_some (fun date_format =>
          strptime env (date_part ++ " " ++ time_part)
                       (date_format ++ " %H:%M:%S")) date_formats
    | None => None
    end) date_patterns.

Definition or_now (env : Env) (o : option string) : string :=
  match o with Some iso => iso | None => now_iso env end.

(** The body of [DataCleaner._clean_timestamp] after [str(...).strip()];
    a failing conversion lands in the [except] clause, which answers with
    the current time. *)
Definition clean_timestamp_str (env : Env) (timestamp_str : string) : string :=
  let n := String.length timestamp_str in
  let isdigit := nonempty timestamp_str && all_chars is_pydigit timestamp_str in
  let to_int := if all_chars is_digit timestamp_str
                then Some (digits_val 0 timestamp_str) else None in
  if isdigit && (n =? 13)%nat then
    or_now env (match to_int with
                | Some i => fromtimestamp env (fl (i # 1000))
                | None => None
                end)
  else if isdigit && (n =? 10)%nat then
    or_now env (match to_int with
                | Some i => fromtimestamp env (i # 1)
                | None => None
                end)
  else if contains "T" timestamp_str then
    or_now env (fromisoformat env (remove_char "Z" timestamp_str))
  else or_now env (try_date_patterns env timestamp_str).

(** [DataCleaner._clean_timestamp] on a string. *)
Definition _clean_timestamp (env : Env) (timestamp : string) : string :=
  if negb (nonempty timestamp) then now_iso env
  else clean_timestamp_str env (strip timestamp).

(** [DataCleaner._clean_timestamp] on any value. *)
Definition clean_timestamp_value (env : Env) (timestamp : pyval) : string :=
  if negb (truthy timestamp) then now_iso env
  else clean_timestamp_str env (strip (py_str env timestamp)).

Definition type_mappings : list (string * string) :=
  [ ("1", "RECEIVE"); ("0", "SEND"); ("SENT", "SEND");
    ("RECEIVED", "RECEIVE"); ("TRANSFER", "SEND"); ("PAYMENT", "SEND");
    ("DEPOSIT", "RECEIVE"); ("WITHDRAWAL", "SEND") ].

Fixpoint assoc {A} (k : string) (l : list (string * A)) : option A :=
  match l with
  | [] => None
  | (k', a) :: l' => if k' =? k then Some a else assoc k l'
  end.

(** [DataCleaner._clean_transaction_type] *)
Definition _clean_transaction_type (env : Env) (transaction_type : pyval)
  : string :=
  if negb (truthy transaction_type) then "UNKNOWN"
  else
    let cleaned_type := upper (strip (py_str env transaction_type)) in
    match assoc cleaned_type type_mappings with
    | Some t => t
    | None => cleaned_type
    end.

(** ** [DataCleaner._extract_from_body] *)

Definition rx_rwf_before : rx := rx_seq (rx_lit_ci "RWF") (rx_star rx_ws).

(** [TxId:\s*(\d+)] *)
Definition txid_pattern : pattern :=
  {| pre := rx_seq (rx_lit_ci "TxId:") (rx_star rx_ws);
     grp := rx_d1; post := rx_eps |}.

(** [label[:\s]*(\d{1,3}(?:,\d{3})*(?:\.\d{2})?)] *)
Definition labelled_amount (label : string) : pattern :=
  {| pre := rx_seq (rx_lit_ci label)
              (rx_star (rx_chr (fun c => Ascii.eqb c ":" || is_space c)));
     grp := rx_grouped; post := rx_eps |}.

(** [float(group.replace(",", EmptyString))]; [None] is [ValueError]. *)
Definition float_of_group (g : string) : option pyfloat :=
  option_map round64 (decimal_plain (remove_char "," g)).

Definition amount_from_body (body : string) : option pyfloat :=
  first_some (fun p =>
    match re_search p body with
    | Some g => float_of_group g
    | None => None
    end) amount_patterns.

Definition set_labelled (key label body : string) (transaction : dict) : dict :=
  match re_search (labelled_amount label) body with
  | Some g =>
      match float_of_group g with
      | Some f => dict_set key (PFloat f) transaction
      | None => transaction
      end
  | None => transaction
  end.

Definition _extract_from_body (transaction : dict) (body : pyval)
  : result dict :=
  if negb (truthy body) then Ok transaction
  else
    match body with
    | PStr body =>
        let transaction :=
          if py_eq0 (dict_get_or "amount" (PInt 0) transaction) then
            match amount_from_body body with
            | Some f => dict_set "amount" (PFloat f) transaction
            | None => transaction
            end
          else transaction in
        let transaction :=
          match re_search txid_pattern body with
          | Some g =>
              if negb (truthy (dict_get_or "Id" PNone transaction))
              then dict_set "Id" (PStr ("TXN_" ++ g)) transaction
              else transaction
          | None => transaction
          end in
        let transaction := set_labelled "balance_after" "balance" body transaction in
        let transaction := set_labelled "fee" "fee" body transaction in
        Ok transaction
    | _ => Raise TypeError          (* re.search on a value that is no string *)
    end.

(** ** Validation *)

Definition required_fields : list string :=
  ["Id"; "amount"; "sender"; "receiver"; "timestamp"].

(** [field not in transaction or not transaction[field]] *)
Definition field_missing (transaction : dict) (field : string) : bool :=
  match dict_get field transaction with
  | None => true
  | Some v => negb (truthy v)
  end.

(** [DataCleaner._validate_transaction] *)
Definition _validate_transaction (transaction : dict) : result bool :=
  if existsb (field_missing transaction) required_fields then Ok false
  else
    negative <- py_lt (dict_get_or "amount" PNone transaction) 0 ;;
    if negative then Ok false
    else if py_eq_str (dict_get "sender" transaction) "Unknown"
            && py_eq_str (dict_get "receiver" transaction) "Unknown"
    then Ok false
    else Ok true.

(** [DataCleaner._get_validation_issues] *)
Definition _get_validation_issues (transaction : dict) : result (list string) :=
  nonpositive <- py_le (dict_get_or "amount" (PInt 0) transaction) 0 ;;
  Ok ((if nonpositive then ["Invalid or zero amount"] else [])
      ++ (if py_eq_str (dict_get "sender" transaction) "Unknown"
          then ["Unknown sender"] else [])
      ++ (if py_eq_str (dict_get "receiver" transaction) "Unknown"
          then ["Unknown receiver"] else [])
      ++ (if py_eq_str (dict_get "transaction_type" transaction) "UNKNOWN"
          then ["Unknown transaction type"] else []))%list.

(** The [_validation] report. *)
Definition validation_report (env : Env) (is_valid : bool)
    (issues : list string) : pyval :=
  PDict [ ("is_valid", PBool is_valid);
          ("cleaned_at", PStr (now_iso env));
          ("issues", PList (map PStr issues)) ].

(** ** [DataCleaner.clean_transaction] *)

(** The [try] block.  Only a dict has both [copy] and [get]. *)
Definition clean_body (env : Env) (transaction : pyval) : result dict :=
  match transaction with
  | PDict d =>
      let cleaned := d in
      id <- _clean_id env (dict_get_or "Id" (PStr EmptyString) d) ;;
      let cleaned := dict_set "Id" (PStr id) cleaned in
      let cleaned :=
        dict_set "amount"
          (PFloat (clean_amount_value env (dict_get_or "amount" (PStr "0") d)))
          cleaned in
      sender <- clean_phone_value (dict_get_or "sender" (PStr "Unknown") d) ;;
      let cleaned := dict_set "sender" (PStr sender) cleaned in
      receiver <- clean_phone_value (dict_get_or "receiver" (PStr "Unknown") d) ;;
      let cleaned := dict_set "receiver" (PStr receiver) cleaned in
      let cleaned :=
        dict_set "timestamp"
          (PStr (clean_timestamp_value env (dict_get_or "timestamp" (PStr EmptyString) d)))
          cleaned in
      let cleaned :=
        dict_set "transaction_type"
          (PStr (_clean_transaction_type env
                   (dict_get_or "transaction_type" (PStr "UNKNOWN") d)))
          cleaned in
      cleaned <- (match dict_get "body" d with
                  | Some body => _extract_from_body cleaned body
                  | None => Ok cleaned
                  end) ;;
      is_valid <- _validate_transaction cleaned ;;
      issues <- _get_validation_issues cleaned ;;
      Ok (dict_set "_validation" (validation_report env is_valid issues) cleaned)
  | _ => Raise AttributeError
  end.

(** [transaction[key] = v] on any value: only a dict takes a string key. *)
Definition set_item (transaction : pyval) (key : string) (v : pyval)
  : result pyval :=
  match transaction with
  | PDict d => Ok (PDict (dict_set key v d))
  | _ => Raise TypeError
  end.

Definition clean_transaction (env : Env) (transaction : pyval) : result pyval :=
  match clean_body env transaction with
  | Ok cleaned => Ok (PDict cleaned)
  | Raise e =>
      set_item transaction "_validation"
        (validation_report env false ["Cleaning error: " ++ exn_str env e])
  end.

(** [DataCleaner.clean_batch]: the handler of the loop writes into the
    record as well, so what it raises leaves the loop. *)
Fixpoint clean_batch (env : Env) (transactions : list pyval)
  : result (list pyval) :=
  match transactions with
  | [] => Ok []
  | transaction :: rest =>
      cleaned <- (match clean_transaction env transaction with
                  | Ok c => Ok c
                  | Raise e =>
                      set_item transaction "_validation"
                        (validation_report env false
                           ["Batch cleaning error: " ++ exn_str env e])
                  end) ;;
      rest' <- clean_batch env rest ;;
      Ok (cleaned :: rest')
  end.

(** ** [TransactionCategorizer] *)

Record category := {
  cat_id : Z;
  cat_name : string;
  cat_patterns : list string;      (* regular expressions, all literals *)
  cat_keywords : list string
}.

(** [self.categories], in the order of the dict literal.  The pattern
    [\*182\*] is the literal [*182*]. *)
Definition categories : list category :=
  [ {| cat_id := 1; cat_name := "Airtime Purchase";
       cat_patterns := ["airtime"; "token"; "*182*"; "internet"; "data bundle";
                        "mobile data"; "data package"; "bundle"; "units"];
       cat_keywords := ["airtime"; "token"; "internet"; "data"; "bundle"; "units"] |}
  ; {| cat_id := 2; cat_name := "Bill Payment";
       cat_patterns := ["bill payment"; "utility"; "electricity"; "water"; "rent";
                        "insurance"; "tax"; "government"; "council"];
       cat_keywords := ["bill"; "utility"; "electricity"; "water"; "rent"; "insurance"] |}
  ; {| cat_id := 3; cat_name := "Money Transfer";
       cat_patterns := ["transferred"; "sent"; "received"; "mobile money"; "momo";
                        "transfer"; "send money"; "receive money"; "payment to"];
       cat_keywords := ["transfer"; "send"; "receive"; "money"; "payment"] |}
  ; {| cat_id := 4; cat_name := "School Fees";
       cat_patterns := ["school fees"; "tuition"; "education"; "student"; "university";
                        "college"; "academic"; "learning"; "school"];
       cat_keywords := ["school"; "tuition"; "education"; "student"; "university"] |}
  ; {| cat_id := 5; cat_name := "Shopping";
       cat_patterns := ["payment"; "purchase"; "merchant"; "shop"; "buy"; "store";
                        "retail"; "goods"; "services"; "pos"];
       cat_keywords := ["payment"; "purchase"; "merchant"; "shop"; "buy"] |} ].

Record txn_type := {
  tt_name : string;
  tt_patterns : list string;
  tt_category_id : Z;
  tt_confidence : Q
}.

Definition tt_deposit : txn_type :=
  {| tt_name := "DEPOSIT";
     tt_patterns := ["bank deposit"; "cash deposit"; "deposited";
                     "added to your account"];
     tt_category_id := 3; tt_confidence := float_lit 0.9 |}.

Definition tt_withdrawal : txn_type :=
  {| tt_name := "WITHDRAWAL";
     tt_patterns := ["withdrawal"; "cash out"; "withdrawn"; "cash withdrawal"];
     tt_category_id := 3; tt_confidence := float_lit 0.9 |}.

Definition tt_airtime : txn_type :=
  {| tt_name := "AIRTIME";
     tt_patterns := ["airtime"; "token"; "*182*"; "internet"];
     tt_category_id := 1; tt_confidence := float_lit 0.95 |}.

Definition tt_bill_payment : txn_type :=
  {| tt_name := "BILL_PAYMENT";
     tt_patterns := ["bill payment"; "utility"; "electricity"; "water"];
     tt_category_id := 2; tt_confidence := float_lit 0.9 |}.

(** [self.transaction_types], in the order of the dict literal. *)
Definition transaction_types : list txn_type :=
  [tt_deposit; tt_withdrawal; tt_airtime; tt_bill_payment].

(** One of the patterns of [config] is found in the body. *)
Definition fires (config : txn_type) (sms_body : string) : bool :=
  existsb (fun pattern => search_ci pattern sms_body) (tt_patterns config).

Definition decision := (Z * Q * string)%type.

(** Method 1: the first transaction type, in table order, one of whose
    patterns is found in the body. *)
Definition signature_match (sms_body : string) : option decision :=
  first_some (fun config =>
    if fires config sms_body
    then Some (tt_category_id config, tt_confidence config,
               "transaction_type_" ++ tt_name config)
    else None) transaction_types.

Definition count (f : string -> bool) (l : list string) : nat :=
  List.length (filter f l).

(** One turn of the loop of method 2: the score of a category, when it has
    a match.  [score] counts 1 for a pattern and 0.5 for a keyword, which
    a float adds without error, and the division rounds once. *)
Definition category_score (sms_body : string) (c : category) : option Q :=
  let p := count (fun pattern => search_ci pattern sms_body) (cat_patterns c) in
  let k := count (fun keyword => contains (lower keyword) (lower sms_body))
                 (cat_keywords c) in
  if (0 <? p + k)%nat then
    Some (fl ((inject_Z (Z.of_nat p) + inject_Z (Z.of_nat k) * 0.5)
              / inject_Z (Z.of_nat (List.length (cat_patterns c)))))
  else None.

(** [category_scores]: a dict from category id to score, in insertion
    order. *)
Definition scores := list (Z * Q).

Fixpoint pattern_scores (sms_body : string) (cs : list category) : scores :=
  match cs with
  | [] => []
  | c :: cs' =>
      match category_score sms_body c with
      | Some s => (cat_id c, s) :: pattern_scores sms_body cs'
      | None => pattern_scores sms_body cs'
      end
  end.

(** [if category_id in category_scores: ... += bonus else: ... = bonus];
    the sum of two floats is rounded. *)
Fixpoint add_score (category_id : Z) (bonus : Q) (sc : scores) : scores :=
  match sc with
  | [] => [(category_id, bonus)]
  | (c, s) :: sc' =>
      if (c =? category_id)%Z then (c, fl (s + bonus)) :: sc'
      else (c, s) :: add_score category_id bonus sc'
  end.

(** [TransactionCategorizer._categorize_by_amount] *)
Definition _categorize_by_amount (amount : pyval) : result (option (Z * Q)) :=
  le0 <- py_le amount 0 ;;
  if le0 then Ok None
  else
    small <- py_le amount 5000 ;;
    if small then Ok (Some (1%Z, float_lit 0.3))
    else
      large <- py_ge amount 50000 ;;
      if large then Ok (Some (4%Z, float_lit 0.4)) else Ok None.

Definition type_categories : list (string * (Z * Q)) :=
  [ ("RECEIVE", (3%Z, float_lit 0.6)); ("SEND", (3%Z, float_lit 0.6));
    ("DEPOSIT", (3%Z, float_lit 0.7)); ("WITHDRAWAL", (3%Z, float_lit 0.7));
    ("PAYMENT", (2%Z, float_lit 0.5)); ("PURCHASE", (5%Z, float_lit 0.5)) ].

(** [TransactionCategorizer._categorize_by_transaction_type] *)
Definition _categorize_by_transaction_type (transaction_type : string)
  : option (Z * Q) :=
  if negb (nonempty transaction_type) then None
  else assoc (upper transaction_type) type_categories.

(** [max(items, key=lambda x: x[1])]: the first item, in iteration order,
    whose score no later item exceeds. *)
Fixpoint max_from (best : Z * Q) (l : scores) : Z * Q :=
  match l with
  | [] => best
  | x :: l' =>
      if Qle_bool (snd x) (snd best) then max_from best l' else max_from x l'
  end.

(** Methods 2 to 4: the scores once all three have written into them. *)
Definition category_scores (sms_body transaction_type : string)
    (amount : pyval) : result scores :=
  let sc := pattern_scores sms_body categories in
  amount_category <- _categorize_by_amount amount ;;
  let sc := match amount_category with
            | Some (category_id, _) => add_score category_id (float_lit 0.2) sc
            | None => sc
            end in
  let sc := match _categorize_by_transaction_type transaction_type with
            | Some (category_id, _) => add_score category_id (float_lit 0.1) sc
            | None => sc
            end in
  Ok sc.

Definition resolve (sc : scores) : decision :=
  match sc with
  | x :: l =>
      let '(category_id, confidence) := max_from x l in
      (category_id, Qmin confidence 1, "pattern_matching")
  | [] => (3%Z, float_lit 0.1, "default_fallback")
  end.

(** [TransactionCategorizer._determine_category] *)
Definition _determine_category (sms_body transaction_type : string)
    (amount : pyval) : result decision :=
  match signature_match sms_body with
  | Some d => Ok d
  | None =>
      sc <- category_scores sms_body transaction_type amount ;;
      Ok (resolve sc)
  end.

(** ** [TransactionCategorizer._extract_additional_info] *)

(** A lazy star: the fewest repetitions first. *)
Fixpoint rx_star_lazy_fuel (n : nat) (p : rx) (s : string) : list string :=
  match n with
  | O => [s]
  | S k =>
      (s :: flat_map (fun r => if (String.length r <? String.length s)%nat
                               then rx_star_lazy_fuel k p r else []) (p s))
  end.

Definition rx_plus_lazy (p : rx) : rx :=
  rx_seq p (fun s => rx_star_lazy_fuel (String.length s) p s).

Definition is_alpha_ascii (c : ascii) : bool :=
  let n := code c in
  ((65 <=? n)%nat && (n <=? 90)%nat) || ((97 <=? n)%nat && (n <=? 122)%nat).

(** [[A-Za-z\s]] *)
Definition rx_name_char : rx := rx_chr (fun c => is_alpha_ascii c || is_space c).

(** [\w] on code points below 256. *)
Definition is_word (c : ascii) : bool :=
  let n := code c in
  is_alpha_ascii c || is_digit c || (n =? 95)%nat
  || (n =? 170)%nat || (n =? 178)%nat || (n =? 179)%nat || (n =? 181)%nat
  || (n =? 185)%nat || (n =? 186)%nat
  || ((188 <=? n)%nat && (n <=? 190)%nat)
  || ((192 <=? n)%nat && (n <=? 214)%nat)
  || ((216 <=? n)%nat && (n <=? 246)%nat)
  || (248 <=? n)%nat.

Definition merchant_patterns : list pattern :=
  [ {| pre := rx_seq (rx_lit_ci "to") (rx_plus rx_ws);
       grp := rx_plus_lazy rx_name_char;
       post := rx_seq (rx_plus rx_ws) rx_d1 |}
      (* to\s+([A-Za-z\s]+?)\s+\d+ *)
  ; {| pre := rx_seq (rx_lit_ci "payment")
                (rx_seq (rx_plus rx_ws)
                   (rx_seq (rx_lit_ci "to") (rx_plus rx_ws)));
       grp := rx_plus rx_name_char; post := rx_eps |}
      (* payment\s+to\s+([A-Za-z\s]+) *)
  ; {| pre := rx_eps; grp := rx_plus rx_name_char;
       post := rx_seq (rx_plus rx_ws) (rx_seq (rx_digits 5) (rx_star rx_digit)) |} ].
      (* ([A-Za-z\s]+)\s+\d{5,} *)

Definition ref_patterns : list pattern :=
  [ txid_pattern      (* TxId:\s*(\d+) *)
  ; {| pre := rx_seq (rx_lit_ci "Transaction")
                (rx_seq (rx_plus rx_ws)
                   (rx_seq (rx_lit_ci "Id:") (rx_star rx_ws)));
       grp := rx_d1; post := rx_eps |}
      (* Transaction\s+Id:\s*(\d+) *)
  ; {| pre := rx_seq (rx_lit_ci "Reference:") (rx_star rx_ws);
       grp := rx_plus (rx_chr is_word); post := rx_eps |}
      (* Reference:\s*(\w+) *)
  ; {| pre := rx_seq (rx_lit_ci "Ref:") (rx_star rx_ws);
       grp := rx_plus (rx_chr is_word); post := rx_eps |} ].
      (* Ref:\s*(\w+) *)

Definition located (word : string) : pattern :=
  {| pre := rx_seq (rx_lit_ci word) (rx_plus rx_ws);
     grp := rx_plus_lazy rx_name_char;
     post := rx_seq (rx_plus rx_ws) rx_ymd |}.

Definition location_patterns : list pattern :=
  [ located "at"        (* at\s+([A-Za-z\s]+?)\s+\d{4}-\d{2}-\d{2} *)
  ; located "from" ].   (* from\s+([A-Za-z\s]+?)\s+\d{4}-\d{2}-\d{2} *)

(** The first pattern whose stripped group has more than [lo] and fewer
    than [hi] characters. *)
Definition first_sized (ps : list pattern) (lo hi : nat) (sms_body : string)
  : option string :=
  first_some (fun p =>
    match re_search p sms_body with
    | Some g =>
        let name := strip g in
        if (lo <? String.length name)%nat && (String.length name <? hi)%nat
        then Some name else None
    | None => None
    end) ps.

Definition set_if (key : string) (o : option string) (transaction : dict) : dict :=
  match o with
  | Some v => dict_set key (PStr v) transaction
  | None => transaction
  end.

Definition _extract_additional_info (transaction : dict) (sms_body : string)
  : dict :=
  let transaction :=
    set_if "merchant_name" (first_sized merchant_patterns 2 50 sms_body) transaction in
  let transaction :=
    set_if "reference_number"
      (first_some (fun p => re_search p sms_body) ref_patterns) transaction in
  set_if "location" (first_sized location_patterns 2 30 sms_body) transaction.

(** ** [TransactionCategorizer.categorize_transaction] *)

Definition category_name (category_id : Z) : result string :=
  match find (fun c => (cat_id c =? category_id)%Z) categories with
  | Some c => Ok (cat_name c)
  | None => Raise KeyError
  end.

(** The [try] block. *)
Definition categorize_body (transaction : pyval) : result dict :=
  match transaction with
  | PDict d =>
      let categorized := d in
      let sms_body := dict_get_or "body" (PStr EmptyString) d in
      transaction_type <-
        (match dict_get_or "transaction_type" (PStr EmptyString) d with
         | PStr t => Ok (upper t)
         | _ => Raise AttributeError           (* no method upper *)
         end) ;;
      let amount := dict_get_or "amount" (PInt 0) d in
      sms_body <- (match sms_body with
                   | PStr b => Ok b
                   | _ => Raise TypeError      (* re.search on no string *)
                   end) ;;
      dec <- _determine_category sms_body transaction_type amount ;;
      let '(category_id, confidence, method) := dec in
      let categorized := dict_set "category_id" (PInt category_id) categorized in
      name <- category_name category_id ;;
      let categorized := dict_set "category_name" (PStr name) categorized in
      let categorized :=
        dict_set "categorization_confidence" (PFloat (FQ confidence)) categorized in
      let categorized := dict_set "categorization_method" (PStr method) categorized in
      Ok (_extract_additional_info categorized sms_body)
  | _ => Raise AttributeError
  end.

Definition error_fallback (d : dict) : dict :=
  dict_set "categorization_method" (PStr "error_fallback")
    (dict_set "categorization_confidence" (PFloat (FQ 0))
       (dict_set "category_name" (PStr "Money Transfer")
          (dict_set "category_id" (PInt 3) d))).

Definition categorize_transaction (transaction : pyval) : result pyval :=
  match categorize_body transaction with
  | Ok categorized => Ok (PDict categorized)
  | Raise _ =>
      match transaction with
      | PDict d => Ok (PDict (error_fallback d))
      | _ => Raise TypeError
      end
  end.

(** ** [ETLPipeline.transform] *)

Record stats := { failed : nat; errors : list string }.

(** One turn of the loop body inside [try]. *)
Definition process_one (env : Env) (transaction : pyval) : result pyval :=
  cleaned_txn <- clean_transaction env transaction ;;
  categorized_txn <- categorize_transaction cleaned_txn ;;
  categorized_txn <- set_item categorized_txn "processed_at" (PStr (now_iso env)) ;;
  set_item categorized_txn "etl_version" (PStr "1.0").

(** The loop, from index [i] on: a record whose processing raises is
    counted, reported in [errors] and left out ([continue]). *)
Fixpoint transform_from (env : Env) (i : nat) (raw_transactions : list pyval)
    (st : stats) : list pyval * stats :=
  match raw_transactions with
  | [] => ([], st)
  | transaction :: rest =>
      match process_one env transaction with
      | Ok categorized_txn =>
          let '(out, st') := transform_from env (S i) rest st in
          (categorized_txn :: out, st')
      | Raise e =>
          transform_from env (S i) rest
            {| failed := S (failed st);
               errors := errors st ++
                 ["Transaction " ++ string_of_Z (Z.of_nat i)
                  ++ " processing error: " ++ exn_str env e] |}
      end
  end.

Definition transform (env : Env) (raw_transactions : list pyval) (st : stats)
  : list pyval * stats :=
  transform_from env 0 raw_transactions st.

(** ** XML documents and record discovery *)

(** An [xml.etree.ElementTree.Element]. *)
Inductive element :=
| Element (tag : string) (attrib : list (string * string))
          (text : option string) (children : list element).

Definition tag_of (e : element) : string :=
  match e with Element t _ _ _ => t end.
Definition attrib_of (e : element) : list (string * string) :=
  match e with Element _ a _ _ => a end.
Definition text_of (e : element) : option string :=
  match e with Element _ _ x _ => x end.
Definition children_of (e : element) : list element :=
  match e with Element _ _ _ c => c end.

(** What [ET.parse(file_path)] meets: no file, a file that is not
    well-formed XML, or a document. *)
Inductive xml_source :=
| Missing
| Malformed
| WellFormed (root : element).

Definition et_parse (src : xml_source) : result element :=
  match src with
  | Missing => Raise FileNotFoundError
  | Malformed => Raise ParseError
  | WellFormed root => Ok root
  end.

(** [root.findall(tag)]: the direct children with that tag. *)
Definition findall (t : string) (e : element) : list element :=
  filter (fun c => tag_of c =? t) (children_of e).

(** Every element below [e], in document order. *)
Fixpoint descendants (e : element) : list element :=
  match e with
  | Element _ _ _ cs => flat_map (fun c => c :: descendants c) cs
  end.

(** [root.findall('.//' + tag)] *)
Definition findall_deep (t : string) (e : element) : list element :=
  filter (fun c => tag_of c =? t) (descendants e).

(** [list(a) or list(b)] *)
Definition list_or {A} (a b : list A) : list A :=
  match a with [] => b | _ => a end.

Definition tag_in (e : element) (tags : list string) : bool :=
  existsb (fun t => tag_of e =? t) tags.

(** [ETLXMLParser._find_sms_elements] *)
Definition _find_sms_elements (root : element) : list element :=
  if tag_in root ["sms"; "transaction"] then [root]
  else if tag_in root ["smses"; "transactions"; "data"] then
    list_or (findall "sms" root) (findall "transaction" root)
  else list_or (findall_deep "sms" root) (findall_deep "transaction" root).

(** The discovery step written out in [parse_sms_xml]. *)
Definition dsa_find_sms_elements (root : element) : list element :=
  if tag_in root ["sms"; "transaction"] then [root]
  else if tag_in root ["transactions"; "data"] then
    list_or (findall "sms" root) (findall "transaction" root)
  else list_or (findall_deep "sms" root) (findall_deep "transaction" root).

Definition attrib_items (e : element) : dict :=
  map (fun kv => (fst kv, PStr (snd kv))) (attrib_of e).

Definition child_value (c : element) : pyval :=
  match text_of c with
  | Some x => PStr (strip x)
  | None => PNone
  end.

Fixpoint set_all (items : dict) (d : dict) : dict :=
  match items with
  | [] => d
  | (k, v) :: items' => set_all items' (dict_set k v d)
  end.

Definition child_items (e : element) : dict :=
  map (fun c => (tag_of c, child_value c)) (children_of e).

(** ** [ETLXMLParser]: from an element to a transaction *)

(** The loops [for f in fields: if f in raw_data and raw_data[f]: ...]:
    the first alias present with a truthy value, and that value. *)
Fixpoint first_present (fields : list string) (raw_data : dict)
  : option (string * pyval) :=
  match fields with
  | [] => None
  | f :: fields' =>
      match dict_get f raw_data with
      | Some v => if truthy v then Some (f, v)
                  else first_present fields' raw_data
      | None => first_present fields' raw_data
      end
  end.

(** [f"{n:06d}"] *)
Definition pad6 (n : nat) : string :=
  let s := string_of_Z (Z.of_nat n) in
  String.concat EmptyString (repeat "0" (6 - String.length s)) ++ s.

Definition _extract_id (env : Env) (raw_data : dict) (index : nat) : string :=
  match first_present ["Id"; "id"; "transaction_id"; "txn_id"] raw_data with
  | Some (_, v) => strip (py_str env v)
  | None => "TXN_" ++ pad6 (index + 1)
  end.

Definition _extract_transaction_type (env : Env) (raw_data : dict) : string :=
  match first_present ["transaction_type"; "Type"; "type"] raw_data with
  | Some (_, v) => strip (py_str env v)
  | None => "UNKNOWN"
  end.

Definition _extract_amount (env : Env) (raw_data : dict) : string :=
  match first_present ["amount"; "Amount"; "value"] raw_data with
  | Some (_, v) => strip (py_str env v)
  | None => "0"
  end.

Definition _extract_sender (env : Env) (raw_data : dict) : string :=
  match first_present ["sender"; "Sender"; "from"] raw_data with
  | Some (_, v) => strip (py_str env v)
  | None => "Unknown"
  end.

(** [return str(receiver_field).strip()]: the loop variable, not the value
    stored under it. *)
Definition _extract_receiver (raw_data : dict) : string :=
  match first_present ["receiver"; "Receiver"; "to"] raw_data with
  | Some (receiver_field, _) => strip receiver_field
  | None => "Unknown"
  end.

Definition _extract_timestamp (env : Env) (raw_data : dict) : string :=
  match first_present ["timestamp"; "Timestamp"; "date"; "Date"] raw_data with
  | Some (_, v) => strip (py_str env v)
  | None => now_iso env
  end.

Definition core_fields : list string :=
  ["Id"; "transaction_type"; "amount"; "sender"; "receiver"; "timestamp"; "body"].

Definition is_none (v : pyval) : bool :=
  match v with PNone => true | _ => false end.

Definition _normalize_transaction_data (env : Env) (raw_data : dict)
    (index : nat) : dict :=
  let transaction :=
    [ ("Id", PStr (_extract_id env raw_data index));
      ("transaction_type", PStr (_extract_transaction_type env raw_data));
      ("amount", PStr (_extract_amount env raw_data));
      ("sender", PStr (_extract_sender env raw_data));
      ("receiver", PStr (_extract_receiver raw_data));
      ("timestamp", PStr (_extract_timestamp env raw_data));
      ("body", dict_get_or "body" (PStr EmptyString) raw_data) ] in
  set_all
    (filter (fun kv => negb (existsb (String.eqb (fst kv)) core_fields)
                       && negb (is_none (snd kv))) raw_data)
    transaction.

(** [ETLXMLParser._validate_transaction] *)
Definition etl_validate_transaction (transaction : dict) : bool :=
  negb (existsb (field_missing transaction)
          ["Id"; "transaction_type"; "amount"; "sender"; "receiver"; "timestamp"])
  && negb (py_eq_str (dict_get "Id" transaction) EmptyString).

(** [ETLXMLParser._parse_sms_element]: attributes first, then children. *)
Definition _parse_sms_element (env : Env) (sms : element) (index : nat)
  : option dict :=
  let raw_data := set_all (child_items sms) (set_all (attrib_items sms) []) in
  let transaction := _normalize_transaction_data env raw_data index in
  if etl_validate_transaction transaction then Some transaction else None.

Fixpoint parse_elements (env : Env) (i : nat) (sms_elements : list element)
  : list dict :=
  match sms_elements with
  | [] => []
  | sms :: rest =>
      match _parse_sms_element env sms i with
      | Some transaction => transaction :: parse_elements env (S i) rest
      | None => parse_elements env (S i) rest
      end
  end.

(** [ETLXMLParser._parse_xml_enhanced]: every [except] clause re-raises. *)
Definition _parse_xml_enhanced (env : Env) (src : xml_source)
  : result (list dict) :=
  root <- et_parse src ;;
  Ok (parse_elements env 0 (_find_sms_elements root)).

(** ** [parse_sms_xml] of [src/dsa/parse_xml.py] *)

(** [a or b] *)
Definition py_or (a b : pyval) : pyval := if truthy a then a else b.

Definition get_none (k : string) (d : dict) : pyval := dict_get_or k PNone d.

Definition core_keys : list string :=
  ["Id"; "id"; "transaction_id"; "transaction_type"; "Type"; "type";
   "amount"; "Amount"; "sender"; "Sender"; "receiver"; "Receiver";
   "timestamp"; "Timestamp"].

Definition dsa_id (raw : dict) (n : nat) : pyval :=
  match dict_get "Id" raw, dict_get "id" raw, dict_get "transaction_id" raw with
  | Some v, _, _ => v
  | None, Some v, _ => v
  | None, None, Some v => v
  | None, None, None => PStr ("txn_" ++ string_of_Z (Z.of_nat (n + 1)))
  end.

(** The normalisation of one element; [n] is [len(transactions)]. *)
Definition dsa_normalize (env : Env) (sms : element) (n : nat) : dict :=
  let raw := set_all (attrib_items sms) (set_all (child_items sms) []) in
  let normalized :=
    [ ("Id", dsa_id raw n);
      ("transaction_type",
         py_or (get_none "transaction_type" raw)
           (py_or (get_none "Type" raw)
              (py_or (get_none "type" raw) (PStr "UNKNOWN"))));
      ("amount", py_or (get_none "amount" raw)
                   (py_or (get_none "Amount" raw) (PStr "0")));
      ("sender", py_or (get_none "sender" raw)
                   (py_or (get_none "Sender" raw) (PStr "Unknown")));
      ("receiver", py_or (get_none "receiver" raw)
                     (py_or (get_none "Receiver" raw) (PStr "Unknown")));
      ("timestamp", py_or (get_none "timestamp" raw)
                      (py_or (get_none "Timestamp" raw) (PStr (now_iso env)))) ] in
  fold_left (fun normalized kv =>
               if negb (existsb (String.eqb (fst kv)) core_keys)
                  && negb (dict_has (fst kv) normalized)
               then dict_set (fst kv) (snd kv) normalized
               else normalized) raw normalized.

Fixpoint dsa_loop (env : Env) (n : nat) (sms_elements : list element)
  : list dict :=
  match sms_elements with
  | [] => []
  | sms :: rest => dsa_normalize env sms n :: dsa_loop env (S n) rest
  end.

(** [parse_sms_xml]: each of its [except] clauses prints and returns the
    empty list. *)
Definition parse_sms_xml (env : Env) (src : xml_source) : result (list dict) :=
  match et_parse src with
  | Ok root => Ok (dsa_loop env 0 (dsa_find_sms_elements root))
  | Raise _ => Ok []
  end.

(** [ETLXMLParser.parse_xml_file], without its counters; [dsa_imported]
    tells whether the import of the older parser succeeded. *)
Definition parse_xml_file (env : Env) (dsa_imported : bool) (src : xml_source)
  : result (list dict) :=
  match src with
  | Missing => Raise FileNotFoundError
  | _ =>
      if dsa_imported then
        transactions <- parse_sms_xml env src ;;
        match transactions with
        | _ :: _ => Ok transactions
        | [] => _parse_xml_enhanced env src
        end
      else _parse_xml_enhanced env src
  end.

(** [ETLPipeline.extract] *)
Definition extract (env : Env) (src : xml_source) : result (list dict) :=
  match src with
  | Missing => Raise FileNotFoundError
  | _ =>
      transactions <- parse_sms_xml env src ;;
      match transactions with
      | [] => Raise ValueError
      | _ :: _ => Ok transactions
      end
  end.

(** ** Sample data *)

Definition sample_env : Env :=
  {| now_iso := "2024-05-10T16:30:51";
     now_epoch := 1715351451;
     fromtimestamp := fun _ => Some "2024-05-10T16:30:58.724000";
     fromisoformat := fun s => Some s;
     strptime := fun _ _ => None;
     repr_container := fun _ => "[]";
     exn_str := fun _ => "error" |}.

Definition no_stats : stats := {| failed := 0; errors := [] |}.

(** A cleaned record with every required field, a known sender and
    receiver, and amount [0.0]. *)
Definition zero_amount_record : dict :=
  [ ("Id", PStr "TXN_1"); ("amount", PFloat (FQ 0));
    ("sender", PStr "+250788123456"); ("receiver", PStr "+250788654321");
    ("timestamp", PStr "2024-05-10T16:30:51");
    ("transaction_type", PStr "SEND") ].

Definition not_dict (r : pyval) : bool := negb (is_dict r).

(** ** Predicates used in the statements *)

(** An entry of the score table with a category id of the closed set and a
    score that is not negative. *)
Definition good_entry (x : Z * Q) : Prop := (1 <= fst x <= 5)%Z /\ 0 <= snd x.

(** The key that a heuristic adds to the score table: the category it
    names, unless the table has it already. *)
Definition new_key (hint : option (Z * Q)) (keys : list Z) : list Z :=
  match hint with
  | Some (category_id, _) =>
      if existsb (Z.eqb category_id) keys then [] else [category_id]
  | None => []
  end.

Definition not_space (c : ascii) : bool := negb (is_space c).


(** * The rest of the modules *)

(** ** [TransactionCategorizer.validate_categorization] *)

Definition float_gt (f : pyfloat) (c : Q) : bool :=
  match f with
  | FQ q => negb (Qle_bool q c)
  | FInf n => negb n
  | FNaN _ => false
  end.

Definition py_gt (v : pyval) (c : Q) : result bool :=
  match as_number v with Some f => Ok (float_gt f c) | None => Raise TypeError end.

(** A list or a dict cannot be a key of a dict. *)
Definition hashable (v : pyval) : bool :=
  match v with PList _ | PDict _ => false | _ => true end.

Definition float_eq (a b : pyfloat) : bool :=
  match a, b with
  | FQ p, FQ q => Qeq_bool p q
  | FInf m, FInf n => Bool.eqb m n
  | _, _ => false
  end.

Definition is_nan (v : pyval) : bool :=
  match v with PFloat (FNaN _) => true | _ => false end.

(** [a is b] for two NaN. *)
Definition same_nan (a b : pyval) : bool :=
  match a, b with
  | PFloat (FNaN x), PFloat (FNaN y) => (x =? y)%N
  | _, _ => false
  end.

(** [a == b] for two values that are not containers: [None], strings,
    and numbers by value across bool, int and float. *)
Definition scalar_eq (a b : pyval) : bool :=
  match a, b with
  | PNone, PNone => true
  | PStr s, PStr t => s =? t
  | _, _ =>
      match as_number a, as_number b with
      | Some x, Some y => float_eq x y
      | _, _ => false
      end
  end.

(** Two keys of a dict are the same key when they are the same object or
    equal.  Identity adds something to equality only for a NaN. *)
Definition key_eqb (a b : pyval) : bool := same_nan a b || scalar_eq a b.

(** The entry of [self.categories] stored under the key [v]. *)
Definition category_of_key (v : pyval) : option category :=
  find (fun c => key_eqb (PInt (cat_id c)) v) categories.

(** [v in self.categories] *)
Definition in_categories (v : pyval) : result bool :=
  if hashable v
  then Ok (match category_of_key v with Some _ => true | None => false end)
  else Raise TypeError.

Definition categorization_fields : list string :=
  ["category_id"; "category_name"; "categorization_confidence";
   "categorization_method"].

Definition validate_categorization (transaction : dict) : result bool :=
  if existsb (fun field => negb (dict_has field transaction))
       categorization_fields
  then Ok false
  else
    known <- in_categories (dict_get_or "category_id" PNone transaction) ;;
    if negb known then Ok false
    else
      let confidence :=
        dict_get_or "categorization_confidence" PNone transaction in
      low <- py_lt confidence 0 ;;
      if low then Ok false
      else
        high <- py_gt confidence 1 ;;
        if high then Ok false else Ok true.

(** ** [TransactionCategorizer.categorize_batch] *)

(** The handler of the loop writes the fallback into the record, so on a
    value that is no dict it raises and the exception leaves the loop. *)
Fixpoint categorize_batch (transactions : list pyval) : result (list pyval) :=
  match transactions with
  | [] => Ok []
  | transaction :: rest =>
      categorized <- (match categorize_transaction transaction with
                      | Ok c => Ok c
                      | Raise _ =>
                          match transaction with
                          | PDict d => Ok (PDict (error_fallback d))
                          | _ => Raise TypeError
                          end
                      end) ;;
      rest' <- categorize_batch rest ;;
      Ok (categorized :: rest')
  end.

(** ** [TransactionCategorizer.get_category_statistics] *)
















(** ** Predicates used in the further statements *)

(** The keys that [categorize_transaction] may write. *)
Definition categorizer_keys : list string :=
  ["category_id"; "category_name"; "categorization_confidence";
   "categorization_method"; "merchant_name"; "reference_number"; "location"].


(** An ASCII lower-case letter. *)
Definition is_lower_ascii (c : ascii) : bool :=
  (97 <=? code c)%nat && (code c <=? 122)%nat.

Definition not_lower (c : ascii) : bool := negb (is_lower_ascii c).

(** The keys that [_extract_from_body] may write. *)
Definition body_keys : list string := ["amount"; "Id"; "balance_after"; "fee"].

(** The keys that [clean_transaction] may write. *)
Definition cleaner_keys : list string :=
  ["Id"; "amount"; "sender"; "receiver"; "timestamp"; "transaction_type";
   "balance_after"; "fee"; "_validation"].

(** The shape of a cleaned phone field: the sentinel, or [+250] and nine
    digits at the start. *)
Definition phone_shape (s : string) : Prop :=
  s = "Unknown"
  \/ exists d r, s = "+250" ++ d ++ r
                 /\ String.length d = 9%nat /\ all_chars is_digit d = true.

(** A field that holds a non-empty string. *)
Definition nonempty_str (o : option pyval) : Prop :=
  exists s, o = Some (PStr s) /\ nonempty s = true.

(** The values that the XML parsers put into a raw record: the text of an
    attribute or of a child, or [None] for a child without text. *)
Definition xml_value (v : pyval) : Prop :=
  v = PNone \/ exists s, v = PStr s.

(** The raw record that [_parse_sms_element] builds: attributes first, then
    children. *)
Definition etl_raw_data (sms : element) : dict :=
  set_all (child_items sms) (set_all (attrib_items sms) []).

(** The raw record that [parse_sms_xml] builds: children first, then
    attributes. *)
Definition dsa_raw (sms : element) : dict :=
  set_all (attrib_items sms) (set_all (child_items sms) []).

(** The value of the attribute [k] of an element, and the text of its last
    child with tag [k]. *)
Definition attribute (k : string) (sms : element) : option pyval :=
  dict_get k (rev (attrib_items sms)).
Definition last_child (k : string) (sms : element) : option pyval :=
  dict_get k (rev (child_items sms)).

(** ** [ETLConfig.validate_config] and the run of [ETLPipeline] *)

Record ETLConfig := {
  XML_INPUT_FILE : string;
  DATABASE_SCHEMA_FILE : string;
  BATCH_SIZE : Z;
  MAX_RETRIES : Z
}.

(** What a run of the pipeline finds outside: the document at
    [XML_INPUT_FILE], whether the schema file exists, whether the imports
    of [validate_pipeline] succeed, and what writing the output raises, if
    anything. *)
Record world := {
  document : xml_source;
  schema_exists : bool;
  imports_ok : bool;
  load_error : option exn
}.

Definition xml_exists (w : world) : bool :=
  match document w with Missing => false | _ => true end.

(** The [errors] list that [validate_config] collects. *)
Definition config_errors (cfg : ETLConfig) (w : world) : list string :=
  ((if negb (xml_exists w)
    then [("XML input file not found: " ++ XML_INPUT_FILE cfg)%string] else [])
   ++ (if negb (schema_exists w)
       then [("Database schema file not found: "
              ++ DATABASE_SCHEMA_FILE cfg)%string]
       else [])
   ++ (if (BATCH_SIZE cfg <=? 0)%Z
       then ["Batch size must be greater than 0"] else [])
   ++ (if (MAX_RETRIES cfg <? 0)%Z
       then ["Max retries must be non-negative"] else []))%list.

Definition validate_config (cfg : ETLConfig) (w : world) : bool :=
  match config_errors cfg w with
  | [] => true
  | _ :: _ => false
  end.

(** [ETLPipeline.validate_pipeline] *)
Definition validate_pipeline (cfg : ETLConfig) (w : world) : bool :=
  if negb (validate_config cfg w) then false else imports_ok w.

Definition log_error (st : stats) (msg : string) : stats :=
  {| failed := failed st; errors := (errors st ++ [msg])%list |}.

(** [ETLPipeline.extract] with the entry that its [except] clause appends
    to [self.stats["errors"]] before it raises again. *)
Definition extract_logged (env : Env) (src : xml_source) (st : stats)
  : result (list dict) * stats :=
  match extract env src with
  | Ok transactions => (Ok transactions, st)
  | Raise e => (Raise e, log_error st ("Extraction error: " ++ exn_str env e))
  end.

(** [ETLPipeline.load]: the outcome and the statistics. *)
Definition load (env : Env) (w : world) (st : stats) : bool * stats :=
  match load_error w with
  | None => (true, st)
  | Some e => (false, log_error st ("Loading error: " ++ exn_str env e))
  end.

Record pipeline_stats := {
  start_time : option string;
  end_time : option string;
  total_processed : nat;
  successful : nat;
  core : stats
}.

(** [self.stats] as [__init__] leaves it. *)
Definition initial_stats : pipeline_stats :=
  {| start_time := None; end_time := None; total_processed := 0;
     successful := 0; core := no_stats |}.

(** The [except] clause of [run]. *)
Definition run_failed (env : Env) (ps : pipeline_stats) (st : stats) (e : exn)
  : bool * pipeline_stats :=
  (false,
   {| start_time := start_time ps; end_time := Some (now_iso env);
      total_processed := total_processed ps; successful := successful ps;
      core := log_error st ("Pipeline error: " ++ exn_str env e) |}).

(** The end of a run that has loaded, or skipped loading: the end time is
    recorded and both times are parsed back for the duration. *)
Definition run_finish (env : Env) (ps : pipeline_stats) (st : stats)
  : bool * pipeline_stats :=
  let ps' := {| start_time := start_time ps; end_time := Some (now_iso env);
                total_processed := total_processed ps;
                successful := successful ps; core := st |} in
  match fromisoformat env (now_iso env) with
  | Some _ => (true, ps')
  | None => run_failed env ps' st ValueError
  end.

(** [ETLPipeline.run] *)
Definition run (env : Env) (cfg : ETLConfig) (w : world) (dry_run : bool)
    (ps : pipeline_stats) : bool * pipeline_stats :=
  let ps := {| start_time := Some (now_iso env); end_time := end_time ps;
               total_processed := total_processed ps;
               successful := successful ps; core := core ps |} in
  if negb (validate_pipeline cfg w) then (false, ps)
  else
    match extract_logged env (document w) (core ps) with
    | (Raise e, st) => run_failed env ps st e
    | (Ok raw_transactions, st) =>
        let ps := {| start_time := start_time ps; end_time := end_time ps;
                     total_processed := List.length raw_transactions;
                     successful := successful ps; core := st |} in
        let '(processed, st) := transform env (map PDict raw_transactions) st in
        let ps := {| start_time := start_time ps; end_time := end_time ps;
                     total_processed := total_processed ps;
                     successful := List.length processed; core := st |} in
        if dry_run then run_finish env ps st
        else
          match load env w st with
          | (true, st) => run_finish env ps st
          | (false, st) =>
              (false,
               {| start_time := start_time ps; end_time := end_time ps;
                  total_processed := total_processed ps;
                  successful := successful ps; core := st |})
          end
    end.

(** ** [src/dsa/DSA_data.py]: the two ways to search by id *)

(** [a is b or a == b], the comparison of two elements of a sequence or
    of two values of a dict.  Lists compare element by element, dicts key
    by key, both in this way; all other values compare as keys do. *)
Fixpoint same_or_eq (a b : pyval) {struct a} : bool :=
  match a with
  | PList l1 =>
      match b with
      | PList l2 =>
          (fix go (l1 l2 : list pyval) {struct l1} : bool :=
             match l1, l2 with
             | [], [] => true
             | x :: xs, y :: ys => same_or_eq x y && go xs ys
             | _, _ => false
             end) l1 l2
      | _ => false
      end
  | PDict d1 =>
      match b with
      | PDict d2 =>
          (List.length d1 =? List.length d2)%nat
          && (fix go (d : list (string * pyval)) : bool :=
                match d with
                | [] => true
                | (k, v) :: r =>
                    match dict_get k d2 with
                    | Some v' => same_or_eq v v'
                    | None => false
                    end && go r
                end) d1
      | _ => false
      end
  | _ =>
      match b with
      | PList _ | PDict _ => false
      | _ => key_eqb a b
      end
  end.

(** [a == b]: a NaN equals nothing, not even itself. *)
Definition py_eq (a b : pyval) : bool :=
  if is_nan a || is_nan b then false else same_or_eq a b.

(** [d[k]] *)
Definition item (k : string) (d : dict) : result pyval :=
  match dict_get k d with
  | Some v => Ok v
  | None => Raise KeyError
  end.

(** [find_transaction_by_id] *)
Fixpoint find_transaction_by_id (transactions : list dict) (search_id : pyval)
  : result (option dict) :=
  match transactions with
  | [] => Ok None
  | txn :: rest =>
      id <- item "Id" txn ;;
      if py_eq id search_id then Ok (Some txn)
      else find_transaction_by_id rest search_id
  end.

(** A dict from ids to transactions, in insertion order. *)
Definition id_map := list (pyval * dict).

(** [m[k] = v] *)
Fixpoint id_map_set (k : pyval) (v : dict) (m : id_map) : id_map :=
  match m with
  | [] => [(k, v)]
  | (k', v') :: m' =>
      if key_eqb k' k then (k', v) :: m' else (k', v') :: id_map_set k v m'
  end.

Fixpoint id_map_lookup (k : pyval) (m : id_map) : option dict :=
  match m with
  | [] => None
  | (k', v) :: m' => if key_eqb k' k then Some v else id_map_lookup k m'
  end.

(** [m.get(k)] *)
Definition id_map_get (k : pyval) (m : id_map) : result (option dict) :=
  if hashable k then Ok (id_map_lookup k m) else Raise TypeError.

Fixpoint create_id_map_from (m : id_map) (transactions : list dict)
  : result id_map :=
  match transactions with
  | [] => Ok m
  | txn :: rest =>
      id <- item "Id" txn ;;
      if hashable id then create_id_map_from (id_map_set id txn m) rest
      else Raise TypeError
  end.

(** [create_id_map] *)
Definition create_id_map (transactions : list dict) : result id_map :=
  create_id_map_from [] transactions.

(** ** [src/api/app.py]: [InMemoryStore]

    [self.transactions] and [self.id_map] hold the same dict objects, and
    [update] writes into them, so the objects live in a heap and the list
    and the map hold addresses. *)

Module InMemoryStore.

Record state := {
  objects : list dict;               (* the heap: one dict per address *)
  transactions : list nat;           (* self.transactions *)
  id_map : list (string * nat);      (* self.id_map, in insertion order *)
  next_numeric_suffix : nat
}.

(** [__init__] *)
Definition init : state :=
  {| objects := []; transactions := []; id_map := [];
     next_numeric_suffix := 1 |}.

(** The object at an address. *)
Definition deref (s : state) (a : nat) : dict := nth a (objects s) [].

(** [m[k] = a] *)
Fixpoint map_set (k : string) (a : nat) (m : list (string * nat))
  : list (string * nat) :=
  match m with
  | [] => [(k, a)]
  | (k', a') :: m' =>
      if k' =? k then (k', a) :: m' else (k', a') :: map_set k a m'
  end.

(** [m.pop(k, None)] *)
Fixpoint map_pop (k : string) (m : list (string * nat)) : list (string * nat) :=
  match m with
  | [] => []
  | (k', a') :: m' => if k' =? k then m' else (k', a') :: map_pop k m'
  end.

(** [l[a] = v] on the heap *)
Fixpoint store_at (a : nat) (v : dict) (l : list dict) : list dict :=
  match a, l with
  | _, [] => []
  | O, _ :: l' => v :: l'
  | S a', x :: l' => x :: store_at a' v l'
  end.

Definition _generate_id (s : state) : string * state :=
  ("TXN_" ++ pad6 (next_numeric_suffix s),
   {| objects := objects s; transactions := transactions s;
      id_map := id_map s;
      next_numeric_suffix := S (next_numeric_suffix s) |}).

(** [list] *)
Definition list_all (s : state) : list dict :=
  map (deref s) (transactions s).

(** [get] *)
Definition get (s : state) (txn_id : string) : option dict :=
  option_map (deref s) (assoc txn_id (id_map s)).

(** [create]: the new object and the state. *)
Definition create (env : Env) (s : state) (payload : dict) : dict * state :=
  let txn := payload in
  let txn_id :=
    strip (py_str env (py_or (get_none "Id" txn) (PStr EmptyString))) in
  let '(txn_id, s) :=
    if negb (nonempty txn_id)
       || (match assoc txn_id (id_map s) with Some _ => true | None => false end)
    then _generate_id s else (txn_id, s) in
  let txn := dict_set "Id" (PStr txn_id) txn in
  let address := List.length (objects s) in
  (txn,
   {| objects := (objects s ++ [txn])%list;
      transactions := (transactions s ++ [address])%list;
      id_map := map_set txn_id address (id_map s);
      next_numeric_suffix := next_numeric_suffix s |}).

(** The loop of [update] over the items of the payload. *)
Definition apply_payload (payload existing : dict) : dict :=
  fold_left (fun existing kv =>
               if fst kv =? "Id" then existing
               else dict_set (fst kv) (snd kv) existing) payload existing.

(** [update] *)
Definition update (s : state) (txn_id : string) (payload : dict)
  : option dict * state :=
  match assoc txn_id (id_map s) with
  | None => (None, s)
  | Some address =>
      let existing := deref s address in
      if negb (truthy (PDict existing)) then (None, s)
      else
        let existing := apply_payload payload existing in
        (Some existing,
         {| objects := store_at address existing (objects s);
            transactions := transactions s; id_map := id_map s;
            next_numeric_suffix := next_numeric_suffix s |})
  end.

(** [delete] *)
Definition delete (s : state) (txn_id : string) : bool * state :=
  match assoc txn_id (id_map s) with
  | None => (false, s)
  | Some address =>
      if negb (truthy (PDict (deref s address))) then (false, s)
      else
        (true,
         {| objects := objects s;
            transactions :=
              filter (fun t => negb (py_eq_str (dict_get "Id" (deref s t)) txn_id))
                     (transactions s);
            id_map := map_pop txn_id (id_map s);
            next_numeric_suffix := next_numeric_suffix s |})
  end.

(** Every address that the list or the map holds is an address of the
    heap, and the map has one entry per key, as a dict has. *)
Definition well_formed (s : state) : Prop :=
  Forall (fun a => (a < List.length (objects s))%nat) (transactions s)
  /\ Forall (fun ka => (snd ka < List.length (objects s))%nat) (id_map s)
  /\ NoDup (map fst (id_map s)).

(** Every key of the map is the [Id] of the record it leads to. *)
Definition keyed_by_id (s : state) : Prop :=
  forall txn_id address,
    assoc txn_id (id_map s) = Some address ->
    dict_get "Id" (deref s address) = Some (PStr txn_id).

End InMemoryStore.
(** * Properties *)

(** ** Dictionaries *)

Lemma dict_get_set_same (k : string) (v : pyval) (d : dict) :
  dict_get k (dict_set k v d) = Some v.
Proof.
  induction d as [|[k' v'] d IH]; simpl.
  - now rewrite String.eqb_refl.
  - destruct (k' =? k) eqn:E; simpl; rewrite E; [reflexivity | exact IH].
Qed.

Lemma dict_get_set_other (k k' : string) (v : pyval) (d : dict) :
  (k' =? k) = false ->
  dict_get k (dict_set k' v d) = dict_get k d.
Proof.
  intros Hne.
  induction d as [|[k0 v0] d IH]; simpl.
  - now rewrite Hne.
  - destruct (k0 =? k') eqn:E; simpl.
    + apply String.eqb_eq in E; subst k0. now rewrite Hne.
    + destruct (k0 =? k); [reflexivity | exact IH].
Qed.

Lemma set_if_other (k key : string) (o : option string) (d : dict) :
  (key =? k) = false ->
  dict_get k (set_if key o d) = dict_get k d.
Proof.
  intros Hne. destruct o; simpl; [now apply dict_get_set_other | reflexivity].
Qed.

Lemma set_item_dict (d : dict) (k : string) (v : pyval) :
  set_item (PDict d) k v = Ok (PDict (dict_set k v d)).
Proof. reflexivity. Qed.

(** ** The receiver of the XML parser *)





(** ** Malformed documents *)

(** C7, as stated, fails: on a malformed document [parse_sms_xml] returns
    the empty list instead of raising. *)
Lemma parse_sms_xml_swallows_parse_error :
  parse_sms_xml sample_env Malformed = Ok []
  /\ ~ (exists e, parse_sms_xml sample_env Malformed = Raise e).
Proof.
  split; [reflexivity|]. intros [e He]. discriminate He.
Qed.

(** C7 (amended): on a malformed document [_parse_xml_enhanced] and
    [parse_xml_file] raise the parse error to their caller, while
    [parse_sms_xml] catches it and returns the empty list, which
    [ETLPipeline.extract] then rejects with an error of its own; a
    well-formed document in which no record is discovered gives the empty
    sequence, without error, from both parsers. *)
Theorem malformed_xml_outcomes (env : Env) :
  _parse_xml_enhanced env Malformed = Raise ParseError
  /\ (forall dsa_imported,
         parse_xml_file env dsa_imported Malformed = Raise ParseError)
  /\ parse_sms_xml env Malformed = Ok []
  /\ extract env Malformed = Raise ValueError
  /\ (forall root, _find_sms_elements root = [] ->
         _parse_xml_enhanced env (WellFormed root) = Ok [])
  /\ (forall root, dsa_find_sms_elements root = [] ->
         parse_sms_xml env (WellFormed root) = Ok []).
Proof.
  repeat split.
  - intros [|]; reflexivity.
  - intros root H. unfold _parse_xml_enhanced; simpl. now rewrite H.
  - intros root H. unfold parse_sms_xml; simpl. now rewrite H.
Qed.

Lemma malformed_xml_outcomes_witness :
  _parse_xml_enhanced sample_env (WellFormed (Element "inbox" [] None [])) = Ok []
  /\ parse_sms_xml sample_env (WellFormed (Element "inbox" [] None [])) = Ok [].
Proof.
  destruct (malformed_xml_outcomes sample_env) as (_ & _ & _ & _ & H1 & H2).
  split; [apply H1 | apply H2]; reflexivity.
Defined.

(** ** Phone numbers: a second pass changes nothing *)

Lemma digit_not_space (c : ascii) : is_digit c = true -> not_space c = true.
Proof.
  destruct c as [[] [] [] [] [] [] [] []]; vm_compute; congruence.
Qed.

Lemma rstrip_cons (c : ascii) (t : string) :
  rstrip t = t -> t <> EmptyString -> rstrip (String c t) = String c t.
Proof.
  intros Ht Hne. simpl. rewrite Ht.
  destruct t; [congruence | reflexivity].
Qed.

Lemma rstrip_single (c : ascii) :
  not_space c = true -> rstrip (String c EmptyString) = String c EmptyString.
Proof.
  unfold not_space. simpl. destruct (is_space c); [discriminate | reflexivity].
Qed.

Lemma rstrip_tail (c : ascii) (t : string) :
  rstrip (String c t) = String c t -> rstrip t = t.
Proof.
  simpl. destruct (rstrip t) as [|c' t'] eqn:E.
  - destruct (is_space c); [discriminate|]. intros H; inversion H; reflexivity.
  - intros H; inversion H; reflexivity.
Qed.

Lemma rstrip_idempotent (s : string) : rstrip (rstrip s) = rstrip s.
Proof.
  induction s as [|c t IH]; [reflexivity|].
  simpl. destruct (rstrip t) as [|c' t'] eqn:E.
  - destruct (is_space c) eqn:Ec; [reflexivity|].
    apply rstrip_single. unfold not_space. now rewrite Ec.
  - apply rstrip_cons; [exact IH | discriminate].
Qed.

Lemma rstrip_app (a x : string) :
  all_chars not_space a = true -> rstrip x = x -> rstrip (a ++ x) = a ++ x.
Proof.
  induction a as [|c a IH]; simpl; [auto|].
  intros Ha Hx. apply andb_true_iff in Ha. destruct Ha as [Hc Ha].
  specialize (IH Ha Hx).
  destruct (a ++ x) as [|c' y] eqn:E.
  - unfold not_space in Hc. destruct (is_space c); [discriminate | reflexivity].
  - rewrite IH. reflexivity.
Qed.

Lemma all_chars_weaken (f g : ascii -> bool) (s : string) :
  (forall c, f c = true -> g c = true) ->
  all_chars f s = true -> all_chars g s = true.
Proof.
  intros Hfg. induction s as [|c t IH]; simpl; [auto|].
  intros H. apply andb_true_iff in H. destruct H as [Hc Ht].
  now rewrite (Hfg _ Hc), (IH Ht).
Qed.

Lemma all_chars_app (f : ascii -> bool) (a b : string) :
  all_chars f a = true -> all_chars f b = true -> all_chars f (a ++ b) = true.
Proof.
  induction a as [|c a IH]; simpl; [auto|].
  intros H Hb. apply andb_true_iff in H. destruct H as [-> Ha]. simpl. auto.
Qed.

Lemma string_app_assoc (a b c : string) : (a ++ b) ++ c = a ++ (b ++ c).
Proof. induction a as [|x a IH]; simpl; [reflexivity | now rewrite IH]. Qed.

Lemma startswith_app (p s : string) :
  startswith p s = true -> s = p ++ drop (String.length p) s.
Proof.
  revert s; induction p as [|a p IH]; intros s; simpl.
  - destruct s; reflexivity.
  - destruct s as [|b s]; [discriminate|].
    intros H. apply andb_true_iff in H. destruct H as [Hab Hp].
    apply Ascii.eqb_eq in Hab. subst b. simpl. f_equal. exact (IH _ Hp).
Qed.

Lemma take_drop (n : nat) (s : string) : s = take n s ++ drop n s.
Proof.
  revert s; induction n as [|n IH]; intros s; simpl.
  - destruct s; reflexivity.
  - destruct s as [|c s]; [reflexivity|]. simpl. f_equal. apply IH.
Qed.

Lemma drop_app_length (a b : string) : drop (String.length a) (a ++ b) = b.
Proof.
  induction a as [|c a IH]; simpl; [destruct b; reflexivity | exact IH].
Qed.

Lemma match_at_spec (lit s d r : string) :
  match_at lit s = Some (d, r) ->
  s = lit ++ d ++ r /\ String.length d = 9%nat /\ all_chars is_digit d = true.
Proof.
  unfold match_at.
  destruct (startswith lit s) eqn:Hs; [|discriminate].
  destruct ((String.length (take 9 (drop (String.length lit) s)) =? 9)%nat
            && all_chars is_digit (take 9 (drop (String.length lit) s))) eqn:Hd;
    [|discriminate].
  intros H; injection H as Hd' Hr'; subst d r.
  apply andb_true_iff in Hd. destruct Hd as [Hlen Hdig].
  apply Nat.eqb_eq in Hlen.
  split; [|split; assumption].
  transitivity (lit ++ drop (String.length lit) s);
    [now apply startswith_app | f_equal; exact (take_drop 9 _)].
Qed.

Lemma sub_canonical_is_drop (s : string) :
  forall k, sub_from "+250" "+250" k s = drop k s.
Proof.
  induction s as [|c t IH]; intros k.
  - destruct k; reflexivity.
  - cbn [sub_from]. destruct k as [|k]; [|rewrite IH; reflexivity].
    destruct (match_at "+250" (String c t)) as [[d r]|] eqn:E.
    + destruct (match_at_spec _ _ _ _ E) as (Hs & Hlen & _).
      rewrite IH. cbn [append] in Hs. injection Hs as Hc Ht. subst c t.
      change (String.length "+250" + 8)%nat with 12%nat.
      cbn [drop append]. do 5 f_equal.
      change (drop 9 (d ++ r) = r).
      rewrite <- Hlen. apply drop_app_length.
    + rewrite IH. reflexivity.
Qed.

Lemma sub_from_nonempty (lit : string) (c : ascii) (t : string) :
  sub_from lit "+250" 0 (String c t) <> EmptyString.
Proof.
  cbn [sub_from]. destruct (match_at lit (String c t)) as [[d r]|]; discriminate.
Qed.

Lemma sub_from_rstrip (lit s : string) :
  forall k, rstrip s = s ->
            rstrip (sub_from lit "+250" k s) = sub_from lit "+250" k s.
Proof.
  induction s as [|c t IH]; intros k Hs; [reflexivity|].
  pose proof (rstrip_tail _ _ Hs) as Ht.
  cbn [sub_from]. destruct k as [|k]; [|apply IH; exact Ht].
  destruct (match_at lit (String c t)) as [[d r]|] eqn:E.
  - destruct (match_at_spec _ _ _ _ E) as (_ & _ & Hdig).
    rewrite <- string_app_assoc.
    apply rstrip_app; [|apply IH; exact Ht].
    apply all_chars_app; [reflexivity|].
    eapply all_chars_weaken; [exact digit_not_space | exact Hdig].
  - destruct t as [|c' t'].
    + exact Hs.
    + apply rstrip_cons; [apply IH; exact Ht | apply sub_from_nonempty].
Qed.

Lemma apply_phone_patterns_rstrip (p : string) :
  rstrip p = p ->
  rstrip (apply_phone_patterns phone_patterns p)
  = apply_phone_patterns phone_patterns p.
Proof.
  intros Hp. unfold phone_patterns. cbn [apply_phone_patterns].
  repeat match goal with
         | |- context [if re_match ?l p then _ else _] =>
             destruct (re_match l p); [apply sub_from_rstrip; exact Hp|]
         end.
  exact Hp.
Qed.

Lemma drop_zero (s : string) : drop 0 s = s.
Proof. destruct s; reflexivity. Qed.

(** A string that passes the final check and carries no trailing white
    space is left as it is. *)
Lemma clean_phone_fixed (y : string) :
  re_match "+250" y = true -> rstrip y = y -> _clean_phone_number y = y.
Proof.
  intros Hm Hr.
  assert (Hform : exists t, y = String "+" t).
  { unfold re_match in Hm.
    destruct (match_at "+250" y) as [[d r]|] eqn:E; [|discriminate].
    destruct (match_at_spec _ _ _ _ E) as (Hs & _). rewrite Hs. eexists; reflexivity. }
  destruct Hform as [t Hy].
  assert (Hstrip : strip y = y).
  { unfold strip. rewrite Hy at 1. cbn [lstrip].
    change (is_space "+") with false. cbv iota. rewrite <- Hy. exact Hr. }
  unfold _clean_phone_number. rewrite Hstrip.
  replace (negb (nonempty y)) with false by (rewrite Hy; reflexivity).
  replace (y =? EmptyString) with false by (rewrite Hy; reflexivity).
  replace (lower y =? "unknown") with false by (rewrite Hy; reflexivity).
  cbn [orb]. cbv zeta.
  unfold phone_patterns. cbn [apply_phone_patterns]. rewrite Hm.
  unfold re_sub. rewrite sub_canonical_is_drop, drop_zero. now rewrite Hm.
Qed.

(** The phone part of the idempotence property holds in the code. *)
Lemma clean_phone_idempotent (x : string) :
  _clean_phone_number (_clean_phone_number x) = _clean_phone_number x.
Proof.
  assert (H : _clean_phone_number x = "Unknown"
              \/ (re_match "+250" (_clean_phone_number x) = true
                  /\ rstrip (_clean_phone_number x) = _clean_phone_number x)).
  { unfold _clean_phone_number.
    destruct (negb (nonempty x) || (strip x =? EmptyString) || (lower x =? "unknown"));
      [left; reflexivity|].
    cbv zeta.
    destruct (re_match "+250" (apply_phone_patterns phone_patterns (strip x)))
      eqn:E; [right|left; reflexivity].
    split; [exact E|].
    apply apply_phone_patterns_rstrip. unfold strip. apply rstrip_idempotent. }
  destruct H as [-> | [Hm Hr]]; [reflexivity|].
  now apply clean_phone_fixed.
Qed.

(** What [_clean_phone_number] returns: the sentinel, or a string that
    starts with [+250] and nine digits (more may follow). *)
Lemma clean_phone_prefix_or_sentinel (x : string) :
  _clean_phone_number x = "Unknown"
  \/ exists d r, _clean_phone_number x = "+250" ++ d ++ r
                 /\ String.length d = 9%nat /\ all_chars is_digit d = true.
Proof.
  unfold _clean_phone_number.
  destruct (negb (nonempty x) || (strip x =? EmptyString) || (lower x =? "unknown"));
    [left; reflexivity|].
  cbv zeta. unfold re_match.
  destruct (match_at "+250" (apply_phone_patterns phone_patterns (strip x)))
    as [[d r]|] eqn:E; [right|left; reflexivity].
  exists d, r. exact (match_at_spec _ _ _ _ E).
Qed.

(** ** Validation *)

(** C6: the code departs from the claim at amount [0.0].  The record below
    has every required field, a non-negative amount and a known sender and
    receiver, yet [_validate_transaction] answers [False], because the
    presence test [not transaction[field]] is also true of [0.0]; with any
    positive amount the same record is valid. *)
Theorem validate_rejects_zero_amount :
  _validate_transaction zero_amount_record = Ok false
  /\ py_lt (PFloat (FQ 0)) 0 = Ok false
  /\ _validate_transaction (dict_set "amount" (PFloat (FQ 1)) zero_amount_record)
     = Ok true
  /\ _get_validation_issues zero_amount_record = Ok ["Invalid or zero amount"].
Proof. repeat split. Qed.

(** ** Phone numbers *)

(** C5: the code departs from the claim on input that carries more than
    nine digits.  [re.match] anchors the final check at the start only, so
    a string with a canonical prefix is returned whole: the result is
    neither the canonical form nor the sentinel. *)
Theorem clean_phone_keeps_trailing_characters :
  _clean_phone_number "+2507881234567" = "+2507881234567"
  /\ canonical_phone (_clean_phone_number "+2507881234567") = false
  /\ _clean_phone_number "0788123456 or 0788123457"
     = "+250788123456 or +250788123457"
  /\ _clean_phone_number "0788123456" = "+250788123456"
  /\ _clean_phone_number "12345" = "Unknown".
Proof. repeat split. Qed.

(** ** Amounts *)

(** C1: the code departs from the claim on amounts.  ["1,500 RWF"] cleans
    to [1500.0]; its rendering ["1500.0"] has no grouping commas, so the
    bare pattern [\d{1,3}(?:,\d{3})*...] stops after three digits and the
    second pass gives [150.0]. *)
Theorem clean_amount_not_idempotent :
  _clean_amount "1,500 RWF" = FQ 1500
  /\ float_str (_clean_amount "1,500 RWF") = "1500.0"
  /\ _clean_amount (float_str (_clean_amount "1,500 RWF")) = FQ 150
  /\ _clean_amount (float_str (_clean_amount "1,500 RWF"))
     <> _clean_amount "1,500 RWF".
Proof. vm_compute. repeat split. discriminate. Qed.

(** ** [clean_transaction] *)

Lemma bind_ok {A B} (r : result A) (f : A -> result B) (b : B) :
  bind r f = Ok b -> exists a, r = Ok a /\ f a = Ok b.
Proof. destruct r; simpl; [eauto | discriminate]. Qed.

Ltac bind_inv H :=
  let a := fresh "x" in
  let Ha := fresh "Hx" in
  apply bind_ok in H; destruct H as (a & Ha & H).

Lemma clean_body_validation (env : Env) (d out : dict) :
  clean_body env (PDict d) = Ok out ->
  exists is_valid issues,
    dict_get "_validation" out = Some (validation_report env is_valid issues).
Proof.
  unfold clean_body. intros H.
  do 6 bind_inv H.
  inversion H; subst out.
  eexists _, _. apply dict_get_set_same.
Qed.

(** The report that [clean_transaction] attaches to a dict-shaped
    record, on either path. *)
Lemma clean_transaction_report (env : Env) (d : dict) :
  exists out is_valid issues,
    clean_transaction env (PDict d) = Ok (PDict out)
    /\ dict_get "_validation" out = Some (validation_report env is_valid issues)
    /\ (forall e, clean_body env (PDict d) = Raise e ->
          is_valid = false
          /\ issues = ["Cleaning error: " ++ exn_str env e]
          /\ out = dict_set "_validation" (validation_report env is_valid issues) d).
Proof.
  unfold clean_transaction.
  destruct (clean_body env (PDict d)) as [out|e] eqn:E.
  - destruct (clean_body_validation _ _ _ E) as (v & i & Hv).
    exists out, v, i. repeat split; auto; discriminate.
  - simpl. eexists _, false, _. split; [reflexivity|]. split.
    + apply dict_get_set_same.
    + intros e' He'; inversion He'; subst. auto.
Qed.




(** ** The categorizer: ranges *)

(** Rounding keeps the sign. *)
Lemma round_half_even_nonneg (n d : Z) :
  (0 <= n)%Z -> (0 < d)%Z -> (0 <= round_half_even n d)%Z.
Proof.
  intros Hn Hd. unfold round_half_even.
  assert (0 <= n / d)%Z by (apply Z.div_pos; lia).
  destruct (2 * (n mod d) ?= d)%Z; [destruct (Z.even (n / d))| |]; lia.
Qed.

Lemma ldexp_nonneg (m e : Z) : (0 <= m)%Z -> 0 <= ldexp m e.
Proof.
  intros Hm. unfold ldexp. destruct (0 <=? e)%Z eqn:E.
  - change 0 with (inject_Z 0). rewrite <- Zle_Qle.
    apply Z.mul_nonneg_nonneg; [lia | apply Z.pow_nonneg; lia].
  - rewrite Qred_correct. unfold Qle; simpl. lia.
Qed.

Lemma fl_pos_nonneg (n d : Z) : (0 < n)%Z -> (0 < d)%Z -> 0 <= fl_pos n d.
Proof.
  intros Hn Hd. unfold fl_pos. apply ldexp_nonneg.
  destruct (0 <=? Z.max (ilog2 n d - 52) (-1074))%Z eqn:E;
    apply round_half_even_nonneg; lia.
Qed.

Lemma fl_nonneg (q : Q) : 0 <= q -> 0 <= fl q.
Proof.
  intros H. unfold fl. destruct q as [n d]; simpl.
  destruct n as [|n|n].
  - apply Qle_refl.
  - apply fl_pos_nonneg; lia.
  - unfold Qle in H; simpl in H; lia.
Qed.

Lemma category_score_nonneg (b : string) (c : category) (s : Q) :
  category_score b c = Some s -> 0 <= s.
Proof.
  unfold category_score.
  destruct (0 <? _)%nat; [|discriminate].
  intros H; inversion H; subst s; clear H.
  apply fl_nonneg. unfold Qdiv. apply Qmult_le_0_compat.
  - apply Qle_trans with (0 + 0); [discriminate|].
    apply Qplus_le_compat.
    + change 0 with (inject_Z 0). rewrite <- Zle_Qle. lia.
    + apply Qmult_le_0_compat; [|discriminate].
      change 0 with (inject_Z 0). rewrite <- Zle_Qle. lia.
  - apply Qinv_le_0_compat.
    change 0 with (inject_Z 0). rewrite <- Zle_Qle. lia.
Qed.

Lemma pattern_scores_good (b : string) (cs : list category) :
  Forall (fun c => (1 <= cat_id c <= 5)%Z) cs ->
  Forall good_entry (pattern_scores b cs).
Proof.
  induction 1 as [|c cs Hc _ IH]; simpl; [constructor|].
  destruct (category_score b c) as [s|] eqn:E; [|exact IH].
  constructor; [|exact IH].
  split; [exact Hc | exact (category_score_nonneg _ _ _ E)].
Qed.

Lemma categories_ids : Forall (fun c => (1 <= cat_id c <= 5)%Z) categories.
Proof. repeat constructor; simpl; lia. Qed.

Lemma add_score_good (c : Z) (bonus : Q) (sc : scores) :
  (1 <= c <= 5)%Z -> 0 <= bonus ->
  Forall good_entry sc -> Forall good_entry (add_score c bonus sc).
Proof.
  intros Hc Hb. induction 1 as [|[c' s] sc [Hc' Hs] Hsc IH]; simpl.
  - constructor; [split; simpl; assumption | constructor].
  - destruct (c' =? c)%Z.
    + constructor; [|assumption]. split; simpl in *; [exact Hc'|].
      apply fl_nonneg.
      apply Qle_trans with (0 + 0); [discriminate|].
      now apply Qplus_le_compat.
    + constructor; [split; assumption | exact IH].
Qed.

Lemma max_from_in (l : scores) (x : Z * Q) :
  In (max_from x l) (x :: l).
Proof.
  revert x; induction l as [|z l IH]; intros x; simpl; [auto|].
  destruct (Qle_bool (snd z) (snd x)).
  - destruct (IH x) as [H|H]; simpl; auto.
  - right. apply IH.
Qed.

Lemma py_le_ok (v : pyval) (c : Q) (b : bool) :
  py_le v c = Ok b -> exists f, as_number v = Some f /\ b = float_le f c.
Proof.
  unfold py_le. destruct (as_number v); [|discriminate].
  intros H; inversion H; eauto.
Qed.

Lemma categorize_by_amount_ids (a : pyval) (c : Z) (q : Q) :
  _categorize_by_amount a = Ok (Some (c, q)) -> c = 1%Z \/ c = 4%Z.
Proof.
  unfold _categorize_by_amount, py_le, py_ge.
  destruct (as_number a) as [f|]; simpl; [|discriminate].
  destruct (float_le f 0); [discriminate|].
  destruct (float_le f 5000); [intros H; inversion H; auto|].
  destruct (float_ge f 50000); intros H; inversion H; auto.
Qed.

Lemma assoc_in {A} (k : string) (l : list (string * A)) (a : A) :
  assoc k l = Some a -> In a (map snd l).
Proof.
  induction l as [|[k' a'] l IH]; simpl; [discriminate|].
  destruct (k' =? k); [intros H; inversion H; auto | auto].
Qed.

Lemma type_categories_ids (t : string) (c : Z) (q : Q) :
  _categorize_by_transaction_type t = Some (c, q) -> (1 <= c <= 5)%Z.
Proof.
  unfold _categorize_by_transaction_type.
  destruct (negb (nonempty t)); [discriminate|].
  intros H. apply assoc_in in H. simpl in H.
  repeat (destruct H as [H|H]; [inversion H; lia|]). contradiction.
Qed.

Lemma category_scores_good (b t : string) (a : pyval) (sc : scores) :
  category_scores b t a = Ok sc -> Forall good_entry sc.
Proof.
  unfold category_scores. intros H.
  apply bind_ok in H. destruct H as (ac & Ha & H). inversion H; subst sc; clear H.
  assert (H0 : Forall good_entry (pattern_scores b categories))
    by (apply pattern_scores_good, categories_ids).
  assert (H1 : Forall good_entry
                 match ac with
                 | Some (category_id, _) =>
                     add_score category_id (float_lit 0.2) (pattern_scores b categories)
                 | None => pattern_scores b categories
                 end).
  { destruct ac as [[c q]|]; [|exact H0].
    apply add_score_good; [|discriminate|exact H0].
    destruct (categorize_by_amount_ids _ _ _ Ha); lia. }
  destruct (_categorize_by_transaction_type t) as [[c q]|] eqn:Et; [|exact H1].
  apply add_score_good; [|discriminate|exact H1].
  exact (type_categories_ids _ _ _ Et).
Qed.

Lemma signature_match_cases (b : string) (d : decision) :
  signature_match b = Some d ->
  d = (3%Z, float_lit 0.9, "transaction_type_DEPOSIT")
  \/ d = (3%Z, float_lit 0.9, "transaction_type_WITHDRAWAL")
  \/ d = (1%Z, float_lit 0.95, "transaction_type_AIRTIME")
  \/ d = (2%Z, float_lit 0.9, "transaction_type_BILL_PAYMENT").
Proof.
  unfold signature_match, transaction_types; simpl.
  destruct (fires tt_deposit b); [intros H; inversion H; auto|].
  destruct (fires tt_withdrawal b); [intros H; inversion H; auto|].
  destruct (fires tt_airtime b); [intros H; inversion H; auto|].
  destruct (fires tt_bill_payment b); [intros H; inversion H; auto 6|].
  discriminate.
Qed.

Lemma resolve_range (sc : scores) (k : Z) (q : Q) (m : string) :
  Forall good_entry sc -> resolve sc = (k, q, m) ->
  (1 <= k <= 5)%Z /\ 0 <= q /\ q <= 1.
Proof.
  intros Hg. unfold resolve. destruct sc as [|x l].
  - intros H; inversion H; subst. repeat split; try lia; discriminate.
  - destruct (max_from x l) as [c s] eqn:E.
    intros H; injection H as <- <- <-.
    assert (Hin : In (c, s) (x :: l)) by (rewrite <- E; apply max_from_in).
    rewrite Forall_forall in Hg. destruct (Hg _ Hin) as [Hc Hs]; simpl in *.
    repeat split; try lia.
    + apply Q.min_glb; [exact Hs | discriminate].
    + apply Q.le_min_r.
Qed.

Lemma determine_category_range (b t : string) (a : pyval)
    (k : Z) (q : Q) (m : string) :
  _determine_category b t a = Ok (k, q, m) ->
  (1 <= k <= 5)%Z /\ 0 <= q /\ q <= 1.
Proof.
  unfold _determine_category.
  destruct (signature_match b) as [d|] eqn:Es.
  - intros H; inversion H; subst d; clear H.
    destruct (signature_match_cases _ _ Es) as [H|[H|[H|H]]];
      inversion H; subst; repeat split; try lia; discriminate.
  - intros H. apply bind_ok in H. destruct H as (sc & Hsc & H).
    inversion H as [Hr]. eapply resolve_range; [|exact Hr].
    eapply category_scores_good; eassumption.
Qed.


Lemma extract_additional_info_get (k : string) (d : dict) (b : string) :
  ("merchant_name" =? k) = false -> ("reference_number" =? k) = false ->
  ("location" =? k) = false ->
  dict_get k (_extract_additional_info d b) = dict_get k d.
Proof.
  intros H1 H2 H3. unfold _extract_additional_info.
  now rewrite !set_if_other.
Qed.

(** What a successful [try] block of [categorize_transaction] leaves in
    the record. *)
Lemma categorize_body_fields (d out : dict) :
  categorize_body (PDict d) = Ok out ->
  exists b t k q m,
    _determine_category b t (dict_get_or "amount" (PInt 0) d) = Ok (k, q, m)
    /\ dict_get_or "body" (PStr EmptyString) d = PStr b
    /\ dict_get "category_id" out = Some (PInt k)
    /\ dict_get "categorization_confidence" out = Some (PFloat (FQ q))
    /\ dict_get "categorization_method" out = Some (PStr m).
Proof.
  unfold categorize_body. intros H.
  apply bind_ok in H. destruct H as (t & Ht & H).
  apply bind_ok in H. destruct H as (b & Hb & H).
  apply bind_ok in H. destruct H as ([[k q] m] & Hd & H).
  apply bind_ok in H. destruct H as (n & Hn & H).
  inversion H; subst out; clear H.
  exists b, t, k, q, m. split; [exact Hd|]. split.
  { destruct (dict_get_or "body" (PStr EmptyString) d); inversion Hb; reflexivity. }
  rewrite !extract_additional_info_get by reflexivity.
  repeat split.
  - rewrite !dict_get_set_other by reflexivity. apply dict_get_set_same.
  - rewrite !dict_get_set_other by reflexivity. apply dict_get_set_same.
  - apply dict_get_set_same.
Qed.

Lemma error_fallback_fields (d : dict) :
  dict_get "category_id" (error_fallback d) = Some (PInt 3)
  /\ dict_get "categorization_confidence" (error_fallback d) = Some (PFloat (FQ 0))
  /\ dict_get "categorization_method" (error_fallback d) = Some (PStr "error_fallback").
Proof.
  unfold error_fallback. repeat split.
  - rewrite !dict_get_set_other by reflexivity. apply dict_get_set_same.
  - rewrite !dict_get_set_other by reflexivity. apply dict_get_set_same.
  - apply dict_get_set_same.
Qed.

(** The category and the confidence that [categorize_transaction] writes,
    on either path. *)
Lemma categorize_transaction_fields (d : dict) :
  exists out k q,
    categorize_transaction (PDict d) = Ok (PDict out)
    /\ dict_get "category_id" out = Some (PInt k)
    /\ In k [1; 2; 3; 4; 5]%Z
    /\ dict_get "categorization_confidence" out = Some (PFloat (FQ q))
    /\ 0 <= q /\ q <= 1.
Proof.
  unfold categorize_transaction.
  destruct (categorize_body (PDict d)) as [out|e] eqn:E.
  - destruct (categorize_body_fields _ _ E) as (b & t & k & q & m & Hd & _ & Hk & Hq & _).
    destruct (determine_category_range _ _ _ _ _ _ Hd) as (Hr & H0 & H1).
    exists out, k, q. repeat split; auto.
    simpl. lia.
  - destruct (error_fallback_fields d) as (Hk & Hq & _).
    exists (error_fallback d), 3%Z, 0. repeat split; auto.
    + simpl; auto.
    + discriminate.
    + discriminate.
Qed.

(** C2: for every input record, [categorize_transaction] returns a record
    (through the [try] block or through the error fallback) whose
    [category_id] is one of 1..5 and whose [categorization_confidence]
    lies in the closed interval from 0 to 1. *)
Theorem categorize_transaction_ranges (d : dict) :
  exists out k q,
    categorize_transaction (PDict d) = Ok (PDict out)
    /\ dict_get "category_id" out = Some (PInt k)
    /\ In k [1; 2; 3; 4; 5]%Z
    /\ dict_get "categorization_confidence" out = Some (PFloat (FQ q))
    /\ 0 <= q /\ q <= 1.
Proof. exact (categorize_transaction_fields d). Qed.

(** ** The categorizer: signature precedence *)

Lemma categorize_body_decided (d : dict) (b t : string)
    (k : Z) (q : Q) (m n : string) :
  dict_get_or "body" (PStr EmptyString) d = PStr b ->
  dict_get_or "transaction_type" (PStr EmptyString) d = PStr t ->
  _determine_category b (upper t) (dict_get_or "amount" (PInt 0) d) = Ok (k, q, m) ->
  category_name k = Ok n ->
  exists out,
    categorize_body (PDict d) = Ok out
    /\ dict_get "category_id" out = Some (PInt k)
    /\ dict_get "categorization_confidence" out = Some (PFloat (FQ q))
    /\ dict_get "categorization_method" out = Some (PStr m).
Proof.
  intros Hb Ht Hd Hn. unfold categorize_body.
  rewrite Hb, Ht. unfold bind at 1 2. rewrite Hd. unfold bind at 1.
  rewrite Hn. unfold bind.
  eexists. split; [reflexivity|].
  rewrite !extract_additional_info_get by reflexivity.
  repeat split.
  - rewrite !dict_get_set_other by reflexivity. apply dict_get_set_same.
  - rewrite !dict_get_set_other by reflexivity. apply dict_get_set_same.
  - apply dict_get_set_same.
Qed.

(** C3, as stated, fails: a body that contains ["airtime"] and also a
    DEPOSIT signature is decided by the DEPOSIT entry, which comes first
    in the table. *)
Lemma airtime_body_decided_by_deposit :
  search_ci "airtime" "cash deposit for airtime" = true
  /\ exists out,
       categorize_transaction
         (PDict [("body", PStr "cash deposit for airtime");
                 ("transaction_type", PStr "SEND");
                 ("amount", PFloat (FQ 500))]) = Ok (PDict out)
       /\ dict_get "category_id" out = Some (PInt 3)
       /\ dict_get "categorization_method" out
          = Some (PStr "transaction_type_DEPOSIT").
Proof.
  split; [reflexivity|]. eexists. split; [reflexivity|]. split; reflexivity.
Qed.

(** C3 (amended): for every record whose body is a string that contains
    ["airtime"] (in any letter case) and matches no DEPOSIT and no
    WITHDRAWAL pattern, the two entries that precede AIRTIME in the table,
    and whose [transaction_type], when present, is a string,
    [categorize_transaction] returns category 1 with confidence 0.95 and
    method ["transaction_type_AIRTIME"], whatever the amount is and
    whatever the scoring stages would have computed. *)
Theorem airtime_signature_precedence (d : dict) (b : string) :
  dict_get "body" d = Some (PStr b) ->
  search_ci "airtime" b = true ->
  fires tt_deposit b = false ->
  fires tt_withdrawal b = false ->
  (forall v, dict_get "transaction_type" d = Some v -> exists t, v = PStr t) ->
  exists out,
    categorize_transaction (PDict d) = Ok (PDict out)
    /\ dict_get "category_id" out = Some (PInt 1)
    /\ dict_get "categorization_confidence" out = Some (PFloat (FQ (float_lit 0.95)))
    /\ dict_get "categorization_method" out
       = Some (PStr "transaction_type_AIRTIME").
Proof.
  intros Hb Hair Hdep Hwd Hty.
  assert (Ht : exists t, dict_get_or "transaction_type" (PStr EmptyString) d = PStr t).
  { unfold dict_get_or. destruct (dict_get "transaction_type" d) as [v|] eqn:E.
    - destruct (Hty v eq_refl) as [t ->]. eauto.
    - eauto. }
  destruct Ht as [t Ht].
  assert (Hdec : forall t' a,
             _determine_category b t' a
             = Ok (1%Z, float_lit 0.95, "transaction_type_AIRTIME")).
  { intros t' a. unfold _determine_category, signature_match, transaction_types.
    cbn [first_some]. rewrite Hdep, Hwd.
    replace (fires tt_airtime b) with true; [reflexivity|].
    unfold fires, tt_airtime. cbn [tt_patterns existsb]. now rewrite Hair. }
  destruct (categorize_body_decided d b t 1 (float_lit 0.95) "transaction_type_AIRTIME"
              "Airtime Purchase") as (out & Hout & Hk & Hq & Hm).
  - unfold dict_get_or. now rewrite Hb.
  - exact Ht.
  - apply Hdec.
  - reflexivity.
  - exists out. unfold categorize_transaction. rewrite Hout. auto.
Qed.

Lemma airtime_signature_precedence_witness :
  exists out,
    categorize_transaction
      (PDict [("body", PStr "You have purchased Airtime worth 100,000 RWF");
              ("transaction_type", PStr "SEND");
              ("amount", PFloat (FQ 100000))]) = Ok (PDict out)
    /\ dict_get "category_id" out = Some (PInt 1)
    /\ dict_get "categorization_confidence" out = Some (PFloat (FQ (float_lit 0.95)))
    /\ dict_get "categorization_method" out
       = Some (PStr "transaction_type_AIRTIME").
Proof.
  apply (airtime_signature_precedence _
           "You have purchased Airtime worth 100,000 RWF");
    try reflexivity.
  intros v H. inversion H. eexists; reflexivity.
Defined.

(** ** The categorizer: resolution *)

Lemma max_from_ge (l : scores) (x : Z * Q) :
  snd x <= snd (max_from x l).
Proof.
  revert x; induction l as [|z l IH]; intros x; simpl; [apply Qle_refl|].
  destruct (Qle_bool (snd z) (snd x)) eqn:E; [apply IH|].
  apply Qle_trans with (snd z); [|apply IH].
  apply Qlt_le_weak, Qnot_le_lt. intros H. apply Qle_bool_iff in H. congruence.
Qed.

(** [max] returns the first entry that no entry exceeds: every earlier
    entry scores strictly less, every later one at most as much. *)
Lemma max_from_first (l : scores) (x : Z * Q) :
  exists pre post,
    x :: l = (pre ++ max_from x l :: post)%list
    /\ Forall (fun z => snd z < snd (max_from x l)) pre
    /\ Forall (fun z => snd z <= snd (max_from x l)) post.
Proof.
  revert x; induction l as [|z l IH]; intros x; simpl.
  - exists [], []. repeat split; constructor.
  - destruct (Qle_bool (snd z) (snd x)) eqn:E.
    + apply Qle_bool_iff in E.
      destruct (IH x) as (pre & post & Heq & Hpre & Hpost).
      destruct pre as [|p pre]; simpl in Heq; injection Heq as Hx Hl.
      * exists [], (z :: post). simpl. rewrite <- Hx in *. rewrite <- Hl.
        repeat split; [constructor|].
        constructor; [exact E | rewrite Hl; exact Hpost].
      * subst p. exists (x :: z :: pre), post.
        split; [simpl; do 2 f_equal; exact Hl|].
        split; [|exact Hpost].
        inversion Hpre as [|? ? Hxlt Hpre']; subst.
        constructor; [exact Hxlt|].
        constructor; [|exact Hpre'].
        eapply Qle_lt_trans; eassumption.
    + assert (Hlt : snd x < snd z).
      { apply Qnot_le_lt. intros H. apply Qle_bool_iff in H. congruence. }
      destruct (IH z) as (pre & post & Heq & Hpre & Hpost).
      exists (x :: pre), post.
      split; [simpl; f_equal; exact Heq|].
      split; [|exact Hpost].
      constructor; [|exact Hpre].
      eapply Qlt_le_trans; [exact Hlt | apply max_from_ge].
Qed.

Lemma add_score_keys (c : Z) (bonus : Q) (sc : scores) :
  map fst (add_score c bonus sc)
  = (map fst sc ++ (if existsb (Z.eqb c) (map fst sc) then [] else [c]))%list.
Proof.
  induction sc as [|[c' s] sc IH]; simpl; [reflexivity|].
  rewrite (Z.eqb_sym c c').
  destruct (c' =? c)%Z; simpl.
  - now rewrite app_nil_r.
  - now rewrite IH.
Qed.

Lemma pattern_scores_ascending (b : string) :
  StronglySorted Z.lt (map fst (pattern_scores b categories)).
Proof.
  unfold categories. cbn [pattern_scores].
  repeat match goal with
         | |- context [category_score b ?c] =>
             destruct (category_score b c); cbn [cat_id map fst]
         end;
    repeat constructor; lia.
Qed.

(** The keys of the score table: the categories scored from the body, in
    ascending id, then the category of the amount heuristic if it is new
    to the table, then the category of the type heuristic if it is new. *)
Lemma category_scores_order (b t : string) (a : pyval) (sc : scores) :
  category_scores b t a = Ok sc ->
  exists amount_category,
    _categorize_by_amount a = Ok amount_category
    /\ map fst sc
       = (map fst (pattern_scores b categories)
          ++ new_key amount_category (map fst (pattern_scores b categories))
          ++ new_key (_categorize_by_transaction_type t)
               (map fst (pattern_scores b categories)
                ++ new_key amount_category
                     (map fst (pattern_scores b categories))))%list.
Proof.
  unfold category_scores. intros H.
  apply bind_ok in H. destruct H as (ac & Ha & H).
  apply (f_equal (fun r => match r with Ok x => map fst x | Raise _ => [] end))
    in H.
  cbn beta iota in H. rewrite <- H. clear H.
  exists ac. split; [exact Ha|].
  set (sc0 := pattern_scores b categories).
  assert (H1 : map fst match ac return scores with
                       | Some (category_id, _) =>
                           add_score category_id (float_lit 0.2) sc0
                       | None => sc0
                       end
               = (map fst sc0 ++ new_key ac (map fst sc0))%list).
  { destruct ac as [[c q]|]; cbn [new_key];
      [apply add_score_keys | now rewrite app_nil_r]. }
  destruct (_categorize_by_transaction_type t) as [[c2 q2]|]; cbn [new_key].
  - rewrite add_score_keys, H1, app_assoc. reflexivity.
  - rewrite H1, app_nil_r. reflexivity.
Qed.

(** C4, as stated, fails: with body ["retail store"] and amount 1000 the
    body gives category 5 the score 2/10 and the amount heuristic then
    writes category 1 into the table with 0.2.  The two floats are equal;
    category 5 was inserted first and wins, although 1 < 5. *)
Lemma tie_goes_to_first_inserted_not_lowest_id :
  signature_match "retail store" = None
  /\ exists s5 s1,
       category_scores "retail store" "UNKNOWN" (PFloat (FQ 1000))
       = Ok [(5%Z, s5); (1%Z, s1)]
       /\ s5 == s1
       /\ _determine_category "retail store" "UNKNOWN" (PFloat (FQ 1000))
          = Ok (5%Z, Qmin s5 1, "pattern_matching").
Proof.
  split; [reflexivity|]. eexists _, _.
  split; [vm_compute; reflexivity|]. split; vm_compute; reflexivity.
Qed.

(** The scores are floats, and their sums are rounded.  The body below
    gives category 4 the score 9/9 and category 5 the score 11/10; with
    amount 50000 and type PURCHASE the table holds [1.0 + 0.2] for
    category 4 and [1.1 + 0.1] for category 5.  As floats the second sum
    is the larger by one unit in the last place, so category 5 is the
    maximum, where the two exact sums would tie. *)
Lemma rounded_sums_decide :
  exists s3 s4 s5,
    category_scores
      "payment purchase merchant shop store retail goods services pos school fees education student university academic learning"
      "PURCHASE" (PInt 50000)
    = Ok [(3%Z, s3); (4%Z, s4); (5%Z, s5)]
    /\ s4 == fl (1 + float_lit 0.2)
    /\ s5 == fl (float_lit 1.1 + float_lit 0.1)
    /\ s4 < s5
    /\ 1 + 0.2 == 1.1 + 0.1
    /\ _determine_category
         "payment purchase merchant shop store retail goods services pos school fees education student university academic learning"
         "PURCHASE" (PInt 50000)
       = Ok (5%Z, 1, "pattern_matching").
Proof.
  eexists _, _, _.
  split; [vm_compute; reflexivity|].
  repeat split; vm_compute; reflexivity.
Qed.

(** C4 (amended): when no transaction-type signature fires and at least
    one category has a score, [_determine_category] returns the first
    entry of the score table, in insertion order, that no entry exceeds
    (every earlier entry scores strictly less), with confidence
    [min(score, 1.0)] and method ["pattern_matching"]; the table lists
    the categories scored from the body in ascending id, then the
    category of the amount heuristic if the table did not have it, then
    the category of the type heuristic if the table did not have it.
    When no category has a score it returns
    [(3, 0.1, "default_fallback")]; in particular for an empty body, type
    UNKNOWN and an amount strictly between 5000 and 50000. *)
Theorem resolution_first_inserted_maximum :
  (forall b t a sc,
      signature_match b = None ->
      category_scores b t a = Ok sc ->
      (sc = [] ->
       _determine_category b t a
       = Ok (3%Z, float_lit 0.1, "default_fallback"))
      /\ (sc <> [] ->
          exists pre c s post,
            sc = (pre ++ (c, s) :: post)%list
            /\ _determine_category b t a = Ok (c, Qmin s 1, "pattern_matching")
            /\ Forall (fun z => snd z < s) pre
            /\ Forall (fun z => snd z <= s) post)
      /\ StronglySorted Z.lt (map fst (pattern_scores b categories))
      /\ exists amount_category by_amount by_type,
           _categorize_by_amount a = Ok amount_category
           /\ by_amount
              = new_key amount_category
                  (map fst (pattern_scores b categories))
           /\ by_type
              = new_key (_categorize_by_transaction_type t)
                  (map fst (pattern_scores b categories) ++ by_amount)
           /\ map fst sc
              = (map fst (pattern_scores b categories)
                 ++ by_amount ++ by_type)%list)
  /\ (forall q, 5000 < q -> q < 50000 ->
        _determine_category EmptyString "UNKNOWN" (PFloat (FQ q))
        = Ok (3%Z, float_lit 0.1, "default_fallback")).
Proof.
  split.
  - intros b t a sc Hsig Hsc.
    unfold _determine_category. rewrite Hsig, Hsc. unfold bind.
    split; [|split; [|split]].
    + intros ->. reflexivity.
    + intros Hne. destruct sc as [|x l]; [congruence|].
      destruct (max_from_first l x) as (pre & post & Heq & Hpre & Hpost).
      unfold resolve. destruct (max_from x l) as [c s] eqn:E.
      exists pre, c, s, post. auto.
    + apply pattern_scores_ascending.
    + destruct (category_scores_order _ _ _ _ Hsc) as (ac & Ha & Hk).
      exists ac. eexists _, _. split; [exact Ha|].
      split; [reflexivity|]. split; [reflexivity|]. exact Hk.
  - intros q Hlo Hhi.
    assert (H0 : Qle_bool q 0 = false).
    { destruct (Qle_bool q 0) eqn:E; [|reflexivity].
      apply Qle_bool_iff in E. lra. }
    assert (H1 : Qle_bool q 5000 = false).
    { destruct (Qle_bool q 5000) eqn:E; [|reflexivity].
      apply Qle_bool_iff in E. lra. }
    assert (H2 : Qle_bool 50000 q = false).
    { destruct (Qle_bool 50000 q) eqn:E; [|reflexivity].
      apply Qle_bool_iff in E. lra. }
    unfold _determine_category.
    change (signature_match EmptyString) with (@None decision).
    unfold category_scores, _categorize_by_amount, py_le, py_ge.
    cbn [as_number float_le float_ge bind].
    rewrite H0. cbn [bind]. rewrite H1. cbn [bind]. rewrite H2.
    reflexivity.
Qed.

Lemma resolution_first_inserted_maximum_witness :
  _determine_category EmptyString "UNKNOWN" (PFloat (FQ 10000))
  = Ok (3%Z, float_lit 0.1, "default_fallback")
  /\ exists (pre : scores) c s (post : scores),
       _determine_category "school fees" "SEND" (PFloat (FQ 60000))
       = Ok (c, Qmin s 1, "pattern_matching")
       /\ Forall (fun z => snd z < s) pre
       /\ Forall (fun z => snd z <= s) post.
Proof.
  destruct resolution_first_inserted_maximum as [H1 H2].
  split.
  - apply H2; reflexivity.
  - destruct (H1 "school fees" "SEND" (PFloat (FQ 60000)) _ eq_refl eq_refl)
      as (_ & H & _).
    destruct H as (pre & c & s & post & _ & Hd & Hpre & Hpost);
      [discriminate|].
    exists pre, c, s, post. auto.
Defined.

(** ** The batch loop *)

Lemma clean_transaction_dict (env : Env) (d : dict) :
  exists out, clean_transaction env (PDict d) = Ok (PDict out).
Proof.
  unfold clean_transaction.
  destruct (clean_body env (PDict d)); simpl; eauto.
Qed.

Lemma categorize_transaction_dict (d : dict) :
  exists out, categorize_transaction (PDict d) = Ok (PDict out).
Proof.
  unfold categorize_transaction.
  destruct (categorize_body (PDict d)); eauto.
Qed.

Lemma process_one_dict (env : Env) (d : dict) :
  exists out, process_one env (PDict d) = Ok (PDict out).
Proof.
  unfold process_one.
  destruct (clean_transaction_dict env d) as (c & ->). cbn [bind].
  destruct (categorize_transaction_dict c) as (k & ->). cbn [bind set_item].
  eauto.
Qed.

Lemma process_one_not_dict (env : Env) (r : pyval) :
  is_dict r = false -> process_one env r = Raise TypeError.
Proof. destruct r; simpl; intros H; try reflexivity; discriminate. Qed.

Lemma transform_from_spec (env : Env) (rs : list pyval) :
  forall i st,
    Forall2 (fun r o => process_one env r = Ok o)
      (filter is_dict rs) (fst (transform_from env i rs st))
    /\ failed (snd (transform_from env i rs st))
       = (failed st + List.length (filter not_dict rs))%nat
    /\ (exists new,
          errors (snd (transform_from env i rs st)) = (errors st ++ new)%list
          /\ List.length new = List.length (filter not_dict rs))
    /\ (forallb is_dict rs = true -> snd (transform_from env i rs st) = st).
Proof.
  induction rs as [|r rs IH]; intros i st.
  - simpl. split; [constructor|]. split; [lia|]. split; [|reflexivity].
    exists []. now rewrite app_nil_r.
  - cbn [transform_from filter forallb].
    change (not_dict r) with (negb (is_dict r)).
    destruct (is_dict r) eqn:Hd.
    + destruct r; try discriminate Hd.
      destruct (process_one_dict env d) as (o & Ho). rewrite Ho.
      specialize (IH (S i) st).
      destruct (transform_from env (S i) rs st) as [out st'] eqn:E.
      cbn [fst snd negb andb] in *. destruct IH as (H1 & H2 & H3 & H4).
      split; [constructor; assumption|]. auto.
    + rewrite (process_one_not_dict env r Hd).
      match goal with
      | |- context [transform_from env (S i) rs ?s] => specialize (IH (S i) s)
      end.
      cbn [failed errors] in IH.
      destruct IH as (H1 & H2 & (new & H3 & H3') & H4).
      cbn [negb andb List.length].
      split; [exact H1|]. split; [rewrite H2; lia|]. split; [|discriminate].
      eexists. rewrite H3, <- app_assoc. split; [reflexivity|].
      simpl. now rewrite H3'.
Qed.

Lemma filter_lengths (rs : list pyval) :
  (List.length (filter is_dict rs) + List.length (filter not_dict rs)
   = List.length rs)%nat.
Proof.
  unfold not_dict. induction rs as [|r rs IH]; simpl; [reflexivity|].
  destruct (is_dict r); simpl; lia.
Qed.

Lemma all_dicts_none_dropped (rs : list pyval) :
  forallb is_dict rs = true -> filter not_dict rs = [].
Proof.
  unfold not_dict. induction rs as [|r rs IH]; simpl; [reflexivity|].
  intros H. apply andb_true_iff in H. destruct H as [-> H]. simpl. auto.
Qed.

Lemma categorize_keeps_validation (d out : dict) :
  categorize_transaction (PDict d) = Ok (PDict out) ->
  dict_get "_validation" out = dict_get "_validation" d.
Proof.
  unfold categorize_transaction.
  destruct (categorize_body (PDict d)) as [o|e] eqn:E.
  - intros H; inversion H; subst o; clear H.
    unfold categorize_body in E.
    apply bind_ok in E. destruct E as (t & _ & E).
    apply bind_ok in E. destruct E as (b & _ & E).
    apply bind_ok in E. destruct E as ([[k q] m] & _ & E).
    apply bind_ok in E. destruct E as (n & _ & E).
    inversion E; subst out.
    rewrite extract_additional_info_get by reflexivity.
    now rewrite !dict_get_set_other by reflexivity.
  - intros H; inversion H; subst out. unfold error_fallback.
    now rewrite !dict_get_set_other by reflexivity.
Qed.

(** What one turn of the loop leaves in a dict-shaped record. *)
Lemma process_one_fields (env : Env) (d : dict) :
  exists out is_valid issues k,
    process_one env (PDict d) = Ok (PDict out)
    /\ dict_get "_validation" out = Some (validation_report env is_valid issues)
    /\ (forall e, clean_body env (PDict d) = Raise e ->
          is_valid = false /\ issues = ["Cleaning error: " ++ exn_str env e])
    /\ dict_get "category_id" out = Some (PInt k)
    /\ In k [1; 2; 3; 4; 5]%Z.
Proof.
  destruct (clean_transaction_report env d) as (c & v & i & Hc & Hv & Hf).
  destruct (categorize_transaction_fields c) as (o & k & q & Ho & Hk & Hin & _).
  unfold process_one. rewrite Hc. cbn [bind]. rewrite Ho. cbn [bind set_item].
  eexists _, v, i, k. split; [reflexivity|].
  rewrite !dict_get_set_other by reflexivity.
  rewrite (categorize_keeps_validation _ _ Ho).
  repeat split; auto; apply (Hf e); assumption.
Qed.

Lemma Forall2_in_left {A B} (R : A -> B -> Prop) (l : list A) (l' : list B) (a : A) :
  Forall2 R l l' -> In a l -> exists b, In b l' /\ R a b.
Proof.
  induction 1 as [|x y l l' Hxy _ IH]; simpl; [contradiction|].
  intros [->|Hin]; [eauto|].
  destruct (IH Hin) as (b & Hb & Hr). eauto.
Qed.

(** C8, as stated, fails both ways.  A dict-shaped record whose cleaning
    fails is emitted with its fallback values but adds nothing to the
    batch error list; a record for which a stage raises adds one entry to
    the error list and is left out of the output. *)
Lemma transform_absorbs_or_drops :
  clean_body sample_env (PDict [("sender", PInt 5)]) = Raise AttributeError
  /\ List.length (fst (transform sample_env [PDict [("sender", PInt 5)]] no_stats))
     = 1%nat
  /\ errors (snd (transform sample_env [PDict [("sender", PInt 5)]] no_stats)) = []
  /\ fst (transform sample_env [PNone] no_stats) = []
  /\ errors (snd (transform sample_env [PNone] no_stats))
     = ["Transaction 0 processing error: error"].
Proof. repeat split. Qed.

(** C8 (amended): [transform] never aborts.  The dict-shaped records of
    the batch, and only they, appear in the output, in input order, each
    as the result of cleaning and categorizing it; a failure inside the
    cleaning or the categorization of such a record is absorbed by that
    stage and adds nothing to the batch error list.  Every record that is
    not dict-shaped is left out, counted in [failed] and reported by one
    new entry of the error list.  So a batch of N dict-shaped records
    gives exactly N output records and leaves the error list as it was.
    Each dict-shaped record comes out with a [_validation] report, which
    names the failure when its cleaning failed, and with a [category_id]
    among 1..5. *)
Theorem transform_isolates_records (env : Env) (rs : list pyval) (st : stats) :
  let out := fst (transform env rs st) in
  let st' := snd (transform env rs st) in
  Forall2 (fun r o => process_one env r = Ok o) (filter is_dict rs) out
  /\ (List.length out + List.length (filter not_dict rs) = List.length rs)%nat
  /\ failed st' = (failed st + List.length (filter not_dict rs))%nat
  /\ (exists new, errors st' = (errors st ++ new)%list
                  /\ List.length new = List.length (filter not_dict rs))
  /\ (forallb is_dict rs = true ->
      List.length out = List.length rs /\ st' = st)
  /\ (forall d, In (PDict d) rs ->
      exists o is_valid issues k,
        In (PDict o) out
        /\ process_one env (PDict d) = Ok (PDict o)
        /\ dict_get "_validation" o = Some (validation_report env is_valid issues)
        /\ (forall e, clean_body env (PDict d) = Raise e ->
              is_valid = false /\ issues = ["Cleaning error: " ++ exn_str env e])
        /\ dict_get "category_id" o = Some (PInt k)
        /\ In k [1; 2; 3; 4; 5]%Z).
Proof.
  destruct (transform_from_spec env rs 0 st) as (H1 & H2 & H3 & H4).
  fold (transform env rs st) in *. cbv zeta.
  assert (Hlen : (List.length (fst (transform env rs st))
                  + List.length (filter not_dict rs) = List.length rs)%nat).
  { rewrite <- (Forall2_length H1). apply filter_lengths. }
  split; [exact H1|]. split; [exact Hlen|]. split; [exact H2|].
  split; [exact H3|].
  split.
  - intros Hall. split; [|exact (H4 Hall)].
    rewrite (all_dicts_none_dropped rs Hall) in Hlen. simpl in Hlen. lia.
  - intros d Hin.
    assert (Hf : In (PDict d) (filter is_dict rs))
      by (apply filter_In; split; [exact Hin | reflexivity]).
    destruct (Forall2_in_left _ _ _ _ H1 Hf) as (o & Ho & Hp).
    destruct (process_one_fields env d) as (o' & v & i & k & Hp' & Hrest).
    rewrite Hp' in Hp. inversion Hp; subst o.
    exists o', v, i, k. auto.
Qed.

Lemma transform_isolates_records_witness :
  List.length
    (fst (transform sample_env
            [PDict [("sender", PInt 5)]; PDict zero_amount_record] no_stats))
  = 2%nat
  /\ snd (transform sample_env
            [PDict [("sender", PInt 5)]; PDict zero_amount_record] no_stats)
     = no_stats.
Proof.
  destruct (transform_isolates_records sample_env
              [PDict [("sender", PInt 5)]; PDict zero_amount_record] no_stats)
    as (_ & _ & _ & _ & H & _).
  apply H. reflexivity.
Defined.

(** * Further properties *)

(** ** The categorizer as a whole *)

Lemma dict_has_get (k : string) (d : dict) :
  dict_has k d = match dict_get k d with Some _ => true | None => false end.
Proof.
  induction d as [|[k' v] d IH]; simpl; [reflexivity|].
  destruct (k' =? k); simpl; [reflexivity | exact IH].
Qed.

Lemma signature_methods (b : string) (k : Z) (q : Q) (m : string) :
  signature_match b = Some (k, q, m) ->
  In m ["transaction_type_DEPOSIT"; "transaction_type_WITHDRAWAL";
        "transaction_type_AIRTIME"; "transaction_type_BILL_PAYMENT"].
Proof.
  intros H. destruct (signature_match_cases _ _ H) as [E|[E|[E|E]]];
    inversion E; simpl; auto.
Qed.

Lemma determine_category_methods (b t : string) (a : pyval)
    (k : Z) (q : Q) (m : string) :
  _determine_category b t a = Ok (k, q, m) ->
  In m ["transaction_type_DEPOSIT"; "transaction_type_WITHDRAWAL";
        "transaction_type_AIRTIME"; "transaction_type_BILL_PAYMENT";
        "pattern_matching"; "default_fallback"].
Proof.
  unfold _determine_category.
  destruct (signature_match b) as [[[k' q'] m']|] eqn:Es.
  - intros H; inversion H; subst.
    pose proof (signature_methods _ _ _ _ Es) as Hin. simpl in Hin |- *. tauto.
  - intros H. apply bind_ok in H. destruct H as (sc & _ & H).
    inversion H as [Hr]. unfold resolve in Hr. destruct sc as [|x l].
    + inversion Hr; simpl; auto 7.
    + destruct (max_from x l); inversion Hr; simpl; auto 7.
Qed.

(** The four fields that [categorize_transaction] writes into a dict-shaped
    record, on either path. *)
Lemma categorize_transaction_record (d : dict) :
  exists out k n q m,
    categorize_transaction (PDict d) = Ok (PDict out)
    /\ dict_get "category_id" out = Some (PInt k)
    /\ (1 <= k <= 5)%Z
    /\ dict_get "category_name" out = Some (PStr n)
    /\ category_name k = Ok n
    /\ dict_get "categorization_confidence" out = Some (PFloat (FQ q))
    /\ 0 <= q /\ q <= 1
    /\ dict_get "categorization_method" out = Some (PStr m)
    /\ In m ["transaction_type_DEPOSIT"; "transaction_type_WITHDRAWAL";
             "transaction_type_AIRTIME"; "transaction_type_BILL_PAYMENT";
             "pattern_matching"; "default_fallback"; "error_fallback"].
Proof.
  unfold categorize_transaction.
  destruct (categorize_body (PDict d)) as [out|e] eqn:E.
  - unfold categorize_body in E.
    apply bind_ok in E. destruct E as (t & _ & E).
    apply bind_ok in E. destruct E as (b & _ & E).
    apply bind_ok in E. destruct E as ([[k q] m] & Hd & E).
    apply bind_ok in E. destruct E as (n & Hn & E).
    inversion E; subst out; clear E.
    destruct (determine_category_range _ _ _ _ _ _ Hd) as (Hk & H0 & H1).
    pose proof (determine_category_methods _ _ _ _ _ _ Hd) as Hm.
    exists (_extract_additional_info
              (dict_set "categorization_method" (PStr m)
                 (dict_set "categorization_confidence" (PFloat (FQ q))
                    (dict_set "category_name" (PStr n)
                       (dict_set "category_id" (PInt k) d)))) b), k, n, q, m.
    rewrite !extract_additional_info_get by reflexivity.
    split; [reflexivity|].
    split; [rewrite !dict_get_set_other by reflexivity; apply dict_get_set_same|].
    split; [exact Hk|].
    split; [rewrite !dict_get_set_other by reflexivity; apply dict_get_set_same|].
    split; [exact Hn|].
    split; [rewrite !dict_get_set_other by reflexivity; apply dict_get_set_same|].
    split; [exact H0|]. split; [exact H1|].
    split; [apply dict_get_set_same|].
    simpl in Hm |- *. tauto.
  - exists (error_fallback d), 3%Z, "Money Transfer", 0, "error_fallback".
    unfold error_fallback.
    split; [reflexivity|].
    split; [rewrite !dict_get_set_other by reflexivity; apply dict_get_set_same|].
    split; [lia|].
    split; [rewrite !dict_get_set_other by reflexivity; apply dict_get_set_same|].
    split; [reflexivity|].
    split; [rewrite !dict_get_set_other by reflexivity; apply dict_get_set_same|].
    split; [discriminate|]. split; [discriminate|].
    split; [apply dict_get_set_same|].
    simpl; auto 8.
Qed.

Lemma category_of_key_int (k : Z) :
  (1 <= k <= 5)%Z -> exists c, category_of_key (PInt k) = Some c /\ cat_id c = k.
Proof.
  intros H.
  assert (k = 1 \/ k = 2 \/ k = 3 \/ k = 4 \/ k = 5)%Z as [->|[->|[->|[->| ->]]]]
    by lia; eexists; split; reflexivity.
Qed.



Lemma validate_categorized (out : dict) (k : Z) (n m : string) (q : Q) :
  dict_get "category_id" out = Some (PInt k) ->
  (1 <= k <= 5)%Z ->
  dict_get "category_name" out = Some (PStr n) ->
  dict_get "categorization_confidence" out = Some (PFloat (FQ q)) ->
  0 <= q -> q <= 1 ->
  dict_get "categorization_method" out = Some (PStr m) ->
  validate_categorization out = Ok true.
Proof.
  intros Hk Hr Hn Hq H0 H1 Hm.
  unfold validate_categorization, categorization_fields. cbn [existsb].
  rewrite !dict_has_get, Hk, Hn, Hq, Hm. cbn [negb orb].
  unfold dict_get_or. rewrite Hk, Hq.
  unfold in_categories. cbn [hashable].
  destruct (category_of_key_int k Hr) as (c & -> & _). cbn [bind negb].
  unfold py_lt, py_gt. cbn [as_number float_lt float_gt bind].
  apply Qle_bool_iff in H0, H1. rewrite H0, H1. reflexivity.
Qed.

(** X1: what [categorize_transaction] returns always passes
    [validate_categorization], whichever path produced it. *)
Theorem categorized_record_validates (d : dict) :
  exists out,
    categorize_transaction (PDict d) = Ok (PDict out)
    /\ validate_categorization out = Ok true.
Proof.
  destruct (categorize_transaction_record d)
    as (out & k & n & q & m & Hc & Hk & Hr & Hn & _ & Hq & H0 & H1 & Hm & _).
  exists out. split; [exact Hc|].
  eapply validate_categorized; eassumption.
Qed.

(** X2: in every record that [categorize_transaction] returns,
    [category_name] is the name that the category table gives to the
    record's [category_id], and [categorization_method] is one of the seven
    method tags of the module. *)
Theorem category_name_matches_id (d : dict) :
  exists out k n m,
    categorize_transaction (PDict d) = Ok (PDict out)
    /\ dict_get "category_id" out = Some (PInt k)
    /\ dict_get "category_name" out = Some (PStr n)
    /\ category_name k = Ok n
    /\ dict_get "categorization_method" out = Some (PStr m)
    /\ In m ["transaction_type_DEPOSIT"; "transaction_type_WITHDRAWAL";
             "transaction_type_AIRTIME"; "transaction_type_BILL_PAYMENT";
             "pattern_matching"; "default_fallback"; "error_fallback"].
Proof.
  destruct (categorize_transaction_record d)
    as (out & k & n & q & m & Hc & Hk & _ & Hn & Hcn & _ & _ & _ & Hm & Hin).
  exists out, k, n, m. repeat split; auto.
Qed.

Lemma not_in_keys (k : string) (ks : list string) :
  ~ In k ks -> Forall (fun key => (key =? k) = false) ks.
Proof.
  intros H. apply Forall_forall. intros key Hin.
  destruct (key =? k) eqn:E; [|reflexivity].
  apply String.eqb_eq in E. subst. contradiction.
Qed.

(** X3: [categorize_transaction] leaves every field of the record that is
    not one of the seven it may write exactly as it was in the input. *)
Theorem categorize_keeps_other_fields (d out : dict) (k : string) :
  categorize_transaction (PDict d) = Ok (PDict out) ->
  ~ In k categorizer_keys ->
  dict_get k out = dict_get k d.
Proof.
  intros Hc Hk. apply not_in_keys in Hk.
  unfold categorizer_keys in Hk.
  repeat match goal with
         | H : Forall _ (_ :: _) |- _ => inversion H; subst; clear H
         end.
  unfold categorize_transaction in Hc.
  destruct (categorize_body (PDict d)) as [o|e] eqn:E.
  - inversion Hc; subst o; clear Hc.
    unfold categorize_body in E.
    apply bind_ok in E. destruct E as (t & _ & E).
    apply bind_ok in E. destruct E as (b & _ & E).
    apply bind_ok in E. destruct E as ([[c q] m] & _ & E).
    apply bind_ok in E. destruct E as (n & _ & E).
    inversion E; subst out.
    rewrite extract_additional_info_get by assumption.
    now rewrite !dict_get_set_other by assumption.
  - inversion Hc; subst out. unfold error_fallback.
    now rewrite !dict_get_set_other by assumption.
Qed.

Lemma categorize_keeps_other_fields_witness :
  exists out,
    categorize_transaction
      (PDict [("sender", PStr "+250788123456"); ("body", PStr "sent 500 RWF")])
    = Ok (PDict out)
    /\ dict_get "sender" out = Some (PStr "+250788123456").
Proof.
  eexists. split; [reflexivity|].
  apply (categorize_keeps_other_fields
           [("sender", PStr "+250788123456"); ("body", PStr "sent 500 RWF")]
           _ "sender" eq_refl).
  unfold categorizer_keys. simpl.
  intros H. repeat (destruct H as [H|H]; [discriminate H|]). exact H.
Defined.

(** ** [categorize_batch] *)

Lemma categorize_batch_dicts (rs : list pyval) :
  forallb is_dict rs = true ->
  exists outs,
    categorize_batch rs = Ok outs
    /\ Forall2 (fun r o => categorize_transaction r = Ok o) rs outs.
Proof.
  induction rs as [|r rs IH]; simpl.
  - exists []. split; [reflexivity | constructor].
  - intros H. apply andb_true_iff in H. destruct H as [Hr Hrs].
    destruct r; try discriminate Hr.
    destruct (categorize_transaction_dict d) as (o & Ho). rewrite Ho.
    destruct (IH Hrs) as (outs & -> & Hf). cbn [bind].
    exists (PDict o :: outs). split; [reflexivity|]. constructor; assumption.
Qed.

Lemma categorize_not_dict (r : pyval) :
  is_dict r = false -> categorize_transaction r = Raise TypeError.
Proof. destruct r; simpl; intros H; try reflexivity; discriminate. Qed.

Lemma categorize_batch_not_dicts (rs : list pyval) :
  forallb is_dict rs = false -> categorize_batch rs = Raise TypeError.
Proof.
  induction rs as [|r rs IH]; simpl; [discriminate|].
  destruct (is_dict r) eqn:Hr; simpl.
  - intros Hrs. destruct r; try discriminate Hr.
    destruct (categorize_transaction_dict d) as (o & ->). cbn [bind].
    rewrite (IH Hrs). reflexivity.
  - intros _. rewrite (categorize_not_dict r Hr).
    destruct r; try discriminate Hr; reflexivity.
Qed.

(** X4: on a batch of dict-shaped records [categorize_batch] returns one
    categorized record per input, in input order; a batch that contains a
    value that is not a dict is aborted with [TypeError], because the
    handler of the loop writes into the record. *)
Theorem categorize_batch_outcomes (rs : list pyval) :
  (forallb is_dict rs = true ->
   exists outs,
     categorize_batch rs = Ok outs
     /\ Forall2 (fun r o => categorize_transaction r = Ok o) rs outs)
  /\ (forallb is_dict rs = false -> categorize_batch rs = Raise TypeError).
Proof.
  split; [apply categorize_batch_dicts | apply categorize_batch_not_dicts].
Qed.

Lemma categorize_batch_outcomes_witness :
  (exists outs,
      categorize_batch [PDict [("body", PStr "airtime")]; PDict []] = Ok outs
      /\ List.length outs = 2%nat)
  /\ categorize_batch [PDict []; PNone] = Raise TypeError.
Proof.
  split.
  - destruct (categorize_batch_outcomes [PDict [("body", PStr "airtime")]; PDict []])
      as [H _].
    destruct (H eq_refl) as (outs & Ho & Hf).
    exists outs. split; [exact Ho|].
    apply Forall2_length in Hf. now rewrite <- Hf.
  - destruct (categorize_batch_outcomes [PDict []; PNone]) as [_ H].
    apply H. reflexivity.
Defined.

(** ** Statistics of a categorized batch *)








(** ** Strings: stripping and upper case *)

Lemma append_empty_r (s : string) : s ++ EmptyString = s.
Proof. induction s as [|c s IH]; simpl; [reflexivity | now rewrite IH]. Qed.

Lemma rstrip_all_not_space (s : string) :
  all_chars not_space s = true -> rstrip s = s.
Proof.
  intros H. rewrite <- (append_empty_r s). now apply rstrip_app.
Qed.

Lemma lstrip_idempotent (s : string) : lstrip (lstrip s) = lstrip s.
Proof.
  induction s as [|c s IH]; [reflexivity|].
  simpl. destruct (is_space c) eqn:E; [exact IH|].
  simpl. now rewrite E.
Qed.

Lemma lstrip_head (c : ascii) (t : string) :
  is_space c = false -> lstrip (String c t) = String c t.
Proof. intros H. simpl. now rewrite H. Qed.

Lemma lstrip_result (s : string) :
  lstrip s = EmptyString
  \/ exists c t, lstrip s = String c t /\ is_space c = false.
Proof.
  induction s as [|c s IH]; [left; reflexivity|].
  simpl. destruct (is_space c) eqn:E; [exact IH|].
  right. eauto.
Qed.

Lemma rstrip_head (c : ascii) (t : string) :
  is_space c = false -> exists t', rstrip (String c t) = String c t'.
Proof.
  intros H. simpl. destruct (rstrip t); [rewrite H|]; eauto.
Qed.

Lemma strip_fixed (s : string) : lstrip (strip s) = strip s.
Proof.
  unfold strip. destruct (lstrip_result s) as [->|(c & t & -> & Hc)];
    [reflexivity|].
  destruct (rstrip_head c t Hc) as (t' & ->). now apply lstrip_head.
Qed.

Lemma strip_idempotent (s : string) : strip (strip s) = strip s.
Proof.
  unfold strip at 1. rewrite strip_fixed. unfold strip.
  apply rstrip_idempotent.
Qed.

Lemma strip_rstrip (s : string) : rstrip (strip s) = strip s.
Proof. unfold strip. apply rstrip_idempotent. Qed.

(** A string that starts with a character that is no white space and has
    no trailing white space is its own [strip]. *)
Lemma strip_prefixed (p t : string) (c : ascii) (p' : string) :
  p = String c p' -> is_space c = false ->
  all_chars not_space p = true -> rstrip t = t ->
  strip (p ++ t) = p ++ t.
Proof.
  intros -> Hc Hp Ht. unfold strip.
  change (String c p' ++ t) with (String c (p' ++ t)).
  rewrite lstrip_head by exact Hc.
  change (String c (p' ++ t)) with (String c p' ++ t).
  now apply rstrip_app.
Qed.

Lemma uint_not_space (u : Decimal.uint) :
  all_chars not_space (DecimalString.NilEmpty.string_of_uint u) = true.
Proof. induction u; simpl; auto. Qed.

Lemma string_of_Z_not_space (z : Z) :
  all_chars not_space (string_of_Z z) = true.
Proof.
  unfold string_of_Z. apply all_chars_app.
  - destruct (z <? 0)%Z; reflexivity.
  - unfold DecimalString.NilZero.string_of_uint.
    destruct (N.to_uint (Z.to_N (Z.abs z))) eqn:E;
      try (rewrite <- E; apply uint_not_space); reflexivity.
Qed.

Lemma startswith_nonempty (p s : string) :
  p <> EmptyString -> startswith p s = true -> nonempty s = true.
Proof.
  destruct p; [congruence|]. destruct s; [discriminate | reflexivity].
Qed.

Lemma eqb_empty_nonempty (s : string) :
  nonempty s = true -> (s =? EmptyString) = false.
Proof. destruct s; [discriminate | reflexivity]. Qed.

(** ** [_clean_id] *)

Lemma clean_id_fixed (env : Env) (y : string) :
  startswith "TXN_" y = true -> strip y = y ->
  _clean_id env (PStr y) = Ok y.
Proof.
  intros Hp Hs. unfold _clean_id.
  assert (Hn : nonempty y = true) by (eapply startswith_nonempty; [|exact Hp]; discriminate).
  cbn [truthy]. rewrite Hn. cbn [negb]. rewrite Hs.
  rewrite (eqb_empty_nonempty y Hn). now rewrite Hp.
Qed.

Lemma generated_id_fixed (z : Z) :
  startswith "TXN_" ("TXN_" ++ string_of_Z z) = true
  /\ strip ("TXN_" ++ string_of_Z z) = "TXN_" ++ string_of_Z z.
Proof.
  split; [reflexivity|].
  eapply strip_prefixed; [reflexivity | reflexivity | reflexivity |].
  apply rstrip_all_not_space, string_of_Z_not_space.
Qed.

Lemma clean_id_result (env : Env) (v : pyval) (y : string) :
  _clean_id env v = Ok y ->
  startswith "TXN_" y = true /\ strip y = y.
Proof.
  unfold _clean_id.
  destruct (negb (truthy v)).
  - intros H; inversion H; subst. apply generated_id_fixed.
  - destruct v; try discriminate.
    destruct (strip s =? EmptyString) eqn:Ee.
    + intros H; inversion H; subst. apply generated_id_fixed.
    + destruct (startswith "TXN_" (strip s)) eqn:Ep;
        intros H; inversion H; subst.
      * split; [exact Ep | apply strip_idempotent].
      * split; [reflexivity|].
        change (strip ("TXN_" ++ strip s) = "TXN_" ++ strip s).
        eapply strip_prefixed; [reflexivity | reflexivity | reflexivity |].
        apply strip_rstrip.
Qed.

(** X6: for every string, [_clean_id] returns an id that starts with
    ["TXN_"], and cleaning that id again returns it unchanged. *)
Theorem clean_id_prefixed_and_stable (env : Env) (s : string) :
  exists y,
    _clean_id env (PStr s) = Ok y
    /\ startswith "TXN_" y = true
    /\ _clean_id env (PStr y) = Ok y.
Proof.
  assert (H : exists y, _clean_id env (PStr s) = Ok y).
  { unfold _clean_id. destruct (negb (truthy (PStr s))); [eauto|].
    destruct (strip s =? EmptyString); [eauto|].
    destruct (startswith "TXN_" (strip s)); eauto. }
  destruct H as (y & Hy). exists y.
  destruct (clean_id_result _ _ _ Hy) as (Hp & Hs).
  repeat split; auto. now apply clean_id_fixed.
Qed.

(** ** [_clean_transaction_type] *)

Lemma upper_char_stable (c : ascii) : upper (upper_char c) = upper_char c.
Proof. destruct c as [[] [] [] [] [] [] [] []]; vm_compute; reflexivity. Qed.

Lemma upper_char_not_lower (c : ascii) :
  all_chars not_lower (upper_char c) = true.
Proof. destruct c as [[] [] [] [] [] [] [] []]; vm_compute; reflexivity. Qed.

Lemma upper_char_space (c : ascii) :
  is_space c = true -> upper_char c = String c EmptyString.
Proof. destruct c as [[] [] [] [] [] [] [] []]; vm_compute; congruence. Qed.

Lemma upper_char_all_not_space (c : ascii) :
  is_space c = false -> all_chars not_space (upper_char c) = true.
Proof. destruct c as [[] [] [] [] [] [] [] []]; vm_compute; congruence. Qed.

Lemma upper_char_head (c : ascii) :
  is_space c = false ->
  match upper_char c with
  | String c' _ => is_space c'
  | EmptyString => true
  end = false.
Proof. destruct c as [[] [] [] [] [] [] [] []]; vm_compute; congruence. Qed.

Lemma upper_char_not_space (c : ascii) :
  is_space c = false ->
  all_chars not_space (upper_char c) = true
  /\ exists c' t, upper_char c = String c' t /\ is_space c' = false.
Proof.
  intros H. split; [now apply upper_char_all_not_space|].
  pose proof (upper_char_head c H) as Hh.
  destruct (upper_char c) as [|c' t]; [discriminate|]. eauto.
Qed.

Lemma upper_char_nonempty (c : ascii) : upper_char c <> EmptyString.
Proof. destruct c as [[] [] [] [] [] [] [] []]; vm_compute; discriminate. Qed.

Lemma upper_app (a b : string) : upper (a ++ b) = upper a ++ upper b.
Proof.
  induction a as [|c a IH]; simpl; [reflexivity|].
  now rewrite IH, string_app_assoc.
Qed.

Lemma upper_idempotent (s : string) : upper (upper s) = upper s.
Proof.
  induction s as [|c s IH]; simpl; [reflexivity|].
  now rewrite upper_app, upper_char_stable, IH.
Qed.

Lemma upper_not_lower (s : string) : all_chars not_lower (upper s) = true.
Proof.
  induction s as [|c s IH]; simpl; [reflexivity|].
  apply all_chars_app; [apply upper_char_not_lower | exact IH].
Qed.

Lemma upper_empty (s : string) : upper s = EmptyString -> s = EmptyString.
Proof.
  destruct s as [|c s]; [reflexivity|]. simpl.
  pose proof (upper_char_nonempty c). destruct (upper_char c); [congruence|].
  discriminate.
Qed.

Lemma lstrip_upper (s : string) : lstrip (upper s) = upper (lstrip s).
Proof.
  induction s as [|c s IH]; [reflexivity|].
  cbn [upper lstrip]. destruct (is_space c) eqn:E.
  - rewrite (upper_char_space c E). cbn [append lstrip]. now rewrite E.
  - destruct (upper_char_not_space c E) as (_ & c' & t & Hu & Hc').
    cbn [upper]. rewrite Hu. cbn [append]. now apply lstrip_head.
Qed.

Lemma rstrip_app_gen (a b : string) :
  rstrip (a ++ b)
  = match rstrip b with
    | EmptyString => rstrip a
    | String _ _ => a ++ rstrip b
    end.
Proof.
  induction a as [|c a IH].
  - simpl. destruct (rstrip b); reflexivity.
  - cbn [append rstrip]. rewrite IH.
    destruct (rstrip b) as [|x y]; [reflexivity|].
    destruct a; reflexivity.
Qed.

Lemma rstrip_upper (s : string) : rstrip (upper s) = upper (rstrip s).
Proof.
  induction s as [|c s IH]; [reflexivity|].
  cbn [upper]. rewrite rstrip_app_gen, IH. cbn [rstrip].
  destruct (rstrip s) as [|x y] eqn:E.
  - cbn [upper]. destruct (is_space c) eqn:Ec.
    + rewrite (upper_char_space c Ec). simpl. now rewrite Ec.
    + destruct (upper_char_not_space c Ec) as (Hall & _).
      cbn [upper]. rewrite append_empty_r. now apply rstrip_all_not_space.
  - pose proof (upper_empty (String x y)) as Hne.
    destruct (upper (String x y)) as [|x' y'] eqn:Eu; [now discriminate Hne|].
    cbn [upper] in *. now rewrite Eu.
Qed.

Lemma strip_upper (s : string) : strip (upper s) = upper (strip s).
Proof. unfold strip. now rewrite lstrip_upper, rstrip_upper. Qed.

Lemma clean_type_unmapped (env : Env) (s : string) :
  nonempty (upper (strip s)) = true ->
  assoc (upper (strip s)) type_mappings = None ->
  _clean_transaction_type env (PStr (upper (strip s))) = upper (strip s).
Proof.
  intros Hn Ha. unfold _clean_transaction_type. cbn [truthy py_str].
  rewrite Hn. cbn [negb].
  rewrite strip_upper, strip_idempotent, upper_idempotent, Ha. reflexivity.
Qed.

Lemma clean_type_cases (env : Env) (s : string) :
  (_clean_transaction_type env (PStr s) = "UNKNOWN" /\ s = EmptyString)
  \/ (_clean_transaction_type env (PStr s) = "RECEIVE"
      \/ _clean_transaction_type env (PStr s) = "SEND")
  \/ (_clean_transaction_type env (PStr s) = upper (strip s)
      /\ assoc (upper (strip s)) type_mappings = None
      /\ nonempty s = true).
Proof.
  unfold _clean_transaction_type. cbn [truthy py_str].
  destruct (nonempty s) eqn:Hs; cbn [negb].
  - destruct (assoc (upper (strip s)) type_mappings) as [t|] eqn:Ea.
    + right; left. apply assoc_in in Ea. simpl in Ea.
      repeat (destruct Ea as [<-|Ea]; [auto|]). contradiction.
    + right; right. auto.
  - left. split; [reflexivity|]. destruct s; [reflexivity|discriminate].
Qed.

(** X7: on a string, [_clean_transaction_type] returns a token without
    ASCII lower-case letters; a non-empty result is stable under a second
    cleaning; the result is empty only for a non-empty input made of
    white space. *)
Theorem clean_transaction_type_canonical (env : Env) (s : string) :
  all_chars not_lower (_clean_transaction_type env (PStr s)) = true
  /\ (_clean_transaction_type env (PStr s) <> EmptyString ->
      _clean_transaction_type env (PStr (_clean_transaction_type env (PStr s)))
      = _clean_transaction_type env (PStr s))
  /\ (_clean_transaction_type env (PStr s) = EmptyString ->
      s <> EmptyString /\ strip s = EmptyString).
Proof.
  destruct (clean_type_cases env s) as [(-> & _)|[H|(Hr & Ha & Hs)]].
  - split; [reflexivity|]. split; [reflexivity|discriminate].
  - destruct H as [->| ->];
      (split; [reflexivity|]; split; [reflexivity|discriminate]).
  - rewrite Hr. split; [apply upper_not_lower|]. split.
    + intros Hne. apply clean_type_unmapped; [|exact Ha].
      destruct (upper (strip s)); [congruence | reflexivity].
    + intros He. split; [destruct s; [discriminate|discriminate]|].
      now apply upper_empty.
Qed.

Lemma clean_transaction_type_canonical_witness :
  _clean_transaction_type sample_env
    (PStr (_clean_transaction_type sample_env (PStr " cash_in ")))
  = _clean_transaction_type sample_env (PStr " cash_in ").
Proof.
  destruct (clean_transaction_type_canonical sample_env " cash_in ")
    as (_ & H & _).
  apply H. discriminate.
Defined.

(** ** [_extract_from_body] *)

Lemma set_labelled_get (k key label body : string) (t : dict) :
  (key =? k) = false ->
  dict_get k (set_labelled key label body t) = dict_get k t.
Proof.
  intros H. unfold set_labelled.
  destruct (re_search (labelled_amount label) body) as [g|]; [|reflexivity].
  destruct (float_of_group g); [now apply dict_get_set_other | reflexivity].
Qed.

Lemma extract_from_body_string (t : dict) (b : string) :
  exists t',
    _extract_from_body t (PStr b) = Ok t'
    /\ (forall k, ~ In k body_keys -> dict_get k t' = dict_get k t)
    /\ (py_eq0 (dict_get_or "amount" (PInt 0) t) = false ->
        dict_get "amount" t' = dict_get "amount" t)
    /\ (py_eq0 (dict_get_or "amount" (PInt 0) t) = true ->
        dict_get "amount" t' = dict_get "amount" t
        \/ exists f, dict_get "amount" t' = Some (PFloat f))
    /\ (truthy (dict_get_or "Id" PNone t) = true ->
        dict_get "Id" t' = dict_get "Id" t).
Proof.
  unfold _extract_from_body. cbn [truthy].
  destruct (nonempty b); cbn [negb]; [|exists t; repeat split; auto].
  eexists. split; [reflexivity|].
  set (t1 := if py_eq0 (dict_get_or "amount" (PInt 0) t)
             then match amount_from_body b with
                  | Some f => dict_set "amount" (PFloat f) t
                  | None => t
                  end
             else t).
  assert (H1 : forall k, ("amount" =? k) = false -> dict_get k t1 = dict_get k t).
  { intros k Hk. unfold t1.
    destruct (py_eq0 _); [|reflexivity].
    destruct (amount_from_body b); [now apply dict_get_set_other | reflexivity]. }
  assert (HId : dict_get_or "Id" PNone t1 = dict_get_or "Id" PNone t).
  { unfold dict_get_or. now rewrite H1 by reflexivity. }
  split; [|split; [|split]].
  - intros k Hk. apply not_in_keys in Hk. unfold body_keys in Hk.
    repeat match goal with
           | H : Forall _ (_ :: _) |- _ => inversion H; subst; clear H
           end.
    rewrite !set_labelled_get by assumption.
    destruct (re_search txid_pattern b) as [g|]; [|now apply H1].
    destruct (negb (truthy (dict_get_or "Id" PNone t1))); [|now apply H1].
    rewrite dict_get_set_other by assumption. now apply H1.
  - intros Hz. rewrite !set_labelled_get by reflexivity.
    assert (Ht1 : t1 = t) by (unfold t1; now rewrite Hz).
    rewrite Ht1.
    destruct (re_search txid_pattern b) as [g|]; [|reflexivity].
    destruct (negb (truthy (dict_get_or "Id" PNone t))); [|reflexivity].
    now rewrite dict_get_set_other by reflexivity.
  - intros Hz. rewrite !set_labelled_get by reflexivity.
    assert (Ha : dict_get "amount" t1 = dict_get "amount" t
                 \/ exists f, dict_get "amount" t1 = Some (PFloat f)).
    { unfold t1. rewrite Hz. destruct (amount_from_body b) as [f|]; [|auto].
      right. exists f. apply dict_get_set_same. }
    destruct (re_search txid_pattern b) as [g|]; [|exact Ha].
    destruct (negb (truthy (dict_get_or "Id" PNone t1))); [|exact Ha].
    now rewrite dict_get_set_other by reflexivity.
  - intros Hid. rewrite !set_labelled_get by reflexivity.
    destruct (re_search txid_pattern b) as [g|]; [|now apply H1].
    rewrite HId, Hid. cbn [negb]. now apply H1.
Qed.

(** X8: on a string body, [_extract_from_body] raises nothing and writes
    at most the keys [amount], [Id], [balance_after] and [fee]; it leaves
    an amount that is not zero, and an [Id] that is not empty, as they
    were. *)
Theorem extract_from_body_frame (t : dict) (b : string) :
  exists t',
    _extract_from_body t (PStr b) = Ok t'
    /\ (forall k, ~ In k body_keys -> dict_get k t' = dict_get k t)
    /\ (py_eq0 (dict_get_or "amount" (PInt 0) t) = false ->
        dict_get "amount" t' = dict_get "amount" t)
    /\ (truthy (dict_get_or "Id" PNone t) = true ->
        dict_get "Id" t' = dict_get "Id" t).
Proof.
  destruct (extract_from_body_string t b) as (t' & H & Hk & Ha & _ & Hi).
  exists t'. auto.
Qed.

Lemma extract_from_body_frame_witness :
  exists t',
    _extract_from_body
      [("Id", PStr "TXN_7"); ("amount", PFloat (FQ 250)); ("sender", PStr "Unknown")]
      (PStr "TxId: 99. You paid 1,500 RWF. Fee: 20") = Ok t'
    /\ dict_get "amount" t' = Some (PFloat (FQ 250))
    /\ dict_get "Id" t' = Some (PStr "TXN_7")
    /\ dict_get "sender" t' = Some (PStr "Unknown").
Proof.
  destruct (extract_from_body_frame
              [("Id", PStr "TXN_7"); ("amount", PFloat (FQ 250));
               ("sender", PStr "Unknown")]
              "TxId: 99. You paid 1,500 RWF. Fee: 20")
    as (t' & H & Hk & Ha & Hi).
  exists t'. split; [exact H|].
  split; [apply Ha; reflexivity|].
  split; [apply Hi; reflexivity|].
  apply (Hk "sender"). unfold body_keys. simpl.
  intros E. repeat (destruct E as [E|E]; [discriminate E|]). exact E.
Defined.

(** ** Validation and the issue list *)

Lemma validate_true_amount (d : dict) :
  _validate_transaction d = Ok true ->
  exists v f,
    dict_get "amount" d = Some v /\ as_number v = Some f
    /\ float_le f 0 = false
    /\ (py_eq_str (dict_get "sender" d) "Unknown"
        && py_eq_str (dict_get "receiver" d) "Unknown") = false.
Proof.
  unfold _validate_transaction, required_fields. cbn [existsb].
  destruct (field_missing d "Id"); [discriminate|].
  destruct (field_missing d "amount") eqn:Ea; [discriminate|].
  cbn [orb].
  destruct (field_missing d "sender" || (field_missing d "receiver"
            || (field_missing d "timestamp" || false))); [discriminate|].
  unfold field_missing in Ea. unfold dict_get_or.
  destruct (dict_get "amount" d) as [v|]; [|discriminate].
  unfold py_lt. destruct (as_number v) as [f|] eqn:Ef; [|discriminate].
  cbn [bind]. destruct (float_lt f 0) eqn:El; [discriminate|].
  destruct (py_eq_str (dict_get "sender" d) "Unknown"
            && py_eq_str (dict_get "receiver" d) "Unknown") eqn:Eu;
    [discriminate|].
  intros _. exists v, f. repeat split; auto.
  apply negb_false_iff in Ea.
  destruct f as [q| |]; cbn [float_le float_lt] in *.
  - apply negb_false_iff in El. apply Qle_bool_iff in El.
    assert (Hq : ~ q == 0).
    { destruct v; try discriminate Ef; cbn [truthy as_number] in *.
      - inversion Ef; subst q. destruct b; [discriminate | discriminate Ea].
      - inversion Ef; subst q. apply negb_true_iff, Z.eqb_neq in Ea.
        unfold Qeq. simpl. lia.
      - inversion Ef; subst f. cbn [float_truthy] in Ea.
        apply negb_true_iff in Ea. intros Hq. apply Qeq_bool_iff in Hq.
        congruence. }
    destruct (Qle_bool q 0) eqn:E0; [|reflexivity].
    apply Qle_bool_iff in E0. exfalso. apply Hq. now apply Qle_antisym.
  - exact El.
  - reflexivity.
Qed.

(** X9: a record that [_validate_transaction] accepts gets an issue list
    from [_get_validation_issues] that does not report the amount and does
    not report both the sender and the receiver as unknown. *)
Theorem valid_record_issues (d : dict) :
  _validate_transaction d = Ok true ->
  exists issues,
    _get_validation_issues d = Ok issues
    /\ ~ In "Invalid or zero amount" issues
    /\ ~ (In "Unknown sender" issues /\ In "Unknown receiver" issues).
Proof.
  intros H. destruct (validate_true_amount d H) as (v & f & Hv & Hf & Hle & Hu).
  unfold _get_validation_issues, dict_get_or, py_le. rewrite Hv, Hf.
  cbn [bind]. rewrite Hle.
  eexists. split; [reflexivity|].
  destruct (py_eq_str (dict_get "sender" d) "Unknown");
    destruct (py_eq_str (dict_get "receiver" d) "Unknown");
    try discriminate Hu;
    destruct (py_eq_str (dict_get "transaction_type" d) "UNKNOWN");
    simpl; split; intros E;
    repeat match goal with
           | E : _ \/ _ |- _ => destruct E as [E|E]
           | E : _ /\ _ |- _ => destruct E as [? E]
           | E : False |- _ => contradiction
           | E : _ = _ |- _ => discriminate E
           end.
Qed.

Lemma valid_record_issues_witness :
  exists issues,
    _get_validation_issues
      (dict_set "amount" (PFloat (FQ 1)) zero_amount_record) = Ok issues
    /\ ~ In "Invalid or zero amount" issues.
Proof.
  destruct (valid_record_issues
              (dict_set "amount" (PFloat (FQ 1)) zero_amount_record) eq_refl)
    as (issues & H & Hn & _).
  exists issues. auto.
Defined.

(** ** [clean_transaction]: the fields of a cleaned record *)

Lemma extract_from_body_any (t t' : dict) (body : pyval) :
  _extract_from_body t body = Ok t' ->
  (forall k, ~ In k body_keys -> dict_get k t' = dict_get k t)
  /\ (dict_get "amount" t' = dict_get "amount" t
      \/ exists f, dict_get "amount" t' = Some (PFloat f))
  /\ (truthy (dict_get_or "Id" PNone t) = true ->
      dict_get "Id" t' = dict_get "Id" t).
Proof.
  intros H.
  destruct (truthy body) eqn:Hb.
  - destruct body; try (unfold _extract_from_body in H; rewrite Hb in H;
                        discriminate H).
    destruct (extract_from_body_string t s) as (t0 & H0 & Hk & Ha & Ha' & Hi).
    rewrite H0 in H. inversion H; subst t0.
    split; [exact Hk|]. split; [|exact Hi].
    destruct (py_eq0 (dict_get_or "amount" (PInt 0) t)); auto.
  - unfold _extract_from_body in H. rewrite Hb in H. inversion H; subst.
    auto.
Qed.

(** The steps of a successful [try] block of [clean_transaction]. *)
Lemma clean_body_steps (env : Env) (d out : dict) :
  clean_body env (PDict d) = Ok out ->
  exists id sender receiver c2 is_valid issues,
    _clean_id env (dict_get_or "Id" (PStr EmptyString) d) = Ok id
    /\ clean_phone_value (dict_get_or "sender" (PStr "Unknown") d) = Ok sender
    /\ clean_phone_value (dict_get_or "receiver" (PStr "Unknown") d) = Ok receiver
    /\ match dict_get "body" d with
       | Some body =>
           _extract_from_body
             (dict_set "transaction_type"
                (PStr (_clean_transaction_type env
                         (dict_get_or "transaction_type" (PStr "UNKNOWN") d)))
                (dict_set "timestamp"
                   (PStr (clean_timestamp_value env
                            (dict_get_or "timestamp" (PStr EmptyString) d)))
                   (dict_set "receiver" (PStr receiver)
                      (dict_set "sender" (PStr sender)
                         (dict_set "amount"
                            (PFloat (clean_amount_value env
                                       (dict_get_or "amount" (PStr "0") d)))
                            (dict_set "Id" (PStr id) d)))))) body
       | None =>
           Ok (dict_set "transaction_type"
                (PStr (_clean_transaction_type env
                         (dict_get_or "transaction_type" (PStr "UNKNOWN") d)))
                (dict_set "timestamp"
                   (PStr (clean_timestamp_value env
                            (dict_get_or "timestamp" (PStr EmptyString) d)))
                   (dict_set "receiver" (PStr receiver)
                      (dict_set "sender" (PStr sender)
                         (dict_set "amount"
                            (PFloat (clean_amount_value env
                                       (dict_get_or "amount" (PStr "0") d)))
                            (dict_set "Id" (PStr id) d))))))
       end = Ok c2
    /\ out = dict_set "_validation" (validation_report env is_valid issues) c2.
Proof.
  unfold clean_body. intros H.
  apply bind_ok in H. destruct H as (id & Hid & H).
  apply bind_ok in H. destruct H as (s & Hs & H).
  apply bind_ok in H. destruct H as (r & Hr & H).
  apply bind_ok in H. destruct H as (c2 & Hc & H).
  apply bind_ok in H. destruct H as (v & Hv & H).
  apply bind_ok in H. destruct H as (i & Hi & H).
  inversion H; subst out.
  exists id, s, r, c2, v, i. repeat split; auto.
Qed.

Lemma clean_phone_value_shape (v : pyval) (s : string) :
  clean_phone_value v = Ok s -> phone_shape s.
Proof.
  unfold clean_phone_value.
  destruct (negb (truthy v)); [intros H; inversion H; left; reflexivity|].
  destruct v; try discriminate.
  intros H; inversion H. apply clean_phone_prefix_or_sentinel.
Qed.

(** X10: when no field cleaner fails, [clean_transaction] passes every
    field that is not one of its own through unchanged. *)
Theorem clean_passes_extra_fields (env : Env) (d out : dict) (k : string) :
  clean_body env (PDict d) = Ok out ->
  ~ In k cleaner_keys ->
  clean_transaction env (PDict d) = Ok (PDict out)
  /\ dict_get k out = dict_get k d.
Proof.
  intros H Hk. split; [unfold clean_transaction; now rewrite H|].
  destruct (clean_body_steps _ _ _ H)
    as (id & s & r & c2 & v & i & _ & _ & _ & Hc & ->).
  assert (Hb : ~ In k body_keys).
  { unfold cleaner_keys in Hk. unfold body_keys. simpl in *. tauto. }
  apply not_in_keys in Hk. unfold cleaner_keys in Hk.
  repeat match goal with
         | H : Forall _ (_ :: _) |- _ => inversion H; subst; clear H
         end.
  rewrite dict_get_set_other by assumption.
  destruct (dict_get "body" d) as [body|].
  - destruct (extract_from_body_any _ _ _ Hc) as (Hf & _).
    rewrite (Hf k Hb). now rewrite !dict_get_set_other by assumption.
  - inversion Hc; subst c2. now rewrite !dict_get_set_other by assumption.
Qed.

Lemma clean_passes_extra_fields_witness :
  exists out,
    clean_transaction sample_env
      (PDict [("Id", PStr "7"); ("Status", PStr "SUCCESS")]) = Ok (PDict out)
    /\ dict_get "Status" out = Some (PStr "SUCCESS").
Proof.
  eexists.
  apply (clean_passes_extra_fields sample_env
           [("Id", PStr "7"); ("Status", PStr "SUCCESS")] _ "Status" eq_refl).
  unfold cleaner_keys. simpl.
  intros E. repeat (destruct E as [E|E]; [discriminate E|]). exact E.
Defined.

(** X11: when no field cleaner fails, the cleaned record has an [Id] that
    starts with ["TXN_"], a float [amount], a [sender] and a [receiver]
    that are each the sentinel or start with [+250] and nine digits, and
    string [timestamp] and [transaction_type]. *)
Theorem cleaned_record_fields (env : Env) (d out : dict) :
  clean_body env (PDict d) = Ok out ->
  exists id amount sender receiver timestamp transaction_type,
    dict_get "Id" out = Some (PStr id) /\ startswith "TXN_" id = true
    /\ dict_get "amount" out = Some (PFloat amount)
    /\ dict_get "sender" out = Some (PStr sender) /\ phone_shape sender
    /\ dict_get "receiver" out = Some (PStr receiver) /\ phone_shape receiver
    /\ dict_get "timestamp" out = Some (PStr timestamp)
    /\ dict_get "transaction_type" out = Some (PStr transaction_type).
Proof.
  intros H.
  destruct (clean_body_steps _ _ _ H)
    as (id & s & r & c2 & v & i & Hid & Hs & Hr & Hc & ->).
  destruct (clean_id_result _ _ _ Hid) as (Hp & _).
  pose proof (clean_phone_value_shape _ _ Hs) as Hss.
  pose proof (clean_phone_value_shape _ _ Hr) as Hrs.
  set (c1 := dict_set "transaction_type" _ _) in Hc.
  assert (Hc1 : dict_get "Id" c1 = Some (PStr id)
                /\ (exists a, dict_get "amount" c1 = Some (PFloat a))
                /\ dict_get "sender" c1 = Some (PStr s)
                /\ dict_get "receiver" c1 = Some (PStr r)
                /\ (exists ts, dict_get "timestamp" c1 = Some (PStr ts))
                /\ (exists ty, dict_get "transaction_type" c1 = Some (PStr ty))).
  { unfold c1. repeat split.
    - rewrite !dict_get_set_other by reflexivity. apply dict_get_set_same.
    - eexists. rewrite !dict_get_set_other by reflexivity. apply dict_get_set_same.
    - rewrite !dict_get_set_other by reflexivity. apply dict_get_set_same.
    - rewrite !dict_get_set_other by reflexivity. apply dict_get_set_same.
    - eexists. rewrite !dict_get_set_other by reflexivity. apply dict_get_set_same.
    - eexists. apply dict_get_set_same. }
  destruct Hc1 as (HId & (a & Ha) & Hsn & Hrc & (ts & Hts) & (ty & Hty)).
  assert (Hc2 : dict_get "Id" c2 = Some (PStr id)
                /\ (exists a', dict_get "amount" c2 = Some (PFloat a'))
                /\ dict_get "sender" c2 = Some (PStr s)
                /\ dict_get "receiver" c2 = Some (PStr r)
                /\ dict_get "timestamp" c2 = Some (PStr ts)
                /\ dict_get "transaction_type" c2 = Some (PStr ty)).
  { destruct (dict_get "body" d) as [body|].
    - destruct (extract_from_body_any _ _ _ Hc) as (Hf & Hamt & Hi).
      assert (Hn : forall k, In k ["sender"; "receiver"; "timestamp";
                                   "transaction_type"] -> ~ In k body_keys).
      { intros k Hk E. unfold body_keys in E. simpl in Hk, E.
        repeat (destruct Hk as [Hk|Hk]; [subst k;
          repeat (destruct E as [E|E]; [discriminate E|]); exact E|]).
        exact Hk. }
      rewrite (Hf "sender"), (Hf "receiver"), (Hf "timestamp"),
        (Hf "transaction_type") by (apply Hn; simpl; tauto).
      split.
      + rewrite Hi; [exact HId|]. unfold dict_get_or. rewrite HId.
        cbn [truthy]. eapply startswith_nonempty; [|exact Hp]. discriminate.
      + split; [|auto].
        destruct Hamt as [E|[f E]]; [rewrite E; eauto | eauto].
    - inversion Hc; subst c2. repeat split; eauto. }
  destruct Hc2 as (HId2 & (a' & Ha2) & Hsn2 & Hrc2 & Hts2 & Hty2).
  exists id, a', s, r, ts, ty.
  rewrite !dict_get_set_other by reflexivity. auto 10.
Qed.

Lemma cleaned_record_fields_witness :
  exists out id,
    clean_body sample_env
      (PDict [("Id", PStr "12345"); ("sender", PStr "0788123456")]) = Ok out
    /\ dict_get "Id" out = Some (PStr id) /\ startswith "TXN_" id = true.
Proof.
  eexists.
  destruct (cleaned_record_fields sample_env
              [("Id", PStr "12345"); ("sender", PStr "0788123456")] _ eq_refl)
    as (id & a & s & r & ts & ty & Hid & Hp & _).
  exists id. split; [reflexivity|]. auto.
Defined.

(** ** [clean_batch] *)

Lemma clean_transaction_not_dict (env : Env) (r : pyval) :
  is_dict r = false -> clean_transaction env r = Raise TypeError.
Proof. destruct r; simpl; intros H; try reflexivity; discriminate. Qed.

(** X12: on a batch of dict-shaped records [clean_batch] returns one
    cleaned record per input, in input order; a batch that contains a
    value that is not a dict is aborted with [TypeError], because the
    handler of the loop writes into the record too. *)
Theorem clean_batch_outcomes (env : Env) (rs : list pyval) :
  (forallb is_dict rs = true ->
   exists outs,
     clean_batch env rs = Ok outs
     /\ Forall2 (fun r o => clean_transaction env r = Ok o) rs outs)
  /\ (forallb is_dict rs = false -> clean_batch env rs = Raise TypeError).
Proof.
  split.
  - induction rs as [|r rs IH]; simpl.
    + exists []. split; [reflexivity | constructor].
    + intros H. apply andb_true_iff in H. destruct H as [Hr Hrs].
      destruct r; try discriminate Hr.
      destruct (clean_transaction_dict env d) as (o & Ho). rewrite Ho.
      destruct (IH Hrs) as (outs & -> & Hf). cbn [bind].
      exists (PDict o :: outs). split; [reflexivity|]. constructor; assumption.
  - induction rs as [|r rs IH]; simpl; [discriminate|].
    destruct (is_dict r) eqn:Hr; simpl.
    + intros Hrs. destruct r; try discriminate Hr.
      destruct (clean_transaction_dict env d) as (o & ->). cbn [bind].
      rewrite (IH Hrs). reflexivity.
    + intros _. rewrite (clean_transaction_not_dict env r Hr).
      destruct r; try discriminate Hr; reflexivity.
Qed.

Lemma clean_batch_outcomes_witness :
  (exists outs,
      clean_batch sample_env [PDict []; PDict [("sender", PInt 5)]] = Ok outs
      /\ List.length outs = 2%nat)
  /\ clean_batch sample_env [PDict []; PNone] = Raise TypeError.
Proof.
  split.
  - destruct (clean_batch_outcomes sample_env
                [PDict []; PDict [("sender", PInt 5)]]) as [H _].
    destruct (H eq_refl) as (outs & Ho & Hf).
    exists outs. split; [exact Ho|].
    apply Forall2_length in Hf. now rewrite <- Hf.
  - destruct (clean_batch_outcomes sample_env [PDict []; PNone]) as [_ H].
    apply H. reflexivity.
Defined.

(** ** Record discovery *)

Lemma filter_tag (t : string) (l : list element) :
  Forall (fun e => tag_of e = t) (filter (fun c => tag_of c =? t) l).
Proof.
  apply Forall_forall. intros e He. apply filter_In in He.
  destruct He as [_ He]. now apply String.eqb_eq.
Qed.

Lemma list_or_cases {A} (a b : list A) :
  (a <> [] /\ list_or a b = a) \/ (a = [] /\ list_or a b = b).
Proof. destruct a; [right | left]; split; auto; discriminate. Qed.

Lemma homogeneous_or (P Q : element -> Prop) (a b : list element) :
  Forall P a -> Forall Q b ->
  Forall P (list_or a b) \/ Forall Q (list_or a b).
Proof.
  intros Ha Hb. destruct (list_or_cases a b) as [[_ ->]|[_ ->]]; auto.
Qed.

(** X13: the elements that either discoverer returns all carry the tag
    [sms], or all carry the tag [transaction]; the two kinds are never
    mixed in one result. *)
Theorem discovered_elements_homogeneous (root : element) :
  (Forall (fun e => tag_of e = "sms") (_find_sms_elements root)
   \/ Forall (fun e => tag_of e = "transaction") (_find_sms_elements root))
  /\ (Forall (fun e => tag_of e = "sms") (dsa_find_sms_elements root)
      \/ Forall (fun e => tag_of e = "transaction") (dsa_find_sms_elements root)).
Proof.
  unfold _find_sms_elements, dsa_find_sms_elements, findall, findall_deep.
  destruct (tag_in root ["sms"; "transaction"]) eqn:Et.
  - unfold tag_in in Et. cbn [existsb] in Et.
    destruct (tag_of root =? "sms") eqn:E1.
    + apply String.eqb_eq in E1. split; left; repeat constructor; exact E1.
    + destruct (tag_of root =? "transaction") eqn:E2; [|discriminate Et].
      apply String.eqb_eq in E2. split; right; repeat constructor; exact E2.
  - split.
    + destruct (tag_in root ["smses"; "transactions"; "data"]);
        apply homogeneous_or; apply filter_tag.
    + destruct (tag_in root ["transactions"; "data"]);
        apply homogeneous_or; apply filter_tag.
Qed.

Lemma children_are_descendants (root e : element) :
  In e (children_of root) -> In e (descendants root).
Proof.
  destruct root as [t a x cs]. cbn [children_of descendants].
  intros H. apply in_flat_map. exists e. split; [exact H | left; reflexivity].
Qed.

Lemma findall_deep_empty (t : string) (root : element) :
  findall_deep t root = [] -> findall t root = [].
Proof.
  unfold findall_deep, findall. intros H.
  destruct (filter (fun c => tag_of c =? t) (children_of root)) as [|e l] eqn:E;
    [reflexivity|].
  assert (He : In e (filter (fun c => tag_of c =? t) (children_of root)))
    by (rewrite E; left; reflexivity).
  apply filter_In in He. destruct He as [Hc Ht].
  assert (Hd : In e (filter (fun c => tag_of c =? t) (descendants root))).
  { apply filter_In. split; [now apply children_are_descendants | exact Ht]. }
  rewrite H in Hd. contradiction.
Qed.

Lemma list_or_empty {A} (a b : list A) :
  list_or a b = [] -> a = [] /\ b = [].
Proof. destruct a; simpl; [auto | discriminate]. Qed.

(** Whatever the older discoverer misses, the newer one misses too. *)
Lemma dsa_empty_etl_empty (root : element) :
  dsa_find_sms_elements root = [] -> _find_sms_elements root = [].
Proof.
  unfold dsa_find_sms_elements, _find_sms_elements.
  destruct (tag_in root ["sms"; "transaction"]); [discriminate|].
  unfold tag_in. cbn [existsb].
  destruct (tag_of root =? "transactions") eqn:E1;
    [rewrite orb_true_r; cbn [orb]; auto|].
  destruct (tag_of root =? "data") eqn:E2;
    [rewrite !orb_true_r; cbn [orb]; auto|].
  cbn [orb]. rewrite !orb_false_r.
  destruct (tag_of root =? "smses"); [|auto].
  intros H. apply list_or_empty in H. destruct H as [Hs Ht].
  now rewrite (findall_deep_empty _ _ Hs), (findall_deep_empty _ _ Ht).
Qed.

Lemma dsa_loop_length (env : Env) (els : list element) :
  forall n, List.length (dsa_loop env n els) = List.length els.
Proof.
  induction els as [|e els IH]; intros n; simpl; [reflexivity|].
  now rewrite IH.
Qed.

(** X14: when the older parser is imported, [parse_xml_file] returns, for
    every well-formed document, exactly what [parse_sms_xml] returns: the
    enhanced parser only runs when the older one found nothing, and then
    it finds nothing either. *)
Theorem parse_xml_file_is_dsa_parser (env : Env) (root : element) :
  parse_xml_file env true (WellFormed root)
  = parse_sms_xml env (WellFormed root).
Proof.
  unfold parse_xml_file, parse_sms_xml. cbn [et_parse bind].
  destruct (dsa_loop env 0 (dsa_find_sms_elements root)) as [|t l] eqn:E;
    [|reflexivity].
  assert (Hd : dsa_find_sms_elements root = []).
  { pose proof (dsa_loop_length env (dsa_find_sms_elements root) 0) as Hl.
    rewrite E in Hl. simpl in Hl.
    destruct (dsa_find_sms_elements root); [reflexivity | discriminate Hl]. }
  unfold _parse_xml_enhanced. cbn [et_parse bind].
  now rewrite (dsa_empty_etl_empty root Hd).
Qed.

(** ** Raw records and their normalisation *)

Lemma dict_set_values (P : pyval -> Prop) (k : string) (v : pyval) (d : dict) :
  P v -> Forall (fun kv => P (snd kv)) d ->
  Forall (fun kv => P (snd kv)) (dict_set k v d).
Proof.
  intros Hv. induction 1 as [|[k' v'] d Hkv Hd IH]; simpl.
  - repeat constructor. exact Hv.
  - destruct (k' =? k); constructor; auto.
Qed.

Lemma set_all_values (P : pyval -> Prop) (items : dict) :
  Forall (fun kv => P (snd kv)) items ->
  forall d, Forall (fun kv => P (snd kv)) d ->
            Forall (fun kv => P (snd kv)) (set_all items d).
Proof.
  induction 1 as [|[k v] items Hkv _ IH]; intros d Hd; simpl; [exact Hd|].
  apply IH. now apply dict_set_values.
Qed.

Lemma dict_get_value (P : pyval -> Prop) (k : string) (v : pyval) (d : dict) :
  Forall (fun kv => P (snd kv)) d -> dict_get k d = Some v -> P v.
Proof.
  induction 1 as [|[k' v'] d Hkv _ IH]; simpl; [discriminate|].
  destruct (k' =? k); [intros H; inversion H; subst; exact Hkv | exact IH].
Qed.

Lemma attrib_items_xml (sms : element) :
  Forall (fun kv => xml_value (snd kv)) (attrib_items sms).
Proof.
  unfold attrib_items. apply Forall_forall. intros kv H.
  apply in_map_iff in H. destruct H as (x & <- & _). right. eexists; reflexivity.
Qed.

Lemma child_items_xml (sms : element) :
  Forall (fun kv => xml_value (snd kv)) (child_items sms).
Proof.
  unfold child_items. apply Forall_forall. intros kv H.
  apply in_map_iff in H. destruct H as (c & <- & _). simpl.
  unfold child_value. destruct (text_of c); [right; eexists; reflexivity | left; reflexivity].
Qed.

Lemma dsa_raw_xml (sms : element) :
  Forall (fun kv => xml_value (snd kv)) (dsa_raw sms).
Proof.
  unfold dsa_raw. apply set_all_values; [apply attrib_items_xml|].
  apply set_all_values; [apply child_items_xml | constructor].
Qed.

Lemma etl_raw_xml (sms : element) :
  Forall (fun kv => xml_value (snd kv)) (etl_raw_data sms).
Proof.
  unfold etl_raw_data. apply set_all_values; [apply child_items_xml|].
  apply set_all_values; [apply attrib_items_xml | constructor].
Qed.

Lemma get_none_xml (k : string) (d : dict) :
  Forall (fun kv => xml_value (snd kv)) d -> xml_value (get_none k d).
Proof.
  intros H. unfold get_none, dict_get_or.
  destruct (dict_get k d) eqn:E; [|left; reflexivity].
  exact (dict_get_value _ _ _ _ H E).
Qed.

Lemma py_or_nonempty (a b : pyval) :
  xml_value a -> nonempty_str (Some b) -> nonempty_str (Some (py_or a b)).
Proof.
  intros [->|[s ->]] Hb; unfold py_or; cbn [truthy]; [exact Hb|].
  destruct (nonempty s) eqn:E; [|exact Hb].
  exists s. auto.
Qed.

Lemma literal_nonempty (s : string) :
  nonempty s = true -> nonempty_str (Some (PStr s)).
Proof. intros H. exists s. auto. Qed.

Lemma fold_keeps_present (raw : dict) :
  forall (normalized : dict) (k : string) (v : pyval),
    dict_get k normalized = Some v ->
    dict_get k
      (fold_left (fun normalized kv =>
                    if negb (existsb (String.eqb (fst kv)) core_keys)
                       && negb (dict_has (fst kv) normalized)
                    then dict_set (fst kv) (snd kv) normalized
                    else normalized) raw normalized) = Some v.
Proof.
  induction raw as [|[k' v'] raw IH]; intros n k v H;
    cbn [fold_left fst snd]; [exact H|].
  apply IH.
  destruct (negb (existsb (String.eqb k') core_keys) && negb (dict_has k' n))
    eqn:E; [|exact H].
  apply andb_true_iff in E. destruct E as [_ E]. apply negb_true_iff in E.
  rewrite dict_get_set_other; [exact H|].
  destruct (k' =? k) eqn:Ek; [|reflexivity].
  apply String.eqb_eq in Ek. subst k'.
  rewrite dict_has_get, H in E. discriminate E.
Qed.

Lemma dsa_normalize_fields (env : Env) (sms : element) (n : nat) :
  dict_has "Id" (dsa_normalize env sms n) = true
  /\ nonempty_str (dict_get "transaction_type" (dsa_normalize env sms n))
  /\ nonempty_str (dict_get "amount" (dsa_normalize env sms n))
  /\ nonempty_str (dict_get "sender" (dsa_normalize env sms n))
  /\ nonempty_str (dict_get "receiver" (dsa_normalize env sms n))
  /\ dict_has "timestamp" (dsa_normalize env sms n) = true.
Proof.
  unfold dsa_normalize. fold (dsa_raw sms).
  pose proof (dsa_raw_xml sms) as Hx.
  repeat split.
  - rewrite dict_has_get. erewrite fold_keeps_present; reflexivity.
  - erewrite fold_keeps_present by reflexivity.
    repeat (apply py_or_nonempty; [now apply get_none_xml|]).
    now apply literal_nonempty.
  - erewrite fold_keeps_present by reflexivity.
    repeat (apply py_or_nonempty; [now apply get_none_xml|]).
    now apply literal_nonempty.
  - erewrite fold_keeps_present by reflexivity.
    repeat (apply py_or_nonempty; [now apply get_none_xml|]).
    now apply literal_nonempty.
  - erewrite fold_keeps_present by reflexivity.
    repeat (apply py_or_nonempty; [now apply get_none_xml|]).
    now apply literal_nonempty.
  - rewrite dict_has_get. erewrite fold_keeps_present; reflexivity.
Qed.

(** X15: for a well-formed document [parse_sms_xml] returns one record per
    discovered element, none dropped; every record has the keys [Id] and
    [timestamp] and holds non-empty strings under [transaction_type],
    [amount], [sender] and [receiver]. *)
Theorem parse_sms_xml_records (env : Env) (root : element) :
  exists l,
    parse_sms_xml env (WellFormed root) = Ok l
    /\ List.length l = List.length (dsa_find_sms_elements root)
    /\ Forall (fun t =>
                 dict_has "Id" t = true
                 /\ nonempty_str (dict_get "transaction_type" t)
                 /\ nonempty_str (dict_get "amount" t)
                 /\ nonempty_str (dict_get "sender" t)
                 /\ nonempty_str (dict_get "receiver" t)
                 /\ dict_has "timestamp" t = true) l.
Proof.
  eexists. split; [reflexivity|]. split; [apply dsa_loop_length|].
  generalize 0%nat. induction (dsa_find_sms_elements root) as [|e els IH];
    intros n; simpl; constructor; [apply dsa_normalize_fields | apply IH].
Qed.

Lemma set_all_get_other (k : string) (items : dict) :
  Forall (fun kv => (fst kv =? k) = false) items ->
  forall d, dict_get k (set_all items d) = dict_get k d.
Proof.
  induction 1 as [|[k' v'] items Hkv _ IH]; intros d; simpl; [reflexivity|].
  rewrite IH. now apply dict_get_set_other.
Qed.

Lemma extras_avoid_core (raw : dict) (k : string) :
  In k core_fields ->
  Forall (fun kv => (fst kv =? k) = false)
    (filter (fun kv => negb (existsb (String.eqb (fst kv)) core_fields)
                       && negb (is_none (snd kv))) raw).
Proof.
  intros Hk. apply Forall_forall. intros [k' v'] H.
  apply filter_In in H. destruct H as [_ H].
  apply andb_true_iff in H. destruct H as [H _]. apply negb_true_iff in H.
  cbn [fst snd] in *. destruct (k' =? k) eqn:E; [|reflexivity].
  apply String.eqb_eq in E. subst k'.
  assert (existsb (String.eqb k) core_fields = true); [|congruence].
  apply existsb_exists. exists k. split; [exact Hk | apply String.eqb_refl].
Qed.

(** The canonical fields of a normalised transaction are the extracted
    values: no other raw field overwrites them. *)
Lemma normalize_core_fields (env : Env) (raw : dict) (index : nat) :
  let t := _normalize_transaction_data env raw index in
  dict_get "Id" t = Some (PStr (_extract_id env raw index))
  /\ dict_get "transaction_type" t = Some (PStr (_extract_transaction_type env raw))
  /\ dict_get "amount" t = Some (PStr (_extract_amount env raw))
  /\ dict_get "sender" t = Some (PStr (_extract_sender env raw))
  /\ dict_get "receiver" t = Some (PStr (_extract_receiver raw))
  /\ dict_get "timestamp" t = Some (PStr (_extract_timestamp env raw))
  /\ dict_get "body" t = Some (dict_get_or "body" (PStr EmptyString) raw).
Proof.
  cbv zeta. unfold _normalize_transaction_data.
  repeat split;
    (rewrite set_all_get_other;
     [reflexivity | apply extras_avoid_core; unfold core_fields; simpl; tauto]).
Qed.

Lemma field_present_string (t : dict) (f s : string) :
  dict_get f t = Some (PStr s) -> field_missing t f = false ->
  nonempty_str (dict_get f t).
Proof.
  intros Hg Hm. unfold field_missing in Hm. rewrite Hg in *.
  cbn [truthy] in Hm. apply negb_false_iff in Hm. exists s. auto.
Qed.

Lemma parse_sms_element_fields (env : Env) (sms : element) (i : nat) (t : dict) :
  _parse_sms_element env sms i = Some t ->
  t = _normalize_transaction_data env (etl_raw_data sms) i
  /\ nonempty_str (dict_get "Id" t)
  /\ nonempty_str (dict_get "transaction_type" t)
  /\ nonempty_str (dict_get "amount" t)
  /\ nonempty_str (dict_get "sender" t)
  /\ nonempty_str (dict_get "receiver" t)
  /\ nonempty_str (dict_get "timestamp" t).
Proof.
  unfold _parse_sms_element. fold (etl_raw_data sms).
  destruct (etl_validate_transaction _) eqn:Ev; [|discriminate].
  intros H; inversion H; subst t; clear H. split; [reflexivity|].
  destruct (normalize_core_fields env (etl_raw_data sms) i)
    as (H1 & H2 & H3 & H4 & H5 & H6 & _).
  unfold etl_validate_transaction in Ev.
  apply andb_true_iff in Ev. destruct Ev as [Ev _].
  apply negb_true_iff in Ev. cbn [existsb] in Ev.
  repeat match goal with
         | H : (_ || _) = false |- _ =>
             apply orb_false_iff in H; destruct H as [? H]
         end.
  repeat split; eapply field_present_string; eassumption.
Qed.

(** X16: for a well-formed document [_parse_xml_enhanced] returns at most
    one transaction per discovered element, and every transaction it
    returns holds non-empty strings under [Id], [transaction_type],
    [amount], [sender], [receiver] and [timestamp]. *)
Theorem parse_xml_enhanced_records (env : Env) (root : element) :
  exists l,
    _parse_xml_enhanced env (WellFormed root) = Ok l
    /\ (List.length l <= List.length (_find_sms_elements root))%nat
    /\ Forall (fun t =>
                 nonempty_str (dict_get "Id" t)
                 /\ nonempty_str (dict_get "transaction_type" t)
                 /\ nonempty_str (dict_get "amount" t)
                 /\ nonempty_str (dict_get "sender" t)
                 /\ nonempty_str (dict_get "receiver" t)
                 /\ nonempty_str (dict_get "timestamp" t)) l.
Proof.
  eexists. split; [reflexivity|].
  generalize 0%nat. induction (_find_sms_elements root) as [|e els IH];
    intros n; simpl; [split; [lia | constructor]|].
  destruct (IH (S n)) as (Hl & Hf).
  destruct (_parse_sms_element env e n) as [t|] eqn:E; simpl.
  - split; [lia|]. constructor; [|exact Hf].
    apply (parse_sms_element_fields _ _ _ _ E).
  - split; [lia | exact Hf].
Qed.

(** ** Attributes against children *)

Lemma dict_get_app (k : string) (a b : dict) :
  dict_get k (a ++ b)%list
  = match dict_get k a with
    | Some v => Some v
    | None => dict_get k b
    end.
Proof.
  induction a as [|[k' v'] a IH]; simpl; [reflexivity|].
  destruct (k' =? k); [reflexivity | exact IH].
Qed.

(** After a run of assignments the value under a key is the one assigned
    last, or the former one when the key was not assigned. *)
Lemma dict_get_set_all (k : string) (items : dict) :
  forall d,
    dict_get k (set_all items d)
    = match dict_get k (rev items) with
      | Some v => Some v
      | None => dict_get k d
      end.
Proof.
  induction items as [|[k' v'] items IH]; intros d; simpl; [reflexivity|].
  rewrite IH, dict_get_app. destruct (dict_get k (rev items)); [reflexivity|].
  simpl. destruct (k' =? k) eqn:E.
  - apply String.eqb_eq in E. subst k'. apply dict_get_set_same.
  - now apply dict_get_set_other.
Qed.

(** X17: when an element has both an attribute and a child with the same
    name, the raw record of [ETLXMLParser._parse_sms_element] holds the
    text of the (last such) child, and the raw record of [parse_sms_xml]
    holds the attribute; a name carried by only one of the two gives the
    same value in both. *)
Theorem raw_record_precedence (sms : element) (k : string) :
  dict_get k (etl_raw_data sms)
  = match last_child k sms with
    | Some v => Some v
    | None => attribute k sms
    end
  /\ dict_get k (dsa_raw sms)
     = match attribute k sms with
       | Some v => Some v
       | None => last_child k sms
       end.
Proof.
  unfold etl_raw_data, dsa_raw, last_child, attribute.
  rewrite !dict_get_set_all. simpl.
  split; destruct (dict_get k (rev (child_items sms)));
    destruct (dict_get k (rev (attrib_items sms))); reflexivity.
Qed.

(** ** A run of the pipeline *)

Lemma transform_all_dicts (env : Env) (rs : list pyval) (st : stats) :
  forallb is_dict rs = true ->
  exists outs,
    transform env rs st = (outs, st) /\ List.length outs = List.length rs.
Proof.
  intros Hd. unfold transform.
  destruct (transform_from_spec env rs 0 st) as (H1 & _ & _ & H4).
  destruct (transform_from env 0 rs st) as [outs st'] eqn:E.
  cbn [fst snd] in *. exists outs. rewrite (H4 Hd). split; [reflexivity|].
  rewrite <- (Forall2_length H1).
  pose proof (filter_lengths rs) as Hl.
  rewrite (all_dicts_none_dropped rs Hd) in Hl. simpl in Hl. lia.
Qed.

Lemma all_dicts_map (l : list dict) : forallb is_dict (map PDict l) = true.
Proof. induction l; simpl; auto. Qed.

Lemma extract_well_formed (env : Env) (root : element) :
  dsa_find_sms_elements root <> [] ->
  exists raw,
    extract env (WellFormed root) = Ok raw
    /\ List.length raw = List.length (dsa_find_sms_elements root).
Proof.
  intros Hne. unfold extract, parse_sms_xml. cbn [et_parse bind].
  pose proof (dsa_loop_length env (dsa_find_sms_elements root) 0) as Hl.
  destruct (dsa_loop env 0 (dsa_find_sms_elements root)) as [|t l] eqn:E.
  - destruct (dsa_find_sms_elements root); [congruence | discriminate Hl].
  - eexists. split; [reflexivity | exact Hl].
Qed.

(** X18: with a valid configuration, a well-formed document in which at
    least one record is discovered, and either a dry run or a load that
    succeeds, [run] returns [True]; every discovered record is processed
    ([successful] and [total_processed] both equal the number of discovered
    elements) and nothing is added to [failed] or to the error list. *)
Theorem run_processes_every_record (env : Env) (cfg : ETLConfig) (w : world)
    (dry_run : bool) (ps : pipeline_stats) (root : element) :
  validate_pipeline cfg w = true ->
  document w = WellFormed root ->
  dsa_find_sms_elements root <> [] ->
  fromisoformat env (now_iso env) <> None ->
  dry_run = true \/ load_error w = None ->
  exists ps',
    run env cfg w dry_run ps = (true, ps')
    /\ total_processed ps' = List.length (dsa_find_sms_elements root)
    /\ successful ps' = total_processed ps'
    /\ core ps' = core ps.
Proof.
  intros Hv Hdoc Hne Hiso Hload.
  unfold run. rewrite Hv. cbn [negb]. unfold extract_logged. rewrite Hdoc.
  destruct (extract_well_formed env root Hne) as (raw & -> & Hlen).
  cbn [core].
  destruct (transform_all_dicts env (map PDict raw) (core ps) (all_dicts_map raw))
    as (outs & -> & Hout).
  rewrite length_map in Hout.
  assert (Hfin : forall p, exists ps',
             run_finish env p (core ps) = (true, ps')
             /\ total_processed ps' = total_processed p
             /\ successful ps' = successful p
             /\ core ps' = core ps).
  { intros p. unfold run_finish.
    destruct (fromisoformat env (now_iso env)); [|congruence].
    eexists. repeat split. }
  destruct Hload as [-> | Hl].
  - match goal with |- context [run_finish env ?p _] =>
      destruct (Hfin p) as (ps' & -> & Ht & Hs & Hc) end.
    exists ps'. cbn [total_processed successful] in *.
    split; [reflexivity|]. split; [now rewrite Ht|].
    split; [rewrite Hs, Ht; exact Hout | exact Hc].
  - unfold load. rewrite Hl.
    destruct dry_run;
      match goal with |- context [run_finish env ?p _] =>
        destruct (Hfin p) as (ps' & -> & Ht & Hs & Hc) end;
      exists ps'; cbn [total_processed successful] in *;
      (split; [reflexivity|]; split; [now rewrite Ht|];
       split; [rewrite Hs, Ht; exact Hout | exact Hc]).
Qed.

Lemma run_processes_every_record_witness :
  exists ps',
    run sample_env
      {| XML_INPUT_FILE := "modified_sms_v2.xml";
         DATABASE_SCHEMA_FILE := "database_setup.sql";
         BATCH_SIZE := 1000; MAX_RETRIES := 3 |}
      {| document := WellFormed (Element "sms" [("amount", "500")] None []);
         schema_exists := true; imports_ok := true; load_error := None |}
      false initial_stats = (true, ps')
    /\ total_processed ps' = 1%nat /\ successful ps' = 1%nat.
Proof.
  destruct (run_processes_every_record sample_env
              {| XML_INPUT_FILE := "modified_sms_v2.xml";
                 DATABASE_SCHEMA_FILE := "database_setup.sql";
                 BATCH_SIZE := 1000; MAX_RETRIES := 3 |}
              {| document := WellFormed (Element "sms" [("amount", "500")] None []);
                 schema_exists := true; imports_ok := true; load_error := None |}
              false initial_stats (Element "sms" [("amount", "500")] None []))
    as (ps' & Hr & Ht & Hs & _);
    try reflexivity; try discriminate; [right; reflexivity|].
  exists ps'. rewrite Hs, Ht. auto.
Defined.

(** X19: [run] raises nothing and returns [False] when the document cannot
    be used.  With a valid configuration, a malformed document and a
    well-formed document without any record both end the run with two new
    entries in the error list, one from [extract] and one from [run], and
    leave the counters untouched; a missing document already fails the
    validation of the configuration, and the error list stays as it
    was. *)
Theorem run_rejects_unusable_document (env : Env) (cfg : ETLConfig) (w : world)
    (dry_run : bool) (ps : pipeline_stats) :
  (validate_pipeline cfg w = true ->
   document w = Malformed
   \/ (exists root, document w = WellFormed root
                    /\ dsa_find_sms_elements root = []) ->
   exists ps',
     run env cfg w dry_run ps = (false, ps')
     /\ errors (core ps')
        = (errors (core ps)
           ++ [("Extraction error: " ++ exn_str env ValueError)%string;
               ("Pipeline error: " ++ exn_str env ValueError)%string])%list
     /\ failed (core ps') = failed (core ps)
     /\ total_processed ps' = total_processed ps
     /\ successful ps' = successful ps)
  /\ (document w = Missing ->
      exists ps',
        run env cfg w dry_run ps = (false, ps') /\ core ps' = core ps).
Proof.
  split.
  - intros Hv Hdoc. unfold run. rewrite Hv. cbn [negb].
    assert (He : extract env (document w) = Raise ValueError).
    { destruct Hdoc as [-> | (root & -> & Hr)]; [reflexivity|].
      unfold extract, parse_sms_xml. cbn [et_parse bind]. now rewrite Hr. }
    unfold extract_logged. rewrite He. unfold run_failed.
    eexists. split; [reflexivity|].
    cbn [core log_error errors failed total_processed successful].
    rewrite <- app_assoc. repeat split.
  - intros Hdoc. unfold run, validate_pipeline, validate_config, config_errors,
      xml_exists. rewrite Hdoc. cbn [negb app].
    eexists. split; reflexivity.
Qed.

Lemma run_rejects_unusable_document_witness :
  exists ps',
    run sample_env
      {| XML_INPUT_FILE := "modified_sms_v2.xml";
         DATABASE_SCHEMA_FILE := "database_setup.sql";
         BATCH_SIZE := 1000; MAX_RETRIES := 3 |}
      {| document := Malformed;
         schema_exists := true; imports_ok := true; load_error := None |}
      true initial_stats = (false, ps')
    /\ List.length (errors (core ps')) = 2%nat.
Proof.
  destruct (run_rejects_unusable_document sample_env
              {| XML_INPUT_FILE := "modified_sms_v2.xml";
                 DATABASE_SCHEMA_FILE := "database_setup.sql";
                 BATCH_SIZE := 1000; MAX_RETRIES := 3 |}
              {| document := Malformed;
                 schema_exists := true; imports_ok := true; load_error := None |}
              true initial_stats) as [H _].
  destruct (H eq_refl (or_introl eq_refl)) as (ps' & Hr & He & _).
  exists ps'. split; [exact Hr|]. rewrite He. reflexivity.
Defined.
(** ** Linear search against the id map *)

Lemma float_eq_sym (a b : pyfloat) : float_eq a b = float_eq b a.
Proof.
  destruct a as [p|m|o], b as [q|n|o']; simpl; try reflexivity.
  - destruct (Qeq_bool p q) eqn:E, (Qeq_bool q p) eqn:E'; try reflexivity.
    + apply Qeq_bool_iff in E. apply Qeq_sym, Qeq_bool_iff in E. congruence.
    + apply Qeq_bool_iff in E'. apply Qeq_sym, Qeq_bool_iff in E'. congruence.
  - destruct m, n; reflexivity.
Qed.

Lemma float_eq_trans (a b c : pyfloat) :
  float_eq a b = true -> float_eq b c = true -> float_eq a c = true.
Proof.
  destruct a as [p|m|o], b as [q|n|o'], c as [r|k|o'']; simpl;
    try discriminate.
  - intros H1 H2. apply Qeq_bool_iff in H1, H2. apply Qeq_bool_iff.
    now rewrite H1.
  - destruct m, n, k; simpl; auto; discriminate.
Qed.

Lemma scalar_eq_sym (a b : pyval) : scalar_eq a b = scalar_eq b a.
Proof.
  destruct a, b; unfold scalar_eq; cbn [as_number]; try reflexivity;
    try apply float_eq_sym; try apply String.eqb_sym.
Qed.

Lemma scalar_eq_trans (a b c : pyval) :
  scalar_eq a b = true -> scalar_eq b c = true -> scalar_eq a c = true.
Proof.
  destruct a, b; unfold scalar_eq; cbn [as_number]; try discriminate;
    destruct c; cbn [as_number]; try discriminate; try (intros; reflexivity);
    try (apply float_eq_trans).
  intros H1 H2. apply String.eqb_eq in H1, H2. subst. apply String.eqb_refl.
Qed.

(** A NaN equals nothing. *)
Lemma scalar_eq_nan (a b : pyval) :
  is_nan a = true -> scalar_eq a b = false /\ scalar_eq b a = false.
Proof.
  destruct a as [| | |[q|n|o]| | |]; try discriminate. intros _.
  destruct b as [| | |[q'|n'|o']| | |]; split; reflexivity.
Qed.

Lemma same_nan_is_nan (a b : pyval) :
  same_nan a b = true -> is_nan a = true /\ is_nan b = true.
Proof.
  destruct a as [| | |[q|n|o]| | |]; try discriminate.
  destruct b as [| | |[q'|n'|o']| | |]; try discriminate. auto.
Qed.

Lemma same_nan_sym (a b : pyval) : same_nan a b = same_nan b a.
Proof.
  destruct a as [| | |[q|n|o]| | |], b as [| | |[q'|n'|o']| | |];
    try reflexivity.
  apply N.eqb_sym.
Qed.

Lemma same_nan_trans (a b c : pyval) :
  same_nan a b = true -> same_nan b c = true -> same_nan a c = true.
Proof.
  destruct a as [| | |[q|n|o]| | |]; try discriminate.
  destruct b as [| | |[q'|n'|o']| | |]; try discriminate.
  destruct c as [| | |[q''|n''|o'']| | |]; try discriminate.
  simpl. intros H1 H2. apply N.eqb_eq in H1, H2. subst. apply N.eqb_refl.
Qed.

Lemma key_eqb_sym (a b : pyval) : key_eqb a b = key_eqb b a.
Proof. unfold key_eqb. now rewrite same_nan_sym, scalar_eq_sym. Qed.

Lemma key_eqb_trans (a b c : pyval) :
  key_eqb a b = true -> key_eqb b c = true -> key_eqb a c = true.
Proof.
  unfold key_eqb. intros H1 H2.
  apply orb_true_iff in H1, H2. apply orb_true_iff.
  destruct H1 as [H1|H1], H2 as [H2|H2].
  - left. eapply same_nan_trans; eassumption.
  - apply same_nan_is_nan in H1. destruct H1 as [_ Hb].
    destruct (scalar_eq_nan b c Hb) as [E _]. congruence.
  - apply same_nan_is_nan in H2. destruct H2 as [Hb _].
    destruct (scalar_eq_nan b a Hb) as [_ E]. congruence.
  - right. eapply scalar_eq_trans; eassumption.
Qed.

Lemma key_eqb_same_class (k tid k' : pyval) :
  key_eqb k tid = true -> key_eqb k' tid = key_eqb k' k.
Proof.
  intros H.
  destruct (key_eqb k' tid) eqn:E1, (key_eqb k' k) eqn:E2; try reflexivity.
  - rewrite key_eqb_sym in H.
    rewrite (key_eqb_trans _ _ _ E1 H) in E2. discriminate.
  - rewrite (key_eqb_trans _ _ _ E2 H) in E1. discriminate.
Qed.

Lemma id_map_lookup_set (tid k : pyval) (v : dict) (m : id_map) :
  id_map_lookup tid (id_map_set k v m)
  = if key_eqb k tid then Some v else id_map_lookup tid m.
Proof.
  destruct (key_eqb k tid) eqn:Ek.
  - induction m as [|[k' v'] m IH]; simpl; [now rewrite Ek|].
    rewrite <- (key_eqb_same_class k tid k' Ek).
    destruct (key_eqb k' tid) eqn:E; simpl; rewrite E; [reflexivity | exact IH].
  - induction m as [|[k' v'] m IH]; simpl; [now rewrite Ek|].
    destruct (key_eqb k' k) eqn:E; simpl.
    + assert (Ht : key_eqb k' tid = false).
      { destruct (key_eqb k' tid) eqn:E'; [|reflexivity].
        rewrite key_eqb_sym in E.
        rewrite (key_eqb_trans _ _ _ E E') in Ek. discriminate. }
      now rewrite Ht.
    + destruct (key_eqb k' tid); [reflexivity | exact IH].
Qed.

(** Away from NaN, a key is found by equality. *)
Lemma py_eq_hashable (a b : pyval) :
  hashable a = true -> hashable b = true -> is_nan b = false ->
  py_eq a b = key_eqb a b.
Proof.
  intros Ha Hb Hn. unfold py_eq, key_eqb. rewrite Hn, orb_false_r.
  destruct (is_nan a) eqn:Ea.
  - destruct (scalar_eq_nan a b Ea) as [-> _].
    destruct (same_nan a b) eqn:E; [|reflexivity].
    apply same_nan_is_nan in E. destruct E; congruence.
  - destruct a, b; simpl in *; try discriminate; reflexivity.
Qed.

(** A NaN is found by identity only. *)
Lemma key_eqb_nan (a b : pyval) :
  is_nan b = true -> key_eqb a b = same_nan a b.
Proof.
  intros Hb. unfold key_eqb.
  destruct (scalar_eq_nan b a Hb) as [_ ->]. apply orb_false_r.
Qed.

Lemma find_app (a b : list dict) (tid : pyval) :
  find_transaction_by_id (a ++ b) tid
  = match find_transaction_by_id a tid with
    | Ok None => find_transaction_by_id b tid
    | other => other
    end.
Proof.
  induction a as [|t a IH]; simpl; [reflexivity|].
  destruct (item "Id" t) as [id|e]; simpl; [|reflexivity].
  destruct (py_eq id tid); [reflexivity | exact IH].
Qed.

Lemma create_id_map_from_lookup (ts : list dict) (tid : pyval) :
  hashable tid = true -> is_nan tid = false ->
  forall m0 m,
    create_id_map_from m0 ts = Ok m ->
    Ok (id_map_lookup tid m)
    = match find_transaction_by_id (rev ts) tid with
      | Ok None => Ok (id_map_lookup tid m0)
      | other => other
      end.
Proof.
  intros Ht Hn. induction ts as [|t ts IH]; intros m0 m; simpl.
  - intros H; inversion H; reflexivity.
  - destruct (item "Id" t) as [id|e] eqn:Ei; simpl; [|discriminate].
    destruct (hashable id) eqn:Hh; [|discriminate].
    intros H. rewrite (IH _ _ H), find_app. simpl. rewrite Ei. simpl.
    rewrite (py_eq_hashable id tid Hh Ht Hn), id_map_lookup_set.
    destruct (find_transaction_by_id (rev ts) tid) as [[f|]|e]; try reflexivity.
    destruct (key_eqb id tid); reflexivity.
Qed.

Lemma find_none_forall (ts : list dict) (tid : pyval) :
  find_transaction_by_id ts tid = Ok None
  <-> Forall (fun t => exists id, item "Id" t = Ok id /\ py_eq id tid = false) ts.
Proof.
  induction ts as [|t ts IH]; simpl.
  - split; [constructor | reflexivity].
  - destruct (item "Id" t) as [id|e] eqn:Ei; simpl.
    + destruct (py_eq id tid) eqn:E.
      * split; [discriminate|]. intros H.
        inversion H as [|? ? (i & Hi & Hf)]; subst.
        rewrite Ei in Hi. inversion Hi; subst. congruence.
      * rewrite IH. split.
        -- intros H. constructor; [eauto | exact H].
        -- intros H. now inversion H.
    + split; [discriminate|]. intros H.
      inversion H as [|? ? (i & Hi & _)]; subst.
      rewrite Ei in Hi. discriminate Hi.
Qed.

Lemma list_find_app {A} (f : A -> bool) (a b : list A) :
  find f (a ++ b)
  = match find f a with Some x => Some x | None => find f b end.
Proof.
  induction a as [|x a IH]; simpl; [reflexivity|].
  destruct (f x); [reflexivity | exact IH].
Qed.

(** The map holds, for a NaN, the last record whose id is that very
    object. *)
Lemma create_id_map_from_nan (ts : list dict) (tid : pyval) :
  is_nan tid = true ->
  forall m0 m,
    create_id_map_from m0 ts = Ok m ->
    id_map_lookup tid m
    = match find (fun t => same_nan (dict_get_or "Id" PNone t) tid) (rev ts) with
      | Some t => Some t
      | None => id_map_lookup tid m0
      end.
Proof.
  intros Hn. induction ts as [|t ts IH]; intros m0 m; simpl.
  - intros H; inversion H; reflexivity.
  - unfold item.
    destruct (dict_get "Id" t) as [id|] eqn:Ei; cbn [bind]; [|discriminate].
    destruct (hashable id) eqn:Hh; [|discriminate].
    intros H. rewrite (IH _ _ H), list_find_app. cbn [find].
    replace (dict_get_or "Id" PNone t) with id
      by (unfold dict_get_or; now rewrite Ei).
    rewrite id_map_lookup_set, (key_eqb_nan id tid Hn).
    destruct (find _ (rev ts)); [reflexivity|].
    destruct (same_nan id tid); reflexivity.
Qed.

Lemma create_id_map_from_items (ts : list dict) :
  forall m0 m,
    create_id_map_from m0 ts = Ok m ->
    Forall (fun t => exists id, item "Id" t = Ok id) ts.
Proof.
  induction ts as [|t ts IH]; intros m0 m; simpl; [constructor|].
  destruct (item "Id" t) as [id|e] eqn:Ei; simpl; [|discriminate].
  destruct (hashable id); [|discriminate].
  intros H. constructor; [eauto | eapply IH; eassumption].
Qed.

(** X20: once [create_id_map] has built the map, looking up an id that
    is not a NaN gives what [find_transaction_by_id] gives on the list
    read backwards: the last record with that id, where the linear search
    returns the first; the two methods agree on whether a record with the
    id exists.  For a NaN they differ: the linear search, which compares
    with [==], finds nothing, and the map finds the last record whose id
    is that same float object. *)
Theorem id_map_lookup_is_last_match (ts : list dict) (m : id_map) (tid : pyval) :
  create_id_map ts = Ok m ->
  hashable tid = true ->
  (is_nan tid = false ->
   id_map_get tid m = find_transaction_by_id (rev ts) tid
   /\ (id_map_get tid m = Ok None <-> find_transaction_by_id ts tid = Ok None))
  /\ (is_nan tid = true ->
      find_transaction_by_id ts tid = Ok None
      /\ id_map_get tid m
         = Ok (find (fun t => same_nan (dict_get_or "Id" PNone t) tid)
                    (rev ts))).
Proof.
  intros Hc Ht. unfold id_map_get. rewrite Ht. split; intros Hn.
  - pose proof (create_id_map_from_lookup ts tid Ht Hn [] m Hc) as H.
    assert (E : Ok (id_map_lookup tid m) = find_transaction_by_id (rev ts) tid).
    { rewrite H. destruct (find_transaction_by_id (rev ts) tid) as [[f|]|e];
        reflexivity. }
    split; [exact E|]. rewrite E, !find_none_forall.
    split; intros HF; [rewrite <- (rev_involutive ts)|]; now apply Forall_rev.
  - split.
    + apply find_none_forall.
      eapply Forall_impl; [|exact (create_id_map_from_items ts [] m Hc)].
      intros t (id & Hi). exists id. split; [exact Hi|].
      unfold py_eq. rewrite Hn, orb_true_r. reflexivity.
    + rewrite (create_id_map_from_nan ts tid Hn [] m Hc).
      destruct (find _ (rev ts)); reflexivity.
Qed.

Lemma id_map_lookup_is_last_match_witness :
  (exists m,
     create_id_map [[("Id", PStr "TXN_1"); ("amount", PStr "10")];
                    [("Id", PStr "TXN_1"); ("amount", PStr "20")]] = Ok m
     /\ id_map_get (PStr "TXN_1") m
        = Ok (Some [("Id", PStr "TXN_1"); ("amount", PStr "20")])
     /\ find_transaction_by_id
          [[("Id", PStr "TXN_1"); ("amount", PStr "10")];
           [("Id", PStr "TXN_1"); ("amount", PStr "20")]] (PStr "TXN_1")
        = Ok (Some [("Id", PStr "TXN_1"); ("amount", PStr "10")]))
  /\ (exists m,
        create_id_map [[("Id", PFloat (FNaN 7))]] = Ok m
        /\ id_map_get (PFloat (FNaN 7)) m = Ok (Some [("Id", PFloat (FNaN 7))])
        /\ find_transaction_by_id [[("Id", PFloat (FNaN 7))]] (PFloat (FNaN 7))
           = Ok None).
Proof.
  split.
  - eexists. split; [reflexivity|]. split; [|reflexivity].
    destruct (id_map_lookup_is_last_match
                [[("Id", PStr "TXN_1"); ("amount", PStr "10")];
                 [("Id", PStr "TXN_1"); ("amount", PStr "20")]]
                _ (PStr "TXN_1") eq_refl eq_refl) as [H _].
    exact (proj1 (H eq_refl)).
  - eexists. split; [reflexivity|].
    destruct (id_map_lookup_is_last_match
                [[("Id", PFloat (FNaN 7))]] _ (PFloat (FNaN 7))
                eq_refl eq_refl) as [_ H].
    destruct (H eq_refl) as [Hf Hg]. split; [exact Hg | exact Hf].
Defined.

(** ** The in-memory store *)

Import InMemoryStore.

Lemma assoc_map_set_same (k : string) (a : nat) (m : list (string * nat)) :
  assoc k (map_set k a m) = Some a.
Proof.
  induction m as [|[k' a'] m IH]; simpl; [now rewrite String.eqb_refl|].
  destruct (k' =? k) eqn:E; simpl; rewrite E; [reflexivity | exact IH].
Qed.

Lemma assoc_map_set_other (k k' : string) (a : nat) (m : list (string * nat)) :
  (k' =? k) = false -> assoc k (map_set k' a m) = assoc k m.
Proof.
  intros Hne. induction m as [|[k0 a0] m IH]; simpl; [now rewrite Hne|].
  destruct (k0 =? k') eqn:E; simpl.
  - apply String.eqb_eq in E. subst k0. now rewrite Hne.
  - destruct (k0 =? k); [reflexivity | exact IH].
Qed.

Lemma map_set_keys (k : string) (a : nat) (m : list (string * nat)) :
  map fst (map_set k a m)
  = (map fst m ++ (if existsb (String.eqb k) (map fst m) then [] else [k]))%list.
Proof.
  induction m as [|[k' a'] m IH]; simpl; [reflexivity|].
  rewrite (String.eqb_sym k k'). destruct (k' =? k); simpl.
  - now rewrite app_nil_r.
  - now rewrite IH.
Qed.

Lemma map_set_nodup (k : string) (a : nat) (m : list (string * nat)) :
  NoDup (map fst m) -> NoDup (map fst (map_set k a m)).
Proof.
  intros H. rewrite map_set_keys.
  destruct (existsb (String.eqb k) (map fst m)) eqn:E;
    [now rewrite app_nil_r|].
  apply NoDup_app; [exact H | repeat constructor; auto |].
  intros x Hx Hk. destruct Hk as [Hk|[]]. subst x.
  assert (existsb (String.eqb k) (map fst m) = true); [|congruence].
  apply existsb_exists. exists k. split; [exact Hx | apply String.eqb_refl].
Qed.

Lemma map_set_addresses (P : nat -> Prop) (k : string) (a : nat)
    (m : list (string * nat)) :
  P a -> Forall (fun ka => P (snd ka)) m ->
  Forall (fun ka => P (snd ka)) (map_set k a m).
Proof.
  intros Ha. induction 1 as [|[k' a'] m H Hm IH]; simpl.
  - repeat constructor. exact Ha.
  - destruct (k' =? k); constructor; auto.
Qed.

Lemma assoc_not_in (k : string) (m : list (string * nat)) :
  ~ In k (map fst m) -> assoc k m = None.
Proof.
  induction m as [|[k' a'] m IH]; simpl; [reflexivity|].
  intros H. destruct (k' =? k) eqn:E.
  - apply String.eqb_eq in E. subst. tauto.
  - apply IH. tauto.
Qed.

Lemma assoc_map_pop_same (k : string) (m : list (string * nat)) :
  NoDup (map fst m) -> assoc k (map_pop k m) = None.
Proof.
  induction m as [|[k' a'] m IH]; simpl; [reflexivity|].
  intros H. inversion H as [|? ? Hn Hd]; subst.
  destruct (k' =? k) eqn:E.
  - apply String.eqb_eq in E. subst. now apply assoc_not_in.
  - simpl. rewrite E. now apply IH.
Qed.

Lemma assoc_map_pop_other (k k' : string) (m : list (string * nat)) :
  (k' =? k) = false -> assoc k (map_pop k' m) = assoc k m.
Proof.
  intros Hne. induction m as [|[k0 a0] m IH]; simpl; [reflexivity|].
  destruct (k0 =? k') eqn:E.
  - apply String.eqb_eq in E. subst k0. now rewrite Hne.
  - simpl. destruct (k0 =? k); [reflexivity | exact IH].
Qed.

Lemma map_pop_incl (k : string) (m : list (string * nat)) :
  incl (map_pop k m) m.
Proof.
  induction m as [|[k' a'] m IH]; simpl; [apply incl_refl|].
  destruct (k' =? k); [apply incl_tl, incl_refl|].
  apply incl_cons; [left; reflexivity | apply incl_tl, IH].
Qed.

Lemma map_pop_nodup (k : string) (m : list (string * nat)) :
  NoDup (map fst m) -> NoDup (map fst (map_pop k m)).
Proof.
  induction m as [|[k' a'] m IH]; simpl; [auto|].
  intros H. inversion H as [|? ? Hn Hd]; subst.
  destruct (k' =? k); [exact Hd|]. simpl. constructor; [|now apply IH].
  intros Hin. apply Hn. apply in_map_iff in Hin.
  destruct Hin as ([k0 a0] & <- & Hin). apply in_map_iff.
  exists (k0, a0). split; [reflexivity | now apply (map_pop_incl k m)].
Qed.

Lemma store_at_length (a : nat) (v : dict) (l : list dict) :
  List.length (store_at a v l) = List.length l.
Proof.
  revert a; induction l as [|x l IH]; intros [|a]; simpl; auto.
Qed.

Lemma store_at_same (a : nat) (v : dict) (l : list dict) :
  (a < List.length l)%nat -> nth a (store_at a v l) [] = v.
Proof.
  revert a; induction l as [|x l IH]; intros [|a]; simpl; try lia; auto.
  intros H. apply IH. lia.
Qed.

Lemma store_at_other (a b : nat) (v : dict) (l : list dict) :
  a <> b -> nth b (store_at a v l) [] = nth b l [].
Proof.
  revert a b; induction l as [|x l IH]; intros [|a] [|b] H; simpl; auto;
    try congruence.
Qed.

Lemma apply_payload_set_all (payload existing : dict) :
  apply_payload payload existing
  = set_all (filter (fun kv => negb (fst kv =? "Id")) payload) existing.
Proof.
  unfold apply_payload. revert existing.
  induction payload as [|[k v] p IH]; intros e; simpl; [reflexivity|].
  destruct (k =? "Id"); simpl; apply IH.
Qed.

Lemma apply_payload_id (payload existing : dict) :
  dict_get "Id" (apply_payload payload existing) = dict_get "Id" existing.
Proof.
  rewrite apply_payload_set_all. apply set_all_get_other.
  apply Forall_forall. intros [k v] H. apply filter_In in H.
  destruct H as [_ H]. simpl in *. now apply negb_true_iff in H.
Qed.

Lemma filter_rev_get (k : string) (payload : dict) :
  (k =? "Id") = false ->
  dict_get k (rev (filter (fun kv => negb (fst kv =? "Id")) payload))
  = dict_get k (rev payload).
Proof.
  intros Hk. induction payload as [|[k' v'] p IH]; simpl; [reflexivity|].
  destruct (k' =? "Id") eqn:E; simpl.
  - rewrite dict_get_app, IH. simpl.
    apply String.eqb_eq in E. subst k'.
    rewrite String.eqb_sym, Hk.
    destruct (dict_get k (rev p)); reflexivity.
  - rewrite !dict_get_app, IH. reflexivity.
Qed.

Lemma apply_payload_other (k : string) (payload existing : dict) :
  (k =? "Id") = false ->
  dict_get k (apply_payload payload existing)
  = match dict_get k (rev payload) with
    | Some v => Some v
    | None => dict_get k existing
    end.
Proof.
  intros Hk. rewrite apply_payload_set_all, dict_get_set_all.
  now rewrite filter_rev_get.
Qed.

Lemma deref_appended (s : state) (x : dict) (tr : list nat)
    (m : list (string * nat)) (n : nat) (a : nat) :
  (a < List.length (objects s))%nat ->
  deref {| objects := (objects s ++ [x])%list; transactions := tr;
           id_map := m; next_numeric_suffix := n |} a = deref s a.
Proof. intros H. unfold deref. simpl. now apply app_nth1. Qed.

Lemma deref_new (s : state) (x : dict) (tr : list nat)
    (m : list (string * nat)) (n : nat) :
  deref {| objects := (objects s ++ [x])%list; transactions := tr;
           id_map := m; next_numeric_suffix := n |}
        (List.length (objects s)) = x.
Proof. unfold deref. simpl. apply nth_middle. Qed.

Lemma assoc_address (s : state) (k : string) (a : nat) :
  well_formed s -> assoc k (id_map s) = Some a ->
  (a < List.length (objects s))%nat.
Proof.
  intros (_ & Hm & _) H. revert H.
  induction Hm as [|[k' a'] m Hka _ IH]; simpl; [discriminate|].
  destruct (k' =? k); [intros E; inversion E; subst; exact Hka | exact IH].
Qed.

(** What [create] does once the id is settled. *)
Lemma create_with_id (s s1 : state) (payload : dict) (txn_id : string) :
  well_formed s ->
  objects s1 = objects s -> transactions s1 = transactions s ->
  id_map s1 = id_map s ->
  let txn := dict_set "Id" (PStr txn_id) payload in
  let s' := {| objects := (objects s1 ++ [txn])%list;
               transactions := (transactions s1 ++ [List.length (objects s1)])%list;
               id_map := map_set txn_id (List.length (objects s1)) (id_map s1);
               next_numeric_suffix := next_numeric_suffix s1 |} in
  get s' txn_id = Some txn
  /\ list_all s' = (list_all s ++ [txn])%list
  /\ (forall other, (txn_id =? other) = false -> get s' other = get s other)
  /\ well_formed s'.
Proof.
  intros Hwf Ho Ht Hm txn s'. pose proof Hwf as (Htr & Hmp & Hnd).
  assert (Hold : forall a, (a < List.length (objects s))%nat ->
                           deref s' a = deref s a).
  { intros a Ha. unfold deref, s'. cbn [objects]. rewrite Ho.
    now apply app_nth1. }
  assert (Hnew : deref s' (List.length (objects s1)) = txn).
  { unfold deref, s'. cbn [objects]. apply nth_middle. }
  split; [|split; [|split]].
  - unfold get. cbn [id_map s']. rewrite assoc_map_set_same. simpl.
    now rewrite Hnew.
  - unfold list_all. cbn [transactions s']. rewrite map_app, Ht. simpl.
    rewrite Hnew. f_equal.
    apply map_ext_in. intros a Ha. apply Hold.
    rewrite Forall_forall in Htr. now apply Htr.
  - intros other Hne. unfold get. cbn [id_map s'].
    rewrite assoc_map_set_other by exact Hne. rewrite Hm.
    destruct (assoc other (id_map s)) as [b|] eqn:E; [|reflexivity].
    simpl. f_equal. apply Hold. eapply assoc_address; eassumption.
  - unfold well_formed, s'. cbn [objects transactions id_map].
    rewrite length_app, Ho, Ht, Hm. simpl. split; [|split].
    + apply Forall_app. split.
      * eapply Forall_impl; [|exact Htr]. simpl. intros; lia.
      * repeat constructor. lia.
    + apply (map_set_addresses
               (fun a => (a < List.length (objects s) + 1)%nat)); [lia|].
      eapply Forall_impl; [|exact Hmp]. simpl. intros; lia.
    + now apply map_set_nodup.
Qed.

Lemma create_unfold (env : Env) (s : state) (payload : dict) :
  exists txn_id s1,
    objects s1 = objects s /\ transactions s1 = transactions s
    /\ id_map s1 = id_map s
    /\ nonempty txn_id = true
    /\ (nonempty (strip (py_str env (py_or (get_none "Id" payload)
                                          (PStr EmptyString)))) = true ->
        assoc (strip (py_str env (py_or (get_none "Id" payload)
                                        (PStr EmptyString)))) (id_map s) = None ->
        txn_id = strip (py_str env (py_or (get_none "Id" payload)
                                          (PStr EmptyString))))
    /\ create env s payload
       = (dict_set "Id" (PStr txn_id) payload,
          {| objects := (objects s1 ++ [dict_set "Id" (PStr txn_id) payload])%list;
             transactions := (transactions s1 ++ [List.length (objects s1)])%list;
             id_map := map_set txn_id (List.length (objects s1)) (id_map s1);
             next_numeric_suffix := next_numeric_suffix s1 |}).
Proof.
  unfold create, _generate_id.
  set (wanted := strip (py_str env (py_or (get_none "Id" payload)
                                          (PStr EmptyString)))).
  destruct (nonempty wanted) eqn:Hw; cbn [negb orb].
  - destruct (assoc wanted (id_map s)) as [a|] eqn:Ha.
    + eexists _, _. split; [|split; [|split; [|split; [|split]]]];
        [| | | | |reflexivity]; try reflexivity.
      intros _ H; discriminate H.
    + exists wanted, s. repeat split; auto.
  - eexists _, _. split; [|split; [|split; [|split; [|split]]]];
      [| | | | |reflexivity]; try reflexivity.
    intros H; discriminate H.
Qed.

(** X21: [create] on a well-formed store returns the payload with a
    non-empty [Id] written into it and nothing else changed; that id is the
    payload's own, stripped, when it is not empty and not yet in the map;
    [get] with the id returns the record just created, the record is the
    last of [list], every other id leads where it led before, and the
    store stays well-formed. *)
Theorem store_create_round_trip (env : Env) (s : InMemoryStore.state)
    (payload : dict) :
  InMemoryStore.well_formed s ->
  exists txn_id,
    dict_get "Id" (fst (InMemoryStore.create env s payload)) = Some (PStr txn_id)
    /\ nonempty txn_id = true
    /\ (forall k, (k =? "Id") = false ->
          dict_get k (fst (InMemoryStore.create env s payload))
          = dict_get k payload)
    /\ (nonempty (strip (py_str env (py_or (get_none "Id" payload)
                                          (PStr EmptyString)))) = true ->
        InMemoryStore.get s (strip (py_str env (py_or (get_none "Id" payload)
                                                     (PStr EmptyString)))) = None ->
        txn_id = strip (py_str env (py_or (get_none "Id" payload)
                                          (PStr EmptyString))))
    /\ InMemoryStore.get (snd (InMemoryStore.create env s payload)) txn_id
       = Some (fst (InMemoryStore.create env s payload))
    /\ InMemoryStore.list_all (snd (InMemoryStore.create env s payload))
       = (InMemoryStore.list_all s
          ++ [fst (InMemoryStore.create env s payload)])%list
    /\ (forall other, (txn_id =? other) = false ->
          InMemoryStore.get (snd (InMemoryStore.create env s payload)) other
          = InMemoryStore.get s other)
    /\ InMemoryStore.well_formed (snd (InMemoryStore.create env s payload)).
Proof.
  intros Hwf.
  destruct (create_unfold env s payload)
    as (txn_id & s1 & Ho & Ht & Hm & Hn & Hw & ->).
  destruct (create_with_id s s1 payload txn_id Hwf Ho Ht Hm)
    as (Hg & Hl & Hother & Hwf').
  exists txn_id. cbn [fst snd].
  split; [apply dict_get_set_same|]. split; [exact Hn|].
  split; [intros k Hk; apply dict_get_set_other; now rewrite String.eqb_sym|].
  split.
  { intros H1 H2. apply Hw; [exact H1|]. unfold get in H2.
    destruct (assoc _ (id_map s)); [discriminate H2 | reflexivity]. }
  auto.
Qed.

Lemma store_create_round_trip_witness :
  exists txn_id,
    dict_get "Id" (fst (InMemoryStore.create sample_env InMemoryStore.init
                          [("amount", PInt 100)])) = Some (PStr txn_id)
    /\ InMemoryStore.get
         (snd (InMemoryStore.create sample_env InMemoryStore.init
                 [("amount", PInt 100)])) txn_id
       = Some (fst (InMemoryStore.create sample_env InMemoryStore.init
                      [("amount", PInt 100)])).
Proof.
  destruct (store_create_round_trip sample_env InMemoryStore.init
              [("amount", PInt 100)])
    as (txn_id & Hid & _ & _ & _ & Hg & _).
  - repeat split; constructor.
  - exists txn_id. auto.
Defined.

Lemma filter_map_commute {A B} (f : B -> bool) (g : A -> B) (l : list A) :
  filter f (map g l) = map g (filter (fun a => f (g a)) l).
Proof.
  induction l as [|a l IH]; simpl; [reflexivity|].
  destruct (f (g a)); simpl; now rewrite IH.
Qed.

(** X22: [delete] with an id that the map does not hold returns [False]
    and changes nothing.  When it returns [True], [get] with that id finds
    nothing afterwards, [list] is the former list without the records
    whose [Id] equals the id, every other id leads where it led before,
    and the store stays well-formed. *)
Theorem store_delete_removes (s : InMemoryStore.state) (txn_id : string) :
  InMemoryStore.well_formed s ->
  (InMemoryStore.get s txn_id = None ->
   InMemoryStore.delete s txn_id = (false, s))
  /\ (forall s',
        InMemoryStore.delete s txn_id = (true, s') ->
        InMemoryStore.get s' txn_id = None
        /\ InMemoryStore.list_all s'
           = filter (fun t => negb (py_eq_str (dict_get "Id" t) txn_id))
                    (InMemoryStore.list_all s)
        /\ (forall other, (txn_id =? other) = false ->
              InMemoryStore.get s' other = InMemoryStore.get s other)
        /\ InMemoryStore.well_formed s').
Proof.
  intros Hwf. pose proof Hwf as (Htr & Hmp & Hnd). split.
  - unfold get, delete. destruct (assoc txn_id (id_map s)); [discriminate|].
    reflexivity.
  - intros s'. unfold delete.
    destruct (assoc txn_id (id_map s)) as [a|] eqn:Ea; [|discriminate].
    destruct (negb (truthy (PDict (deref s a)))); [discriminate|].
    intros H; inversion H; subst s'; clear H.
    split; [|split; [|split]].
    + unfold get. cbn [id_map]. now rewrite assoc_map_pop_same.
    + unfold list_all. cbn [transactions]. rewrite filter_map_commute.
      reflexivity.
    + intros other Hne. unfold get. cbn [id_map].
      now rewrite assoc_map_pop_other.
    + unfold well_formed. cbn [objects transactions id_map].
      split; [|split].
      * apply Forall_forall. intros x Hx. apply filter_In in Hx.
        rewrite Forall_forall in Htr. now apply Htr.
      * apply Forall_forall. intros x Hx.
        rewrite Forall_forall in Hmp. apply Hmp.
        now apply (map_pop_incl txn_id).
      * now apply map_pop_nodup.
Qed.

Lemma store_delete_removes_witness :
  InMemoryStore.get
    (snd (InMemoryStore.delete
            (snd (InMemoryStore.create sample_env InMemoryStore.init
                    [("Id", PStr "A1"); ("amount", PInt 100)])) "A1")) "A1"
  = None
  /\ InMemoryStore.list_all
       (snd (InMemoryStore.delete
               (snd (InMemoryStore.create sample_env InMemoryStore.init
                       [("Id", PStr "A1"); ("amount", PInt 100)])) "A1"))
     = [].
Proof.
  destruct (store_delete_removes
              (snd (InMemoryStore.create sample_env InMemoryStore.init
                      [("Id", PStr "A1"); ("amount", PInt 100)])) "A1")
    as [_ H].
  - vm_compute. repeat split; repeat constructor; simpl; intuition lia.
  - destruct (H _ eq_refl) as (Hg & Hl & _). split; [exact Hg|].
    exact (eq_trans Hl eq_refl).
Defined.

(** X23: [update] with an id that the map does not hold returns [None]
    and changes nothing.  Otherwise it returns the stored record with the
    payload written over it, except that [Id] stays as it was; [get]
    returns the updated record, and so does [list] at every place where it
    held the old one, because both hold the same object. *)
Theorem store_update_in_place (s : InMemoryStore.state) (txn_id : string)
    (payload : dict) :
  InMemoryStore.well_formed s ->
  (InMemoryStore.get s txn_id = None ->
   InMemoryStore.update s txn_id payload = (None, s))
  /\ (forall u s',
        InMemoryStore.update s txn_id payload = (Some u, s') ->
        exists old address,
          InMemoryStore.get s txn_id = Some old
          /\ assoc txn_id (InMemoryStore.id_map s) = Some address
          /\ dict_get "Id" u = dict_get "Id" old
          /\ (forall k, (k =? "Id") = false ->
                dict_get k u
                = match dict_get k (rev payload) with
                  | Some v => Some v
                  | None => dict_get k old
                  end)
          /\ InMemoryStore.get s' txn_id = Some u
          /\ (forall i, nth_error (InMemoryStore.transactions s) i = Some address ->
                nth_error (InMemoryStore.list_all s') i = Some u)
          /\ List.length (InMemoryStore.list_all s')
             = List.length (InMemoryStore.list_all s)
          /\ InMemoryStore.well_formed s').
Proof.
  intros Hwf. pose proof Hwf as (Htr & Hmp & Hnd). split.
  - unfold get, update. destruct (assoc txn_id (id_map s)); [discriminate|].
    reflexivity.
  - intros u s'. unfold update.
    destruct (assoc txn_id (id_map s)) as [a|] eqn:Ea; [|discriminate].
    destruct (negb (truthy (PDict (deref s a)))); [discriminate|].
    intros H; inversion H; subst u s'; clear H.
    pose proof (assoc_address s txn_id a Hwf Ea) as Ha.
    exists (deref s a), a.
    split; [unfold get; now rewrite Ea|]. split; [reflexivity|].
    split; [apply apply_payload_id|].
    split; [intros k Hk; now apply apply_payload_other|].
    assert (Hnew : forall tr m n,
               deref {| objects := store_at a (apply_payload payload (deref s a))
                                     (objects s);
                        transactions := tr; id_map := m;
                        next_numeric_suffix := n |} a
               = apply_payload payload (deref s a)).
    { intros. unfold deref at 1. cbn [objects]. now apply store_at_same. }
    split; [unfold get; cbn [id_map]; rewrite Ea; simpl; now rewrite Hnew|].
    split.
    { intros i Hi. unfold list_all. cbn [transactions].
      rewrite nth_error_map, Hi. simpl. now rewrite Hnew. }
    split; [unfold list_all; cbn [transactions]; now rewrite !length_map|].
    unfold well_formed. cbn [objects transactions id_map].
    rewrite store_at_length. auto.
Qed.

Lemma store_update_in_place_witness :
  InMemoryStore.get
    (snd (InMemoryStore.update
            (snd (InMemoryStore.create sample_env InMemoryStore.init
                    [("Id", PStr "A1"); ("amount", PInt 100)]))
            "A1" [("Id", PStr "B2"); ("amount", PInt 5)])) "A1"
  = Some [("Id", PStr "A1"); ("amount", PInt 5)]
  /\ nth_error
       (InMemoryStore.list_all
          (snd (InMemoryStore.update
                  (snd (InMemoryStore.create sample_env InMemoryStore.init
                          [("Id", PStr "A1"); ("amount", PInt 100)]))
                  "A1" [("Id", PStr "B2"); ("amount", PInt 5)]))) 0
     = Some [("Id", PStr "A1"); ("amount", PInt 5)].
Proof.
  destruct (store_update_in_place
              (snd (InMemoryStore.create sample_env InMemoryStore.init
                      [("Id", PStr "A1"); ("amount", PInt 100)]))
              "A1" [("Id", PStr "B2"); ("amount", PInt 5)])
    as [_ H].
  - vm_compute. repeat split; repeat constructor; simpl; intuition lia.
  - destruct (H [("Id", PStr "A1"); ("amount", PInt 5)]
                (snd (InMemoryStore.update
                        (snd (InMemoryStore.create sample_env InMemoryStore.init
                                [("Id", PStr "A1"); ("amount", PInt 100)]))
                        "A1" [("Id", PStr "B2"); ("amount", PInt 5)]))
                eq_refl)
      as (old & address & _ & Ha & _ & _ & Hg & Hn & _).
    split; [exact Hg|]. apply Hn.
    vm_compute in Ha. inversion Ha. reflexivity.
Defined.

(** X24: the fresh store is well-formed and every key of its map is the
    [Id] of the record it leads to; [create], [update] and [delete] keep
    that: after any of them, [get] with an id returns a record whose [Id]
    is that id. *)
Theorem store_keys_are_ids (env : Env) (s : InMemoryStore.state)
    (txn_id : string) (payload : dict) :
  (InMemoryStore.well_formed InMemoryStore.init
   /\ InMemoryStore.keyed_by_id InMemoryStore.init)
  /\ (InMemoryStore.well_formed s -> InMemoryStore.keyed_by_id s ->
      InMemoryStore.keyed_by_id (snd (InMemoryStore.create env s payload))
      /\ InMemoryStore.keyed_by_id (snd (InMemoryStore.update s txn_id payload))
      /\ InMemoryStore.keyed_by_id (snd (InMemoryStore.delete s txn_id))).
Proof.
  split.
  { split; [repeat split; constructor|]. intros k a H. discriminate H. }
  intros Hwf Hk. pose proof Hwf as (Htr & Hmp & Hnd).
  split; [|split].
  - destruct (create_unfold env s payload)
      as (id & s1 & Ho & Ht & Hm & Hn & _ & ->).
    cbn [snd]. intros k b. cbn [id_map]. unfold deref. cbn [objects].
    destruct (id =? k) eqn:E.
    + apply String.eqb_eq in E. subst k. rewrite assoc_map_set_same.
      intros H; inversion H; subst b. rewrite nth_middle.
      apply dict_get_set_same.
    + rewrite assoc_map_set_other by exact E. rewrite Hm, Ho. intros H.
      rewrite app_nth1 by (eapply assoc_address; eassumption).
      now apply Hk.
  - unfold update.
    destruct (assoc txn_id (id_map s)) as [a|] eqn:Ea; [|exact Hk].
    destruct (negb (truthy (PDict (deref s a)))); [exact Hk|].
    cbn [snd]. intros k b. cbn [id_map]. unfold deref at 1. cbn [objects].
    intros H. destruct (Nat.eq_dec a b) as [<-|Hne].
    + rewrite store_at_same by (eapply assoc_address; eassumption).
      rewrite apply_payload_id. now apply Hk.
    + rewrite store_at_other by exact Hne. now apply Hk.
  - unfold delete.
    destruct (assoc txn_id (id_map s)) as [a|] eqn:Ea; [|exact Hk].
    destruct (negb (truthy (PDict (deref s a)))); [exact Hk|].
    cbn [snd]. intros k b. cbn [id_map]. unfold deref. cbn [objects].
    destruct (txn_id =? k) eqn:E.
    + apply String.eqb_eq in E. subst k.
      rewrite assoc_map_pop_same by exact Hnd. discriminate.
    + rewrite assoc_map_pop_other by exact E. apply Hk.
Qed.

Lemma store_keys_are_ids_witness :
  InMemoryStore.keyed_by_id
    (snd (InMemoryStore.create sample_env InMemoryStore.init
            [("Id", PStr " A1 ")])).
Proof.
  destruct (store_keys_are_ids sample_env InMemoryStore.init "A1"
              [("Id", PStr " A1 ")]) as ((Hw & Hk) & H).
  exact (proj1 (H Hw Hk)).
Defined.
